(** * DevOps_AI: a shallow embedding of the fix-lifecycle core

    The development follows the Python sources module by module:

    - [PyStr]       the [str] methods the code calls ([lower], [upper],
                    [in], [split], [join]);
    - [Re]          the fragment of [re] the rule tables are written in;
    - [PyDict]      insertion-ordered dictionaries;
    - [PyList]      [list.sort] and slicing;
    - [Patterns]    [parser/patterns.py], class [ErrorPatterns];
    - [Classifier]  [classifier/error_classifier.py];
    - [FixEngine]   [fix_engine/deterministic_fix_engine.py];
    - [Patch]       [patch/patch_generator.py], over a tree model of the
                    file system;
    - [Memory]      [memory/incident_memory.py], with [MemoryOps] for
                    retrieval, search, statistics and deduplication;
    - [FixValidation], [PatchOps]  validation of fixes; generation and
                    rollback of patches;
    - [Float64]     the binary64 numbers, with [FixEngine64] and
                    [Memory64]: the ranking of fixes and the search for
                    similar incidents on them;
    - [Demo], [Demo64], [Example]  concrete inputs for the examples.

    Conventions.  Where a statement is about a bound or a threshold, a
    Python [float] is read as an exact rational ([Q]); where it is about
    the order of computed numbers, it is the double the code computes
    ([Float64]).  A naive [datetime] is the number of microseconds since
    1970-01-01T00:00:00 ([Z]) and a [timedelta] a number of
    microseconds; [str] is [string] (the ASCII letters are the cased
    characters).  Where Python leaves something open (the iteration
    order of a [set], the value of [hash], the digest of [md5], the
    summation of [sum]) the model takes it as a section variable. *)

From Stdlib Require Import Ascii String ZArith NArith QArith Qminmax Lqa Lia SpecFloat.
From stdpp Require Import base decidable option list strings pretty gmap sorting.

Set Default Proof Using "Type".
Local Open Scope string_scope.
Local Open Scope list_scope.

(** ** Python [str] *)

Module PyStr.

Definition is_upper (c : ascii) : bool :=
  let n := N_of_ascii c in ((65 <=? n) && (n <=? 90))%N.

Definition is_lower (c : ascii) : bool :=
  let n := N_of_ascii c in ((97 <=? n) && (n <=? 122))%N.

Definition lower_ascii (c : ascii) : ascii :=
  if is_upper c then ascii_of_N (N_of_ascii c + 32) else c.

Definition upper_ascii (c : ascii) : ascii :=
  if is_lower c then ascii_of_N (N_of_ascii c - 32) else c.

Fixpoint map_chars (f : ascii -> ascii) (s : string) : string :=
  match s with
  | EmptyString => EmptyString
  | String c s' => String (f c) (map_chars f s')
  end.

(** [s.lower()] and [s.upper()]. *)
Definition lower : string -> string := map_chars lower_ascii.
Definition upper : string -> string := map_chars upper_ascii.

(** [needle in s]. *)
Fixpoint contains (needle s : string) : bool :=
  String.prefix needle s
  || match s with
     | EmptyString => false
     | String _ s' => contains needle s'
     end.

(** The characters [str.split()] separates on, in the ASCII range:
    tab, line feed, vertical tab, form feed, carriage return, the four
    separators 0x1c-0x1f, and the space. *)
Definition is_space (c : ascii) : bool :=
  let n := N_of_ascii c in
  (((9 <=? n) && (n <=? 13)) || ((28 <=? n) && (n <=? 32)))%N.

(** [s.split()]: maximal runs of non-space characters.  [cur] is the
    run being read, in reverse. *)
Fixpoint split_aux (cur : list ascii) (s : string) : list string :=
  let flush rest :=
    match cur with
    | [] => rest
    | _ => string_of_list_ascii (rev cur) :: rest
    end in
  match s with
  | EmptyString => flush []
  | String c s' =>
      if is_space c then flush (split_aux [] s')
      else split_aux (c :: cur) s'
  end.

Definition split (s : string) : list string := split_aux [] s.

(** [sep.join(parts)]. *)
Fixpoint join (sep : string) (parts : list string) : string :=
  match parts with
  | [] => ""
  | [p] => p
  | p :: rest => String.append p (String.append sep (join sep rest))
  end.

End PyStr.

(** ** The [re] fragment of the rule tables

    Every pattern of the tables is built from literal words, [.], [*],
    [|] and grouping.  [Dot] is Python's [.]: any character but the line
    feed.  Matching goes by Brzozowski derivatives; [ic] is the
    [re.IGNORECASE] flag. *)

Module Re.

Inductive regex : Type :=
| Void
| Eps
| Chr (c : ascii)
| Dot
| Cat (r1 r2 : regex)
| Alt (r1 r2 : regex)
| Star (r : regex).

Fixpoint lit (s : string) : regex :=
  match s with
  | EmptyString => Eps
  | String c EmptyString => Chr c
  | String c s' => Cat (Chr c) (lit s')
  end.

(** [.*] *)
Definition any : regex := Star Dot.

(** [a|b|c] *)
Fixpoint alts (rs : list regex) : regex :=
  match rs with
  | [] => Void
  | [r] => r
  | r :: rs' => Alt r (alts rs')
  end.

(** [abc] *)
Fixpoint cats (rs : list regex) : regex :=
  match rs with
  | [] => Eps
  | [r] => r
  | r :: rs' => Cat r (cats rs')
  end.

(** [w1.*w2.*w3] *)
Fixpoint gap (ws : list string) : regex :=
  match ws with
  | [] => Eps
  | [w] => lit w
  | w :: ws' => Cat (lit w) (Cat any (gap ws'))
  end.

Fixpoint nullable (r : regex) : bool :=
  match r with
  | Void | Chr _ | Dot => false
  | Eps | Star _ => true
  | Cat r1 r2 => nullable r1 && nullable r2
  | Alt r1 r2 => nullable r1 || nullable r2
  end.

Definition mk_cat (r1 r2 : regex) : regex :=
  match r1, r2 with
  | Void, _ | _, Void => Void
  | Eps, r | r, Eps => r
  | _, _ => Cat r1 r2
  end.

Definition mk_alt (r1 r2 : regex) : regex :=
  match r1, r2 with
  | Void, r | r, Void => r
  | _, _ => Alt r1 r2
  end.

Definition chr_eqb (ic : bool) (a c : ascii) : bool :=
  if ic then Ascii.eqb (PyStr.lower_ascii a) (PyStr.lower_ascii c)
  else Ascii.eqb a c.

Definition line_feed : ascii := ascii_of_N 10.

Fixpoint deriv (ic : bool) (c : ascii) (r : regex) : regex :=
  match r with
  | Void | Eps => Void
  | Chr a => if chr_eqb ic a c then Eps else Void
  | Dot => if Ascii.eqb c line_feed then Void else Eps
  | Cat r1 r2 =>
      let d := mk_cat (deriv ic c r1) r2 in
      if nullable r1 then mk_alt d (deriv ic c r2) else d
  | Alt r1 r2 => mk_alt (deriv ic c r1) (deriv ic c r2)
  | Star r1 => mk_cat (deriv ic c r1) (Star r1)
  end.

(** Some prefix of [s] is in the language of [r]: [re.match]. *)
Fixpoint matches_prefix (ic : bool) (r : regex) (s : string) : bool :=
  nullable r
  || match s with
     | EmptyString => false
     | String c s' => matches_prefix ic (deriv ic c r) s'
     end.

(** Some substring of [s] is in the language of [r]: [re.search]
    read as a truth value. *)
Fixpoint search (ic : bool) (r : regex) (s : string) : bool :=
  matches_prefix ic r s
  || match s with
     | EmptyString => false
     | String _ s' => search ic r s'
     end.

(** The words of a pattern: what a match object of [re] can span. *)
Inductive lang (ic : bool) : regex -> string -> Prop :=
| lang_eps : lang ic Eps ""
| lang_chr a c : chr_eqb ic a c = true -> lang ic (Chr a) (String c "")
| lang_dot c : Ascii.eqb c line_feed = false -> lang ic Dot (String c "")
| lang_cat r1 r2 s1 s2 :
    lang ic r1 s1 -> lang ic r2 s2 -> lang ic (Cat r1 r2) (s1 +:+ s2)
| lang_alt_l r1 r2 s : lang ic r1 s -> lang ic (Alt r1 r2) s
| lang_alt_r r1 r2 s : lang ic r2 s -> lang ic (Alt r1 r2) s
| lang_star_nil r : lang ic (Star r) ""
| lang_star_cons r s1 s2 :
    lang ic r s1 -> lang ic (Star r) s2 -> lang ic (Star r) (s1 +:+ s2).

(** A pattern as the code holds it before compilation: a string.
    [PEmpty] is the empty string (falsy, and matching everywhere),
    [PRegex r] a string that compiles to [r], [PInvalid] a string on
    which [re] raises [re.error]. *)
Inductive pattern : Type :=
| PEmpty
| PRegex (r : regex)
| PInvalid.

(** [bool(pattern)] *)
Definition truthy (p : pattern) : bool :=
  match p with PEmpty => false | _ => true end.

(** [re.search(pattern, s, flags)]; [None] is the raised [re.error]. *)
Definition re_search (ic : bool) (p : pattern) (s : string) : option bool :=
  match p with
  | PEmpty => Some true
  | PRegex r => Some (search ic r s)
  | PInvalid => None
  end.

End Re.

(** ** Insertion-ordered dictionaries

    A Python [dict] keeps its keys in insertion order; assigning to a key
    that is present keeps its place. *)

Module PyDict.
Section Dict.
Context {K V : Type} `{EqDecision K}.

Definition t : Type := list (K * V).

Fixpoint get (k : K) (d : t) : option V :=
  match d with
  | [] => None
  | (k', v) :: d' => if decide (k' = k) then Some v else get k d'
  end.

(** [k in d] *)
Definition mem (k : K) (d : t) : bool := bool_decide (is_Some (get k d)).

(** [d[k] = v] *)
Fixpoint set (k : K) (v : V) (d : t) : t :=
  match d with
  | [] => [(k, v)]
  | (k', v') :: d' =>
      if decide (k' = k) then (k, v) :: d' else (k', v') :: set k v d'
  end.

(** [del d[k]], for a key that is present. *)
Fixpoint del (k : K) (d : t) : t :=
  match d with
  | [] => []
  | (k', v') :: d' => if decide (k' = k) then d' else (k', v') :: del k d'
  end.

Definition keys (d : t) : list K := d.*1.
Definition values (d : t) : list V := d.*2.

(** The representation invariant: no key twice. *)
Definition wf (d : t) : Prop := NoDup (keys d).

(** The bounded caches of the three engines:
    [if len(cache) >= size: del cache[next(iter(cache))]; cache[k] = v]. *)
Definition add_to_cache (size : nat) (k : K) (v : V) (d : t) : t :=
  let d' :=
    if (size <=? length d)%nat
    then match d with
         | [] => d        (* [next(iter({}))] raises; only when [size = 0] *)
         | (oldest, _) :: _ => del oldest d
         end
    else d in
  set k v d'.
End Dict.
Global Arguments t : clear implicits.
End PyDict.

(** ** Python [list] methods *)

Module PyList.

(** [l.sort(key=key, reverse=True)].  Python's sort is stable, also
    under [reverse]; on a total preorder a stable sort has one result,
    the one insertion from the right computes: an element stays
    behind those before it unless its key is strictly greater. *)
Section Sort.
Context {A K : Type} (lt : K -> K -> bool) (key : A -> K).

Fixpoint insert_desc (x : A) (l : list A) : list A :=
  match l with
  | [] => [x]
  | y :: l' => if lt (key x) (key y) then y :: insert_desc x l' else x :: l
  end.

Fixpoint sort_desc (l : list A) : list A :=
  match l with
  | [] => []
  | x :: l' => insert_desc x (sort_desc l')
  end.

(** An element may stay ahead of another: its key is not smaller. *)
Definition not_below (x y : A) : Prop := lt (key x) (key y) = false.
End Sort.

(** [l[:n]] for an [int] [n]: the first [n] elements, or, for a
    negative [n], all but the last [-n]. *)
Definition slice_to {A : Type} (n : Z) (l : list A) : list A :=
  if (0 <=? n)%Z then take (Z.to_nat n) l
  else take (length l - Z.to_nat (- n)) l.

End PyList.

(** ** [parser/patterns.py]: class [ErrorPatterns] *)

Module Patterns.
Import Re.

(** [self.error_patterns]: error type to its compiled patterns, every
    one compiled with [re.IGNORECASE]; a dict, so in insertion order. *)
Definition error_table : Type := list (string * list regex).

Definition _initialize_error_patterns : error_table :=
  [ ("database_errors",
      [ alts [gap ["connection"; "timeout"]; gap ["database"; "unavailable"];
              lit "deadlock"; gap ["constraint"; "violation"]];
        cats [alts [lit "mysql"; lit "postgres"; lit "mongodb"]; any; lit "error"];
        alts [gap ["sql"; "syntax"]; gap ["query"; "failed"]] ]);
    ("network_errors",
      [ alts [gap ["connection"; "refused"]; lit "timeout";
              gap ["network"; "unreachable"]];
        alts [gap ["dns"; "error"]; gap ["host"; "not"; "found"]];
        alts [gap ["ssl"; "error"]; gap ["certificate"; "error"]] ]);
    ("application_errors",
      [ alts [gap ["null"; "pointer"]; gap ["segmentation"; "fault"];
              gap ["out"; "of"; "memory"]];
        alts [gap ["permission"; "denied"]; gap ["access"; "denied"]];
        alts [gap ["file"; "not"; "found"]; gap ["directory"; "not"; "found"]] ]);
    ("authentication_errors",
      [ alts [gap ["invalid"; "credentials"]; gap ["authentication"; "failed"]];
        alts [lit "unauthorized"; lit "forbidden"];
        alts [gap ["session"; "expired"]; gap ["token"; "expired"]] ]);
    ("system_errors",
      [ alts [gap ["disk"; "full"]; gap ["out"; "of"; "space"]];
        alts [gap ["memory"; "leak"]; gap ["cpu"; "overload"]];
        alts [gap ["service"; "unavailable"]; gap ["system"; "down"]] ]) ].

(** One entry per error type with a matching pattern, in table order;
    [['unknown']] when there is none. *)
Definition classify_error (tbl : error_table) (message : string) : list string :=
  let classifications :=
    omap (fun '(error_type, patterns) =>
            if existsb (fun p => search true p message) patterns
            then Some error_type else None) tbl in
  match classifications with
  | [] => ["unknown"]
  | _ => classifications
  end.

Definition critical_keywords : list string :=
  ["fatal"; "critical"; "crash"; "down"; "unavailable"].
Definition warning_keywords : list string :=
  ["warn"; "warning"; "timeout"; "retry"].
Definition info_keywords : list string := ["info"; "debug"; "trace"].

Definition any_keyword (kws : list string) (s : string) : bool :=
  existsb (fun kw => PyStr.contains kw s) kws.

Definition _determine_severity (message : string) : string :=
  let message_lower := PyStr.lower message in
  if any_keyword critical_keywords message_lower then "CRITICAL"
  else if any_keyword warning_keywords message_lower then "WARNING"
  else if any_keyword info_keywords message_lower then "INFO"
  else "ERROR".

Definition component_patterns : list (regex * string) :=
  [ (alts [lit "database"; lit "db"], "database");
    (alts [lit "api"; lit "service"; lit "endpoint"], "service");
    (alts [lit "user"; lit "account"; lit "auth"], "authentication");
    (alts [lit "file"; lit "disk"; lit "storage"], "storage");
    (alts [lit "network"; lit "connection"; lit "socket"], "network");
    (alts [lit "memory"; lit "cpu"; lit "ram"], "system");
    (alts [lit "queue"; lit "message"; lit "event"], "messaging");
    (alts [lit "cache"; lit "redis"; lit "memcached"], "cache") ].

(** The labels of the rows whose pattern is found in [s] (searched
    without flags). *)
Definition labels_found (rows : list (regex * string)) (s : string) : list string :=
  omap (fun '(p, label) => if search false p s then Some label else None) rows.

Definition _extract_components (message : string) : list string :=
  labels_found component_patterns (PyStr.lower message).

Definition _suggest_actions (message : string) : list string :=
  let message_lower := PyStr.lower message in
  (if PyStr.contains "timeout" message_lower
   then ["Check network connectivity"; "Increase timeout settings";
         "Monitor resource usage"] else [])
  ++ (if PyStr.contains "connection" message_lower
      then ["Verify service availability"; "Check connection configuration";
            "Review firewall settings"] else [])
  ++ (if PyStr.contains "database" message_lower
      then ["Check database connectivity"; "Verify database permissions";
            "Review query performance"] else [])
  ++ (if PyStr.contains "authentication" message_lower
         || PyStr.contains "auth" message_lower
      then ["Verify credentials"; "Check authentication service";
            "Review session configuration"] else []).

Record error_context : Type := {
  error_types : list string;
  ctx_severity : string;
  ctx_components : list string;
  actions : list string
}.

Definition get_error_context (tbl : error_table) (message : string) : error_context :=
  {| error_types := classify_error tbl message;
     ctx_severity := _determine_severity message;
     ctx_components := _extract_components message;
     actions := _suggest_actions message |}.

End Patterns.

(** ** [classifier/error_classifier.py] *)

Module Classifier.
Import Re.

Record ErrorClassification : Type := {
  error_type : string;
  severity : string;
  confidence : Q;
  components : list string;
  suggested_actions : list string;
  root_cause : option string;
  affected_systems : list string;
  classification_rules : list string
}.

(** [config.classifier] *)
Record ClassifierConfig : Type := {
  enable_ml : bool;
  enable_rules : bool
}.

(** A value found under a key of [parsed_entry]: a [str], or an object
    of another type (it has a hash, and [re] and [str] methods raise on
    it). *)
Inductive pyvalue : Type :=
| VStr (s : string)
| VOther (h : Z).

Record parsed_entry : Type := {
  pe_message : option pyvalue;
  pe_structured_data : option (list (string * string))
}.

(** [min(a, b)] of Python: [b] when [b < a], else [a]. *)
Definition py_min (a b : Q) : Q := if Qle_bool a b then a else b.

Definition root_cause_patterns : list (string * list (regex * string)) :=
  [ ("database_errors",
      [ (gap ["connection"; "timeout"], "Database connection timeout");
        (lit "deadlock", "Database deadlock detected");
        (gap ["constraint"; "violation"], "Database constraint violation");
        (gap ["query"; "failed"], "SQL query execution failed") ]);
    ("network_errors",
      [ (gap ["connection"; "refused"], "Service connection refused");
        (lit "timeout", "Network timeout");
        (gap ["host"; "not"; "found"], "DNS resolution failed");
        (gap ["ssl"; "error"], "SSL/TLS handshake failed") ]);
    ("application_errors",
      [ (gap ["null"; "pointer"], "Null pointer exception");
        (gap ["segmentation"; "fault"], "Memory access violation");
        (gap ["out"; "of"; "memory"], "Memory exhaustion");
        (gap ["permission"; "denied"], "File system permission denied") ]) ].

(** The first cause, over the error types in order and their rows in
    order, whose pattern is found in the message. *)
Fixpoint _determine_root_cause (message : string) (error_types : list string)
  : option string :=
  match error_types with
  | [] => None
  | ty :: rest =>
      let rows := default [] (PyDict.get ty root_cause_patterns) in
      match List.find (fun '(p, _) => search true p message) rows with
      | Some (_, cause) => Some cause
      | None => _determine_root_cause message rest
      end
  end.

Definition system_patterns : list (regex * string) :=
  [ (alts [lit "api"; lit "rest"; lit "graphql"], "API Gateway");
    (alts [lit "database"; lit "db"; lit "mysql"; lit "postgres"; lit "mongodb"],
      "Database System");
    (alts [lit "cache"; lit "redis"; lit "memcached"], "Caching System");
    (alts [lit "queue"; lit "kafka"; lit "rabbitmq"], "Message Queue");
    (alts [lit "storage"; lit "s3"; lit "filesystem"], "Storage System");
    (alts [lit "auth"; lit "oauth"; lit "jwt"], "Authentication System");
    (alts [lit "monitoring"; lit "metrics"; lit "prometheus"], "Monitoring System");
    (alts [gap ["load"; "balancer"]; lit "nginx"; lit "haproxy"], "Load Balancer") ].

Section WithRuntime.
(** [hash] on strings, and the order in which a [set] built by
    adding the elements of a list hands them back. *)
Variable hash : string -> Z.
Variable list_of_set : list string -> list string.

Definition _determine_affected_systems (message : string)
    (components : list string) : list string :=
  list_of_set
    (components ++ Patterns.labels_found system_patterns (PyStr.lower message)).

Definition _get_classification_rules (message : string)
    (error_types : list string) : list string :=
  let components := Patterns._extract_components message in
  map (fun ty => "Error type detected: " +:+ ty) error_types
  ++ ["Severity determined: " +:+ Patterns._determine_severity message]
  ++ match components with
     | [] => []
     | _ => ["Components detected: " +:+ PyStr.join ", " components]
     end.

Definition _calculate_rule_confidence (error_types : list string)
    (message : string) : Q :=
  let c0 := 0%Q in
  let c1 := match error_types with
            | ty :: _ => if decide (ty = "unknown") then c0 else (c0 + 0.3)%Q
            | [] => c0
            end in
  let c2 := if (10 <? String.length message)%nat then (c1 + 0.1)%Q else c1 in
  let c3 := match Patterns._extract_components message with
            | [] => c2 | _ => (c2 + 0.2)%Q end in
  let c4 := match Patterns._suggest_actions message with
            | [] => c3 | _ => (c3 + 0.2)%Q end in
  let c5 := if decide (length error_types = 1%nat) then (c4 + 0.2)%Q else c4 in
  py_min c5 1%Q.

Definition _classify_with_rules (tbl : Patterns.error_table) (message : string)
    (structured_data : list (string * string)) : ErrorClassification :=
  let error_context := Patterns.get_error_context tbl message in
  let error_types := Patterns.error_types error_context in
  {| error_type := match error_types with ty :: _ => ty | [] => "unknown" end;
     severity := Patterns.ctx_severity error_context;
     confidence := _calculate_rule_confidence error_types message;
     components := Patterns.ctx_components error_context;
     suggested_actions := Patterns.actions error_context;
     root_cause := _determine_root_cause message error_types;
     affected_systems :=
       _determine_affected_systems message (Patterns.ctx_components error_context);
     classification_rules := _get_classification_rules message error_types |}.

(** The placeholder the ML path returns. *)
Definition _classify_with_ml : ErrorClassification :=
  {| error_type := "ml_predicted_type";
     severity := "INFO";
     confidence := 0.8%Q;
     components := ["ml_component"];
     suggested_actions := ["ML suggested action"];
     root_cause := Some "ML determined root cause";
     affected_systems := ["ml_system"];
     classification_rules := ["ml_rule"] |}.

Definition empty_classification : ErrorClassification :=
  {| error_type := "unknown";
     severity := "UNKNOWN";
     confidence := 0%Q;
     components := [];
     suggested_actions := [];
     root_cause := None;
     affected_systems := [];
     classification_rules := [] |}.

(** [sum(c.confidence for c in cs)] *)
Definition sum_confidence (cs : list ErrorClassification) : Q :=
  fold_left (fun acc c => (acc + confidence c)%Q) cs 0%Q.

Definition _combine_classifications (classifications : list ErrorClassification)
  : ErrorClassification :=
  match classifications with
  | [] => empty_classification
  | [c] => c
  | primary :: others =>
      let all_components :=
        list_of_set (components primary ++ concat (map components others)) in
      let all_actions :=
        list_of_set (suggested_actions primary)
        ++ concat (map suggested_actions others) in
      let combined_confidence :=
        (sum_confidence classifications
         / inject_Z (Z.of_nat (length classifications)))%Q in
      {| error_type := error_type primary;
         severity := severity primary;
         confidence := combined_confidence;
         components := all_components;
         suggested_actions := list_of_set all_actions;
         root_cause := root_cause primary;
         affected_systems := affected_systems primary;
         classification_rules := classification_rules primary |}
  end.

(** The classifier object: its configuration, the pattern table it
    shares with [ErrorPatterns], the ML model ([None] after
    [_load_ml_model], which loads nothing) and the memo table. *)
Record state : Type := {
  config : ClassifierConfig;
  error_patterns : Patterns.error_table;
  ml_model : option unit;
  _classification_cache : PyDict.t Z ErrorClassification
}.

Definition _cache_size : nat := 500.

Definition init (cfg : ClassifierConfig) : state :=
  {| config := cfg;
     error_patterns := Patterns._initialize_error_patterns;
     ml_model := None;
     _classification_cache := [] |}.

(** [None] is a raised exception: the rule path on a message that is
    not a string. *)
Definition _classify_error (st : state) (message : pyvalue)
    (structured_data : list (string * string)) : option ErrorClassification :=
  rule_part ←
    (if enable_rules (config st) then
       match message with
       | VStr m => Some [_classify_with_rules (error_patterns st) m structured_data]
       | VOther _ => None
       end
     else Some []);
  let ml_part :=
    if enable_ml (config st) && bool_decide (is_Some (ml_model st))
    then [_classify_with_ml] else [] in
  Some (_combine_classifications (rule_part ++ ml_part)).

Definition fallback_classification : ErrorClassification :=
  {| error_type := "unknown";
     severity := "UNKNOWN";
     confidence := 0%Q;
     components := [];
     suggested_actions := ["Manual investigation required"];
     root_cause := None;
     affected_systems := [];
     classification_rules := [] |}.

Definition hash_value (v : pyvalue) : Z :=
  match v with VStr s => hash s | VOther h => h end.

Definition classify (st : state) (entry : parsed_entry)
  : ErrorClassification * state :=
  let message := default (VStr "") (pe_message entry) in
  let structured_data := default [] (pe_structured_data entry) in
  let cache_key := hash_value message in
  match PyDict.get cache_key (_classification_cache st) with
  | Some cached => (cached, st)
  | None =>
      match _classify_error st message structured_data with
      | Some classification =>
          (classification,
           {| config := config st;
              error_patterns := error_patterns st;
              ml_model := ml_model st;
              _classification_cache :=
                PyDict.add_to_cache _cache_size cache_key classification
                  (_classification_cache st) |})
      | None => (fallback_classification, st)
      end
  end.

(** [update_classification_rules], on the patterns that compiled. *)
Definition update_classification_rules (st : state)
    (new_rules : list (string * list regex)) : state :=
  {| config := config st;
     error_patterns :=
       fold_left (fun tbl '(ty, pats) =>
                    PyDict.set ty (default [] (PyDict.get ty tbl) ++ pats) tbl)
                 new_rules (error_patterns st);
     ml_model := ml_model st;
     _classification_cache := _classification_cache st |}.

Definition clear_cache (st : state) : state :=
  {| config := config st;
     error_patterns := error_patterns st;
     ml_model := ml_model st;
     _classification_cache := [] |}.

End WithRuntime.
End Classifier.

(** ** [fix_engine/deterministic_fix_engine.py] *)

Module FixEngine.
Import Re.

(** One entry of a rule's ['changes'], and of a fix's [code_changes]
    (where ['files_affected'] is always the empty list); a key that is
    absent reads as the empty string. *)
Record code_change : Type := {
  file_pattern : string;
  search_pattern : string;
  replace_pattern : string;
  change_description : string
}.

(** A fix rule is a dict; the keys the engine reads through [get] may
    be absent.  ['pattern'] absent reads as the empty pattern. *)
Record rule : Type := {
  name : option string;
  pattern : Re.pattern;
  rule_fix_type : option string;
  rule_description : option string;
  changes : list code_change;
  rule_confidence : option Q;
  rule_risk_level : option string;
  rule_rollback_possible : option bool
}.

Record Fix : Type := {
  fix_type : string;
  description : string;
  code_changes : list code_change;
  confidence : Q;
  risk_level : string;
  rollback_possible : bool;
  estimated_impact : string
}.

(** The ['error_type'], ['severity'] and ['components'] of the
    classification dict, with the defaults of [get]. *)
Record classification : Type := {
  error_type : string;
  severity : string;
  components : list string
}.

(** An element of [analysis['error_context']]: the attributes the
    engine probes with [hasattr]. *)
Record code_context : Type := {
  code_snippet : option string;
  file_path : option string
}.

Record analysis : Type := {
  error_context : list code_context;
  common_patterns : list (Re.pattern * Z)
}.

Definition mk_rule (n : string) (p : regex) (ty descr : string)
    (chs : list code_change) (conf : Q) (risk : string) : rule :=
  {| name := Some n; pattern := PRegex p; rule_fix_type := Some ty;
     rule_description := Some descr; changes := chs;
     rule_confidence := Some conf; rule_risk_level := Some risk;
     rule_rollback_possible := Some true |}.

Definition py_files : string := ".*\.py$".

Definition _load_fix_rules : gmap string (list rule) :=
  list_to_map
    [ ("database_errors",
        [ mk_rule "connection_timeout_fix" (gap ["connection"; "timeout"])
            "configuration" "Increase connection timeout settings"
            [ {| file_pattern := py_files;
                 search_pattern := "connect_timeout\s*=\s*(\d+)";
                 replace_pattern := "connect_timeout = \1 * 2";
                 change_description := "Double connection timeout" |} ]
            0.8 "LOW";
          mk_rule "connection_pool_fix" (gap ["connection"; "pool"; "exhausted"])
            "configuration" "Increase connection pool size"
            [ {| file_pattern := py_files;
                 search_pattern := "pool_size\s*=\s*(\d+)";
                 replace_pattern := "pool_size = \1 + 5";
                 change_description := "Increase pool size by 5" |} ]
            0.7 "LOW" ]);
      ("network_errors",
        [ mk_rule "retry_mechanism_fix"
            (alts [lit "timeout"; gap ["connection"; "refused"]])
            "code" "Add retry mechanism for network operations"
            [ {| file_pattern := py_files;
                 search_pattern := "(requests\.get\([^)]+\))";
                 replace_pattern := "with_retry(\1)";
                 change_description := "Wrap requests with retry mechanism" |} ]
            0.6 "MEDIUM" ]);
      ("application_errors",
        [ mk_rule "null_pointer_fix" (alts [gap ["null"; "pointer"]; lit "NoneType"])
            "code" "Add null checks before object access"
            [ {| file_pattern := py_files;
                 search_pattern := "(\w+)\.(\w+)";
                 replace_pattern := "\1.\2 if \1 is not None else None";
                 change_description := "Add null check before attribute access" |} ]
            0.9 "LOW";
          mk_rule "index_out_of_range_fix" (gap ["index"; "out"; "of"; "range"])
            "code" "Add bounds checking for array access"
            [ {| file_pattern := py_files;
                 search_pattern := "(\w+)\[(\d+)\]";
                 replace_pattern := "\1[\2] if \2 < len(\1) else None";
                 change_description := "Add bounds checking for array access" |} ]
            0.8 "LOW" ]);
      ("authentication_errors",
        [ mk_rule "token_refresh_fix"
            (alts [gap ["token"; "expired"]; gap ["authentication"; "failed"]])
            "code" "Add token refresh mechanism"
            [ {| file_pattern := py_files;
                 search_pattern := "auth_token\s*=\s*get_token\(\)";
                 replace_pattern := "auth_token = get_token() or refresh_token()";
                 change_description := "Add token refresh fallback" |} ]
            0.7 "MEDIUM" ]);
      ("system_errors",
        [ mk_rule "memory_leak_fix"
            (alts [gap ["memory"; "leak"]; gap ["out"; "of"; "memory"]])
            "code" "Add proper resource cleanup"
            [ {| file_pattern := py_files;
                 search_pattern := "with\s+open\(([^)]+)\)\s+as\s+(\w+):";
                 replace_pattern :=
                   "with open(\1) as \2:\n        # Ensure proper file closure";
                 change_description := "Ensure proper file handling" |} ]
            0.6 "MEDIUM" ]) ].

(** [rule['risk_level'] in ['LOW', 'MEDIUM']]; [None] is the
    [KeyError] of a rule without the key. *)
Definition low_or_medium (r : rule) : option bool :=
  risk ← rule_risk_level r;
  Some (bool_decide (risk = "LOW") || bool_decide (risk = "MEDIUM")).

(** The list comprehension of the severity gate: it raises at the
    first rule without ['risk_level']. *)
Fixpoint filter_low_or_medium (rules : list rule) : option (list rule) :=
  match rules with
  | [] => Some []
  | r :: rest =>
      keep ← low_or_medium r;
      kept ← filter_low_or_medium rest;
      Some (if keep : bool then r :: kept else kept)
  end.

Definition _get_applicable_fix_rules (fix_rules : gmap string (list rule))
    (error_type severity : string) (components : list string)
  : option (list rule) :=
  let for_type := default [] (fix_rules !! error_type) in
  let for_components :=
    concat (map (fun component =>
                   default [] (fix_rules !! (error_type +:+ "_" +:+ component)))
                components) in
  let applicable_rules := for_type ++ for_components in
  if decide (severity = "CRITICAL")
  then filter_low_or_medium applicable_rules
  else Some applicable_rules.

(** A loop of [if re.search(p, s, re.IGNORECASE): return True] over
    pattern and subject pairs, falling through to [False]; [None] when
    a search raises before a match is found. *)
Fixpoint any_search (pairs : list (Re.pattern * string)) : option bool :=
  match pairs with
  | [] => Some false
  | (p, s) :: rest =>
      found ← re_search true p s;
      if found : bool then Some true else any_search rest
  end.

(** The snippets of the context elements that have one. *)
Definition snippets (error_context : list code_context) : list string :=
  omap code_snippet error_context.

Definition _rule_matches_context (r : rule) (error_context : list code_context)
    (common_patterns : list (Re.pattern * Z)) : option bool :=
  let by_snippet :=
    if truthy (pattern r)
    then map (fun s => (pattern r, s)) (snippets error_context) else [] in
  let by_description :=
    map (fun '(p, _) => (p, default "" (rule_description r))) common_patterns in
  any_search (by_snippet ++ by_description).

(** The number of snippets the rule's pattern is found in. *)
Fixpoint count_matches (p : Re.pattern) (ss : list string) : option nat :=
  match ss with
  | [] => Some 0%nat
  | s :: rest =>
      found ← re_search true p s;
      n ← count_matches p rest;
      Some (if found : bool then S n else n)
  end.

Definition _estimate_impact (r : rule) (error_context : list code_context) : string :=
  let affected_files := length (remove_dups (omap file_path error_context)) in
  if (10 <? affected_files)%nat then "HIGH"
  else if (3 <? affected_files)%nat then "MEDIUM"
  else "LOW".

(** [None] is the [None] the method returns when its body raised. *)
Definition _create_fix_from_rule (r : rule) (error_context : list code_context)
    (common_patterns : list (Re.pattern * Z)) : option Fix :=
  let confidence := default 0.5%Q (rule_confidence r) in
  context_matches ← count_matches (pattern r) (snippets error_context);
  let confidence :=
    if (0 <? context_matches)%nat
    then (confidence + 0.1 * inject_Z (Z.of_nat context_matches))%Q
    else confidence in
  Some {| fix_type := default "unknown" (rule_fix_type r);
          description := default "" (rule_description r);
          code_changes := changes r;
          confidence := Classifier.py_min confidence 1%Q;
          risk_level := default "UNKNOWN" (rule_risk_level r);
          rollback_possible := default false (rule_rollback_possible r);
          estimated_impact := _estimate_impact r error_context |}.

Definition _risk_score (risk_level : string) : Z :=
  let level := PyStr.upper risk_level in
  if decide (level = "LOW") then 1
  else if decide (level = "MEDIUM") then 2
  else if decide (level = "HIGH") then 3
  else if decide (level = "CRITICAL") then 4
  else 5.

(** The sort key [(x.confidence, -self._risk_score(x.risk_level))] and
    the order of tuples on it, the confidences read as exact rationals;
    [FixEngine64] has them as the doubles they are, for the ranking. *)
Definition sort_key (x : Fix) : Q * Z := (confidence x, - _risk_score (risk_level x))%Z.

Definition key_lt (k1 k2 : Q * Z) : bool :=
  negb (Qle_bool k2.1 k1.1)
  || (Qeq_bool k1.1 k2.1 && (k1.2 <? k2.2)%Z).

(** The loop over the applicable rules; [None] when
    [_rule_matches_context] raises. *)
Fixpoint fixes_of_rules (rules : list rule) (error_context : list code_context)
    (common_patterns : list (Re.pattern * Z)) : option (list Fix) :=
  match rules with
  | [] => Some []
  | r :: rest =>
      matched ← _rule_matches_context r error_context common_patterns;
      let here :=
        if matched : bool
        then option_list (_create_fix_from_rule r error_context common_patterns)
        else [] in
      more ← fixes_of_rules rest error_context common_patterns;
      Some (here ++ more)
  end.

Definition _generate_fixes_for_error (fix_rules : gmap string (list rule))
    (c : classification) (a : analysis) : option (list Fix) :=
  applicable_rules ←
    _get_applicable_fix_rules fix_rules (error_type c) (severity c) (components c);
  fixes ← fixes_of_rules applicable_rules (error_context a) (common_patterns a);
  Some (PyList.sort_desc key_lt sort_key fixes).

Section WithRuntime.
Variable hash : string -> Z.

Record state : Type := {
  fix_rules : gmap string (list rule);
  _fix_cache : PyDict.t Z (list Fix)
}.

Definition _cache_size : nat := 200.

Definition init : state :=
  {| fix_rules := _load_fix_rules; _fix_cache := [] |}.

Definition _generate_cache_key (c : classification) (a : analysis) : Z :=
  hash (PyStr.join "|"
          [ error_type c; severity c;
            pretty (length (error_context a));
            pretty (length (common_patterns a)) ]).

Definition generate_fixes (st : state) (c : classification) (a : analysis)
  : list Fix * state :=
  let cache_key := _generate_cache_key c a in
  match PyDict.get cache_key (_fix_cache st) with
  | Some cached => (cached, st)
  | None =>
      match _generate_fixes_for_error (fix_rules st) c a with
      | Some fixes =>
          (fixes,
           {| fix_rules := fix_rules st;
              _fix_cache :=
                PyDict.add_to_cache _cache_size cache_key fixes (_fix_cache st) |})
      | None => ([], st)
      end
  end.

Definition add_custom_fix_rule (st : state) (error_type : string) (r : rule)
  : state :=
  {| fix_rules :=
       <[error_type := default [] (fix_rules st !! error_type) ++ [r]]>
         (fix_rules st);
     _fix_cache := _fix_cache st |}.

Definition clear_cache (st : state) : state :=
  {| fix_rules := fix_rules st; _fix_cache := [] |}.

End WithRuntime.
End FixEngine.

(** ** [patch/patch_generator.py]: applying a patch

    The file system is a tree; a path is the list of its components from
    the root of the tree, [[]] being the root itself (the directory ["."]
    of a process started there).  The backup directory
    [f"{target_dir}/.backup_{patch.patch_id}"] is the child
    [".backup_" + patch_id] of the target directory: patch ids, as
    [_generate_patch_for_fix] builds them, hold no separator. *)

Module Patch.

#[local] Unset Elimination Schemes.
Inductive node : Type :=
| File (content : string)
| Dir (entries : list (string * node)).
#[local] Set Elimination Schemes.

Definition path : Type := list string.

Definition is_dir (n : node) : bool :=
  match n with Dir _ => true | File _ => false end.

(** The node at a path. *)
Fixpoint lookup (p : path) (n : node) : option node :=
  match p with
  | [] => Some n
  | x :: p' =>
      match n with
      | File _ => None
      | Dir es => m ← PyDict.get x es; lookup p' m
      end
  end.

(** [os.path.exists] *)
Definition exists_ (p : path) (fs : node) : bool :=
  bool_decide (is_Some (lookup p fs)).

(** The tree without the node at a path that is not the root. *)
Fixpoint remove (p : path) (n : node) : node :=
  match p, n with
  | [], _ | _, File _ => n
  | [x], Dir es => Dir (List.filter (fun e => negb (String.eqb e.1 x)) es)
  | x :: p', Dir es =>
      match PyDict.get x es with
      | Some m => Dir (PyDict.set x (remove p' m) es)
      | None => n
      end
  end.

(** The tree with [new] placed at a path where nothing is, the
    missing directories on the way created ([os.makedirs]); [None] when
    the path is taken or runs through a file. *)
Fixpoint place (p : path) (new : node) (n : node) : option node :=
  match p, n with
  | [], _ | _, File _ => None
  | [x], Dir es =>
      match PyDict.get x es with
      | Some _ => None
      | None => Some (Dir (PyDict.set x new es))
      end
  | x :: p', Dir es =>
      m' ← place p' new (default (Dir []) (PyDict.get x es));
      Some (Dir (PyDict.set x m' es))
  end.

Inductive exn : Type :=
| FileNotFoundError (p : path)
| FileExistsError (p : path)
| NotADirectoryError (p : path)
| InvalidArgument (p : path).

(** A computation on the file system that may raise: what it did to
    the tree stays done when it raises. *)
Definition io (A : Type) : Type := node -> (exn + A) * node.

Definition ret {A} (a : A) : io A := fun fs => (inr a, fs).
Definition raise {A} (e : exn) : io A := fun fs => (inl e, fs).
Definition bind {A B} (m : io A) (k : A -> io B) : io B :=
  fun fs => match m fs with
            | (inl e, fs') => (inl e, fs')
            | (inr a, fs') => k a fs'
            end.
Definition get_fs : io node := fun fs => (inr fs, fs).
Definition put_fs (fs' : node) : io unit := fun _ => (inr tt, fs').

Declare Scope io_scope.
Delimit Scope io_scope with io.
Notation "'let*' x := m 'in' k" := (bind m (fun x => k))
  (at level 10, x name, m at level 100, k at level 200) : io_scope.
Notation "'run' m 'in' k" := (bind m (fun _ => k))
  (at level 10, m at level 100, k at level 200) : io_scope.
Local Open Scope io_scope.

(** [shutil.rmtree(p)].  On the directory the process stands in, the
    entries go and the final [rmdir] raises. *)
Definition rmtree (p : path) : io unit :=
  let* fs := get_fs in
  match lookup p fs with
  | None => raise (FileNotFoundError p)
  | Some (File _) => raise (NotADirectoryError p)
  | Some (Dir _) =>
      match p with
      | [] => run put_fs (Dir []) in raise (InvalidArgument p)
      | _ => put_fs (remove p fs)
      end
  end.

(** [shutil.copytree(src, dst)]: the entries of [src] are listed
    before [dst] is made, so a [dst] inside [src] receives the tree as
    it stood. *)
Definition copytree (src dst : path) : io unit :=
  let* fs := get_fs in
  match lookup src fs with
  | None => raise (FileNotFoundError src)
  | Some (File _) => raise (NotADirectoryError src)
  | Some (Dir es) =>
      if exists_ dst fs then raise (FileExistsError dst)
      else match place dst (Dir es) fs with
           | Some fs' => put_fs fs'
           | None => raise (NotADirectoryError dst)
           end
  end.

Definition _create_backup (source_dir backup_dir : path) : io unit :=
  let* fs := get_fs in
  run (if exists_ backup_dir fs then rmtree backup_dir else ret tt) in
  copytree source_dir backup_dir.

Definition _restore_backup (target_dir backup_dir : path) : io unit :=
  let* fs := get_fs in
  run (if exists_ target_dir fs then rmtree target_dir else ret tt) in
  copytree backup_dir target_dir.

Record Patch : Type := {
  patch_id : string;
  description : string;
  format : string;
  content : string;
  affected_files : list string;
  created_at : Z;
  rollback_patch : option string
}.

(** An entry of [PatchResult.errors]: a message the method builds, or
    [str(e)] of an exception it caught. *)
Inductive error : Type :=
| Message (s : string)
| Raised (e : exn).

Record PatchResult : Type := {
  success : bool;
  patches : list Patch;
  errors : list error;
  warnings : list string;
  stats : list (string * path)
}.

(** The dict [_validate_patch_application] returns. *)
Record validation_result : Type := {
  v_success : bool;
  v_warnings : option (list string);
  v_errors : option (list error)
}.

Definition backup_name (p : Patch) : string := ".backup_" +:+ patch_id p.

Section Apply.
(** [config.patch.max_patch_size], in KB. *)
Variable max_patch_size : Z.
(** The two methods the spec treats as collaborators, [FileMutator]
    and [Validator]: [_apply_patch_content], which answers whether
    the forward content went in, and [_validate_patch_application]. *)
Variable apply_content : Patch -> path -> io bool.
Variable validate : Patch -> path -> io validation_result.

Definition apply_patch_body (patch : Patch) (target_dir : path) : io PatchResult :=
  if (max_patch_size * 1024 <? Z.of_nat (String.length (content patch)))%Z then
    ret {| success := false; patches := [];
           errors := [Message ("Patch " +:+ patch_id patch
                               +:+ " exceeds maximum size limit")];
           warnings := []; stats := [] |}
  else
    let backup_dir := target_dir ++ [backup_name patch] in
    run _create_backup target_dir backup_dir in
    let* applied := apply_content patch target_dir in
    if applied : bool then
      let* validation_result := validate patch target_dir in
      if v_success validation_result then
        ret {| success := true; patches := [patch]; errors := [];
               warnings := default [] (v_warnings validation_result);
               stats := [("backup_created", backup_dir)] |}
      else
        run _restore_backup target_dir backup_dir in
        ret {| success := false; patches := [];
               errors := default [Message "Validation failed"]
                           (v_errors validation_result);
               warnings := []; stats := [("backup_restored", backup_dir)] |}
    else
      run _restore_backup target_dir backup_dir in
      ret {| success := false; patches := [];
             errors := [Message ("Failed to apply patch " +:+ patch_id patch)];
             warnings := []; stats := [("backup_restored", backup_dir)] |}.

(** The [try ... except Exception] around the body. *)
Definition apply_patch (patch : Patch) (target_dir : path) (fs : node)
  : PatchResult * node :=
  match apply_patch_body patch target_dir fs with
  | (inr result, fs') => (result, fs')
  | (inl e, fs') =>
      ({| success := false; patches := []; errors := [Raised e];
          warnings := []; stats := [] |}, fs')
  end.
End Apply.

(** The two methods as the source ships them: simulations that touch
    nothing and report success. *)
Definition _apply_patch_content (patch : Patch) (target_dir : path) : io bool :=
  ret true.

Definition _validate_patch_application (patch : Patch) (target_dir : path)
  : io validation_result :=
  ret {| v_success := true; v_warnings := Some []; v_errors := Some [] |}.

End Patch.

(** ** [memory/incident_memory.py] *)

Module Memory.

(** The dicts an incident carries, by the keys the store reads; a key
    that is absent is [None]. *)
Record log_entry : Type := {
  message : option string;
  source : option string
}.

Record classification : Type := {
  error_type : option string;
  severity : option string;
  components : list string
}.

Record analysis : Type := {
  common_patterns : list (string * Z)
}.

Record Incident : Type := {
  incident_id : string;
  timestamp : Z;
  inc_log_entry : log_entry;
  parsed_data : list (string * string);
  inc_classification : classification;
  inc_analysis : analysis;
  fixes : list (list (string * string));
  patches : list (list (string * string));
  resolution_status : string;
  metadata : list (string * string)
}.

(** The argument of [store_incident]; an absent sub-dict reads as the
    empty one. *)
Record incident_data : Type := {
  d_log_entry : log_entry;
  d_parsed_data : list (string * string);
  d_classification : classification;
  d_analysis : analysis;
  d_fixes : list (list (string * string));
  d_patches : list (list (string * string))
}.

(** [config.memory] and [config.system.version]. *)
Record MemoryConfig : Type := {
  retention_days : Z;
  enable_compression : bool;
  enable_deduplication : bool;
  version : string
}.

Definition microseconds_per_hour : Z := 3600 * 1000000.
Definition microseconds_per_day : Z := 24 * microseconds_per_hour.

(** [a > b] on floats. *)
Definition Qgt_bool (a b : Q) : bool := negb (Qle_bool a b).

Definition tokens (text : string) : gset string := list_to_set (PyStr.split text).

(** Jaccard similarity of the token sets. *)
Definition _calculate_similarity (text1 text2 : string) : Q :=
  let set1 := tokens text1 in
  let set2 := tokens text2 in
  let intersection := set1 ∩ set2 in
  let union := set1 ∪ set2 in
  if decide (union = ∅) then 0%Q
  else (inject_Z (Z.of_nat (size intersection))
        / inject_Z (Z.of_nat (size union)))%Q.

Definition message_lower (i : Incident) : string :=
  PyStr.lower (default "" (message (inc_log_entry i))).

Definition same_kind (i1 i2 : Incident) : bool :=
  bool_decide (error_type (inc_classification i1) = error_type (inc_classification i2))
  && bool_decide (severity (inc_classification i1) = severity (inc_classification i2)).

Definition _calculate_incident_similarity (incident1 incident2 : Incident) : Q :=
  let similarity_scores :=
    (if bool_decide (error_type (inc_classification incident1)
                     = error_type (inc_classification incident2))
     then [0.4%Q] else [])
    ++ (if bool_decide (severity (inc_classification incident1)
                        = severity (inc_classification incident2))
        then [0.3%Q] else [])
    ++ [(_calculate_similarity (message_lower incident1) (message_lower incident2)
         * 0.3)%Q] in
  fold_left Qplus similarity_scores 0%Q.

Record state : Type := {
  config : MemoryConfig;
  _incidents : PyDict.t string Incident;
  _incident_cache : PyDict.t string Incident;
  (** what [_save_incidents] last wrote to the storage file *)
  storage : list Incident
}.

Definition _cache_size : nat := 100.

Definition _save_incidents (st : state) : state :=
  {| config := config st;
     _incidents := _incidents st;
     _incident_cache := _incident_cache st;
     storage := PyDict.values (_incidents st) |}.

(** [now] is the reading of the clock inside the check. *)
Definition _is_duplicate_incident (st : state) (now : Z) (new_incident : Incident)
  : bool :=
  let cutoff_time := (now - 24 * microseconds_per_hour)%Z in
  existsb
    (fun incident =>
       negb (timestamp incident <? cutoff_time)%Z
       && same_kind incident new_incident
       && Qgt_bool (_calculate_similarity (message_lower incident)
                      (message_lower new_incident)) 0.8%Q)
    (PyDict.values (_incidents st)).

(** [l[:n]] on a string. *)
Definition str_take (n : nat) (s : string) : string := String.substring 0 n s.

Section WithRuntime.
(** [hashlib.md5(...).hexdigest()], [datetime.strftime] with the
    format of the ids, [datetime.isoformat], and [str] of the
    pattern dict. *)
Variable md5_hexdigest : string -> string.
Variable strftime : Z -> string.
Variable isoformat : Z -> string.
Variable str_of_patterns : list (string * Z) -> string.

Definition _generate_incident_id (d : incident_data) (now : Z) : string :=
  let key_data :=
    [ default "" (message (d_log_entry d));
      default "" (error_type (d_classification d));
      default "" (severity (d_classification d));
      str_of_patterns (common_patterns (d_analysis d)) ] in
  let hash_digest := str_take 8 (md5_hexdigest (PyStr.join "|" key_data)) in
  "incident_" +:+ strftime now +:+ "_" +:+ hash_digest.

(** The readings of [datetime.now()] during one [store_incident], in
    the order they are taken. *)
Record clock : Type := {
  at_id : Z;
  at_timestamp : Z;
  at_created : Z;
  at_check : Z;
  at_stored : Z
}.

Definition new_incident (st : state) (d : incident_data) (clk : clock) : Incident :=
  {| incident_id := _generate_incident_id d (at_id clk);
     timestamp := at_timestamp clk;
     inc_log_entry := d_log_entry d;
     parsed_data := d_parsed_data d;
     inc_classification := d_classification d;
     inc_analysis := d_analysis d;
     fixes := d_fixes d;
     patches := d_patches d;
     resolution_status := "pending";
     metadata := [ ("created_at", isoformat (at_created clk));
                   ("source", "devops_ai");
                   ("version", version (config st)) ] |}.

Definition with_metadata (i : Incident) (k v : string) : Incident :=
  {| incident_id := incident_id i;
     timestamp := timestamp i;
     inc_log_entry := inc_log_entry i;
     parsed_data := parsed_data i;
     inc_classification := inc_classification i;
     inc_analysis := inc_analysis i;
     fixes := fixes i;
     patches := patches i;
     resolution_status := resolution_status i;
     metadata := PyDict.set k v (metadata i) |}.

(** The incident object is shared by [_incidents] and the cache, so
    the ['stored_at'] written after the save shows in both, and not
    in the file. *)
Definition store_incident (st : state) (d : incident_data) (clk : clock)
  : string * state :=
  let incident := new_incident st d clk in
  let id := incident_id incident in
  if enable_deduplication (config st)
     && _is_duplicate_incident st (at_check clk) incident
  then (id, st)
  else
    let saved :=
      _save_incidents
        {| config := config st;
           _incidents := PyDict.set id incident (_incidents st);
           _incident_cache :=
             PyDict.add_to_cache _cache_size id incident (_incident_cache st);
           storage := storage st |} in
    let incident' := with_metadata incident "stored_at" (isoformat (at_stored clk)) in
    (id,
     {| config := config saved;
        _incidents := PyDict.set id incident' (_incidents saved);
        _incident_cache := PyDict.set id incident' (_incident_cache saved);
        storage := storage saved |}).
End WithRuntime.

(** [get_incident_statistics()['total_incidents']] *)
Definition total_incidents (st : state) : nat := length (_incidents st).

(** The range of [datetime]: [datetime.min] is 0001-01-01T00:00:00 and
    [datetime.max] 9999-12-31T23:59:59.999999, in microseconds from
    1970-01-01T00:00:00. *)
Definition datetime_min : Z := -62135596800000000.
Definition datetime_max : Z := 253402300799999999.

Definition is_datetime (t : Z) : bool :=
  (datetime_min <=? t)%Z && (t <=? datetime_max)%Z.

(** [timedelta(days=n)]; [None] is the [OverflowError] of a magnitude
    above 999999999 days. *)
Definition timedelta_days (n : Z) : option Z :=
  if (Z.abs n <=? 999999999)%Z then Some (n * microseconds_per_day)%Z else None.

(** [t - delta] on a [datetime]; [None] is the [OverflowError] of a
    date out of range. *)
Definition datetime_sub (t delta : Z) : option Z :=
  let result := (t - delta)%Z in
  if is_datetime result then Some result else None.

(** [now] is the reading of the clock at the start of the pass.  The
    body runs under [try]; what raises in it is the computation of the
    cutoff, and the store is then left as it is. *)
Definition cleanup_old_incidents (st : state) (now : Z) : state :=
  match delta ← timedelta_days (retention_days (config st)); datetime_sub now delta with
  | None => st
  | Some cutoff_time =>
      let incidents_to_remove :=
        omap (fun '(incident_id, incident) =>
                if (timestamp incident <? cutoff_time)%Z
                then Some incident_id else None)
             (_incidents st) in
      let removed :=
        fold_left
          (fun s incident_id =>
             {| config := config s;
                _incidents := PyDict.del incident_id (_incidents s);
                _incident_cache :=
                  if PyDict.mem incident_id (_incident_cache s)
                  then PyDict.del incident_id (_incident_cache s)
                  else _incident_cache s;
                storage := storage s |})
          incidents_to_remove st in
      if (0 <? length incidents_to_remove)%nat then _save_incidents removed
      else removed
  end.

End Memory.

(** ** [memory/incident_memory.py]: retrieval, search, statistics and the
    background deduplication *)

Module MemoryOps.
Import Memory.

Definition with_cache (st : state) (cache : PyDict.t string Incident) : state :=
  {| config := config st;
     _incidents := _incidents st;
     _incident_cache := cache;
     storage := storage st |}.

(** The cache is asked first; an incident found in the store only is
    put into the cache on the way out. *)
Definition get_incident (st : state) (incident_id : string)
  : option Incident * state :=
  match PyDict.get incident_id (_incident_cache st) with
  | Some incident => (Some incident, st)
  | None =>
      match PyDict.get incident_id (_incidents st) with
      | Some incident =>
          (Some incident,
           with_cache st
             (PyDict.add_to_cache _cache_size incident_id incident (_incident_cache st)))
      | None => (None, st)
      end
  end.

(** The query dict of [search_incidents]: each filter is a key that may
    be absent.  The value under ['error_type'] and ['severity'] is
    compared with what [classification.get] answers, [None] included. *)
Record query : Type := {
  q_error_type : option (option string);
  q_severity : option (option string);
  q_start_time : option Z;
  q_end_time : option Z;
  q_message : option string;
  q_components : option (list string)
}.


(** [l.sort(key=lambda x: x.timestamp, reverse=True)] *)
Definition newest_first (l : list Incident) : list Incident :=
  PyList.sort_desc Z.ltb timestamp l.


(** [counts[k] += 1] on a [defaultdict(int)] *)
Definition count_up (k : string) (counts : PyDict.t string nat) : PyDict.t string nat :=
  PyDict.set k (S (default 0%nat (PyDict.get k counts))) counts.

Definition count_by (key : Incident -> string) (l : list Incident) : PyDict.t string nat :=
  fold_left (fun counts incident => count_up (key incident) counts) l [].

Record statistics : Type := {
  total_incidents : nat;
  error_types : PyDict.t string nat;
  severity_distribution : PyDict.t string nat;
  (** ['start'], ['end'] and ['span_days'] *)
  time_range : option (string * string * Z);
  recent_incidents : list string
}.

Definition get_incident_statistics (isoformat : Z -> string) (st : state)
  : statistics :=
  match PyDict.values (_incidents st) with
  | [] =>
      {| total_incidents := 0; error_types := []; severity_distribution := [];
         time_range := None; recent_incidents := [] |}
  | first :: rest =>
      let all := first :: rest in
      let earliest := fold_left Z.min (map timestamp rest) (timestamp first) in
      let latest := fold_left Z.max (map timestamp rest) (timestamp first) in
      {| total_incidents := length (_incidents st);
         error_types :=
           count_by (fun i => default "unknown" (error_type (inc_classification i))) all;
         severity_distribution :=
           count_by (fun i => default "UNKNOWN" (severity (inc_classification i))) all;
         time_range :=
           Some (isoformat earliest, isoformat latest,
                 ((latest - earliest) / microseconds_per_day)%Z);
         recent_incidents := map incident_id (take 10 (newest_first all)) |}
  end.

Definition clear_cache (st : state) : state := with_cache st [].

Definition clear_all_incidents (st : state) : state :=
  _save_incidents
    {| config := config st; _incidents := []; _incident_cache := [];
       storage := storage st |}.

(** *** [_perform_deduplication]

    The pass works on the incident objects themselves, which the store
    and the cache share under the same id; the model keeps the id next
    to each incident while it groups and sorts. *)

Definition kind (i : Incident) : option string * option string :=
  (error_type (inc_classification i), severity (inc_classification i)).

(** [incident_groups[key].append(incident)] over the store, in order. *)
Definition group_by_kind (entries : list (string * Incident))
  : PyDict.t (option string * option string) (list (string * Incident)) :=
  fold_left
    (fun groups entry =>
       PyDict.set (kind entry.2)
         (default [] (PyDict.get (kind entry.2) groups) ++ [entry]) groups)
    entries [].

(** The walk [for i in range(1, len(incidents))] over a group sorted
    newest first: the ids of the incidents to flag, each with the id of
    the incident just before it. *)
Fixpoint duplicate_marks (previous : string * Incident)
    (rest : list (string * Incident)) : list (string * string) :=
  match rest with
  | [] => []
  | current :: rest' =>
      (if Qgt_bool (_calculate_incident_similarity current.2 previous.2) 0.8%Q
       then [(current.1, incident_id previous.2)] else [])
      ++ duplicate_marks current rest'
  end.

Definition group_marks (group : list (string * Incident)) : list (string * string) :=
  if (length group <? 2)%nat then []
  else match PyList.sort_desc Z.ltb (fun e => timestamp e.2) group with
       | [] => []
       | newest :: rest => duplicate_marks newest rest
       end.

(** [current.resolution_status = 'duplicate';
     current.metadata['duplicate_of'] = previous.incident_id] *)
Definition mark_duplicate (duplicate_of : string) (i : Incident) : Incident :=
  {| incident_id := incident_id i;
     timestamp := timestamp i;
     inc_log_entry := inc_log_entry i;
     parsed_data := parsed_data i;
     inc_classification := inc_classification i;
     inc_analysis := inc_analysis i;
     fixes := fixes i;
     patches := patches i;
     resolution_status := "duplicate";
     metadata := PyDict.set "duplicate_of" duplicate_of (metadata i) |}.

(** The object under [k], where there is one, changed in place. *)
Definition update_entry (k : string) (f : Incident -> Incident)
    (d : PyDict.t string Incident) : PyDict.t string Incident :=
  match PyDict.get k d with
  | Some i => PyDict.set k (f i) d
  | None => d
  end.

Definition apply_marks (marks : list (string * string))
    (d : PyDict.t string Incident) : PyDict.t string Incident :=
  fold_left (fun d '(k, duplicate_of) => update_entry k (mark_duplicate duplicate_of) d)
    marks d.

Definition _perform_deduplication (st : state) : state :=
  if negb (enable_deduplication (config st)) then st
  else
    let marks :=
      concat (map (fun '(_, group) => group_marks group)
                  (group_by_kind (_incidents st))) in
    _save_incidents
      {| config := config st;
         _incidents := apply_marks marks (_incidents st);
         _incident_cache := apply_marks marks (_incident_cache st);
         storage := storage st |}.

End MemoryOps.

(** ** [fix_engine/deterministic_fix_engine.py]: validating a fix *)

Module FixValidation.

(** A validation rule is a dict; ['name'] and ['validation'] are read
    through [get]. *)
Record validation_rule : Type := {
  v_name : option string;
  v_description : option string;
  v_validation : option string
}.

Definition double_quote : string := String (ascii_of_N 34) "".

Definition mk_validation (n d v : string) : validation_rule :=
  {| v_name := Some n; v_description := Some d; v_validation := Some v |}.

Definition _load_validation_rules : gmap string (list validation_rule) :=
  list_to_map
    [ ("configuration",
        [ mk_validation "syntax_check" "Check for syntax errors" "python -m py_compile";
          mk_validation "import_check" "Check for import errors"
            ("python -c " +:+ double_quote +:+ "import module_name" +:+ double_quote) ]);
      ("code",
        [ mk_validation "syntax_check" "Check for syntax errors" "python -m py_compile";
          mk_validation "lint_check" "Check code style" "flake8" ]) ].

Record validation_outcome : Type := {
  o_name : string;
  o_success : bool;
  o_message : string
}.

Definition _run_validation (rule : validation_rule) (a_fix : FixEngine.Fix)
  : validation_outcome :=
  let validation_name := default "" (v_name rule) in
  if decide (validation_name = "syntax_check") then
    {| o_name := validation_name; o_success := true;
       o_message := "Syntax validation passed" |}
  else if decide (validation_name = "import_check") then
    {| o_name := validation_name; o_success := true;
       o_message := "Import validation passed" |}
  else if decide (validation_name = "lint_check") then
    {| o_name := validation_name; o_success := true;
       o_message := "Lint validation passed" |}
  else
    {| o_name := validation_name; o_success := true;
       o_message := "Validation passed" |}.

Record fix_validation : Type := {
  fix_description : string;
  success : bool;
  validation_results : list validation_outcome
}.

Definition _validate_fix (validation_rules : gmap string (list validation_rule))
    (a_fix : FixEngine.Fix) : fix_validation :=
  let results :=
    map (fun rule => _run_validation rule a_fix)
        (default [] (validation_rules !! FixEngine.fix_type a_fix)) in
  {| fix_description := FixEngine.description a_fix;
     success := forallb o_success results;
     validation_results := results |}.

Definition add_custom_validation_rule
    (validation_rules : gmap string (list validation_rule))
    (fix_type : string) (rule : validation_rule)
  : gmap string (list validation_rule) :=
  <[fix_type := default [] (validation_rules !! fix_type) ++ [rule]]> validation_rules.

End FixValidation.

(** ** [patch/patch_generator.py]: rolling back and generating patches *)

Module PatchOps.
Import Patch.
Local Open Scope io_scope.

(** [bool(patch.rollback_patch)]: there is inverse content, and it is
    not the empty string. *)
Definition has_rollback (patch : Patch) : bool :=
  match Patch.rollback_patch patch with
  | Some inverse => negb (String.eqb inverse "")
  | None => false
  end.

Definition rollback_backup_name (patch : Patch) : string :=
  ".backup_rollback_" +:+ patch_id patch.

Section Rollback.
(** [_apply_rollback_content], the collaborator that puts the inverse
    content in. *)
Variable apply_rollback : Patch -> path -> io bool.

Definition rollback_patch_body (patch : Patch) (target_dir : path) : io PatchResult :=
  if negb (has_rollback patch) then
    ret {| success := false; patches := [];
           errors := [Message ("No rollback patch available for " +:+ patch_id patch)];
           warnings := []; stats := [] |}
  else
    let backup_dir := target_dir ++ [rollback_backup_name patch] in
    run _create_backup target_dir backup_dir in
    let* rollback_success := apply_rollback patch target_dir in
    if rollback_success : bool then
      ret {| success := true; patches := [patch]; errors := []; warnings := [];
             stats := [("backup_created", backup_dir)] |}
    else
      run _restore_backup target_dir backup_dir in
      ret {| success := false; patches := [];
             errors := [Message ("Failed to rollback patch " +:+ patch_id patch)];
             warnings := []; stats := [("backup_restored", backup_dir)] |}.

Definition rollback_patch (patch : Patch) (target_dir : path) (fs : node)
  : PatchResult * node :=
  match rollback_patch_body patch target_dir fs with
  | (inr result, fs') => (result, fs')
  | (inl e, fs') =>
      ({| success := false; patches := []; errors := [Raised e];
          warnings := []; stats := [] |}, fs')
  end.
End Rollback.

(** The simulation the source ships. *)
Definition _apply_rollback_content (patch : Patch) (target_dir : path) : io bool :=
  ret true.

(** *** Generation *)

(** The value of [affected_files] under a file name. *)
Record change_info : Type := {
  ci_search_pattern : string;
  ci_replace_pattern : string;
  ci_description : string
}.

(** [Patch.metadata] *)
Record patch_metadata : Type := {
  m_fix_type : string;
  m_confidence : Q;
  m_risk_level : string;
  m_rollback_possible : bool;
  m_estimated_impact : string;
  m_affected_files_count : nat
}.

Definition newline : string := String (ascii_of_N 10) "".

(** [list(affected_files.keys())[0]]; [None] is the [IndexError] of an
    empty dict. *)
Definition first_file (affected_files : PyDict.t string change_info) : option string :=
  head (PyDict.keys affected_files).

Definition original_line (ci : change_info) : string := "    " +:+ ci_search_pattern ci.
Definition modified_line (ci : change_info) : string := "    " +:+ ci_replace_pattern ci.

(** The [-]/[+] lines of the git and unified formats, for the lines
    given as removed and as added. *)
Definition diff_lines (removed added : change_info -> string)
    (affected_files : PyDict.t string change_info) : list string :=
  concat (map (fun '(_, ci) => ["-" +:+ removed ci; "+" +:+ added ci]) affected_files).

Definition context_lines (removed added : change_info -> string)
    (affected_files : PyDict.t string change_info) : list string :=
  concat (map (fun '(_, ci) =>
                 ["*** 1,5 ****"; "  " +:+ removed ci;
                  "--- 1,5 ----"; "  " +:+ added ci]) affected_files).

Definition git_header (date subject : string) : list string :=
  [ "From: DevOps AI <devops-ai@example.com>";
    "Date: " +:+ date;
    "Subject: [PATCH] " +:+ subject;
    "" ].

Definition unified_header (file : string) : list string :=
  [ "--- a/" +:+ file; "+++ b/" +:+ file; "@@ -1,5 +1,5 @@" ].

Definition context_header (file : string) : list string :=
  [ "*** a/" +:+ file; "--- b/" +:+ file; "***************" ].

(** [date] is [datetime.now().strftime('%a %b %d %H:%M:%S %Y')]. *)
Definition _generate_git_patch (date : string) (description : string)
    (affected_files : PyDict.t string change_info) : option string :=
  file ← first_file affected_files;
  Some (PyStr.join newline
          (git_header date description ++ unified_header file
           ++ diff_lines original_line modified_line affected_files)).

Definition _generate_unified_patch (affected_files : PyDict.t string change_info)
  : option string :=
  file ← first_file affected_files;
  Some (PyStr.join newline
          (unified_header file ++ diff_lines original_line modified_line affected_files)).

Definition _generate_context_patch (affected_files : PyDict.t string change_info)
  : option string :=
  file ← first_file affected_files;
  Some (PyStr.join newline
          (context_header file
           ++ context_lines original_line modified_line affected_files)).

Definition _generate_git_rollback_patch (date : string) (description : string)
    (affected_files : PyDict.t string change_info) : option string :=
  file ← first_file affected_files;
  Some (PyStr.join newline
          (git_header date ("Rollback: " +:+ description) ++ unified_header file
           ++ diff_lines modified_line original_line affected_files)).

Definition _generate_unified_rollback_patch
    (affected_files : PyDict.t string change_info) : option string :=
  file ← first_file affected_files;
  Some (PyStr.join newline
          (unified_header file ++ diff_lines modified_line original_line affected_files)).

Definition _generate_context_rollback_patch
    (affected_files : PyDict.t string change_info) : option string :=
  file ← first_file affected_files;
  Some (PyStr.join newline
          (context_header file
           ++ context_lines modified_line original_line affected_files)).

(** [f"{n:04d}"] for [n] that is not negative. *)
Definition pad4 (n : Z) : string :=
  let digits := pretty n in
  String.concat "" (replicate (4 - String.length digits) "0") +:+ digits.

Section Generate.
(** [hash] on strings; the clock, read by successive calls of
    [datetime.now()]; the two [strftime] formats; [json.dump] of the
    metadata file. *)
Variable hash : string -> Z.
Variable now : nat -> Z.
Variable strftime_id : Z -> string.
Variable strftime_date : Z -> string.
Variable json_dump : Patch -> patch_metadata -> string.
(** [config.patch.patch_format] *)
Variable patch_format : string.

Record state : Type := {
  _patch_cache : PyDict.t Z (list (Patch * patch_metadata));
  (** the files of [config.patch.output_dir], by name *)
  output_dir : PyDict.t string string;
  (** how many times the clock has been read *)
  clock : nat
}.

Definition _cache_size : nat := 100.

Definition tick (st : state) : state :=
  {| _patch_cache := _patch_cache st; output_dir := output_dir st;
     clock := S (clock st) |}.

Definition write_file (name contents : string) (st : state) : state :=
  {| _patch_cache := _patch_cache st;
     output_dir := PyDict.set name contents (output_dir st);
     clock := clock st |}.

Definition mock_file (file_pattern : string) : string :=
  "mock_file_" +:+ pretty (hash file_pattern mod 1000)%Z +:+ ".py".

Definition _get_affected_files_from_fix (a_fix : FixEngine.Fix)
  : PyDict.t string change_info :=
  fold_left
    (fun affected_files change =>
       PyDict.set (mock_file (FixEngine.file_pattern change))
         {| ci_search_pattern := FixEngine.search_pattern change;
            ci_replace_pattern := FixEngine.replace_pattern change;
            ci_description := FixEngine.change_description change |}
         affected_files)
    (FixEngine.code_changes a_fix) [].

Definition _save_patch_to_file (patch : Patch) (meta : patch_metadata) (st : state)
  : state :=
  let st := write_file (patch_id patch +:+ ".patch") (content patch) st in
  let st := write_file (patch_id patch +:+ "_metadata.json") (json_dump patch meta) st in
  match Patch.rollback_patch patch with
  | Some inverse =>
      if String.eqb inverse "" then st
      else write_file (patch_id patch +:+ "_rollback.patch") inverse st
  | None => st
  end.

(** What [_generate_patch_for_fix] comes to: a patch, [None], or an
    exception. *)
Inductive generated : Type :=
| Generated (patch : Patch) (meta : patch_metadata)
| NoPatch
| Failed.

(** The forward and the inverse content in the configured format, and
    the state after the clock reads they take; [None] for a format that
    is not supported, or an [IndexError]. *)
Definition contents (description : string)
    (affected_files : PyDict.t string change_info) (st : state)
  : option (string * string) * state :=
  if decide (patch_format = "git") then
    let forward :=
      _generate_git_patch (strftime_date (now (clock st))) description affected_files in
    let st := tick st in
    let inverse :=
      _generate_git_rollback_patch (strftime_date (now (clock st))) description
        affected_files in
    let st := tick st in
    (f ← forward; i ← inverse; Some (f, i), st)
  else if decide (patch_format = "unified") then
    (f ← _generate_unified_patch affected_files;
     i ← _generate_unified_rollback_patch affected_files; Some (f, i), st)
  else if decide (patch_format = "context") then
    (f ← _generate_context_patch affected_files;
     i ← _generate_context_rollback_patch affected_files; Some (f, i), st)
  else (None, st).

Definition _generate_patch_for_fix (a_fix : FixEngine.Fix) (st : state)
  : generated * state :=
  let id :=
    "patch_" +:+ strftime_id (now (clock st)) +:+ "_"
    +:+ pad4 (hash (FixEngine.description a_fix) mod 10000)%Z in
  let st := tick st in
  let affected_files := _get_affected_files_from_fix a_fix in
  match affected_files with
  | [] => (NoPatch, st)
  | _ =>
      match contents (FixEngine.description a_fix) affected_files st with
      | (None, st) => (Failed, st)
      | (Some (patch_content, rollback_content), st) =>
          let meta :=
            {| m_fix_type := FixEngine.fix_type a_fix;
               m_confidence := FixEngine.confidence a_fix;
               m_risk_level := FixEngine.risk_level a_fix;
               m_rollback_possible := FixEngine.rollback_possible a_fix;
               m_estimated_impact := FixEngine.estimated_impact a_fix;
               m_affected_files_count := length affected_files |} in
          let patch :=
            {| patch_id := id;
               description := FixEngine.description a_fix;
               format := patch_format;
               content := patch_content;
               affected_files := PyDict.keys affected_files;
               created_at := now (clock st);
               Patch.rollback_patch :=
                 if FixEngine.rollback_possible a_fix
                    && negb (String.eqb rollback_content "")
                 then Some rollback_content else None |} in
          let st := tick st in
          (Generated patch meta, _save_patch_to_file patch meta st)
      end
  end.

(** The loop with its [try] around each fix. *)
Fixpoint _generate_patches_for_fixes (fixes : list FixEngine.Fix) (st : state)
  : list (Patch * patch_metadata) * state :=
  match fixes with
  | [] => ([], st)
  | a_fix :: rest =>
      let '(outcome, st) := _generate_patch_for_fix a_fix st in
      let '(more, st) := _generate_patches_for_fixes rest st in
      (match outcome with
       | Generated patch meta => (patch, meta) :: more
       | NoPatch | Failed => more
       end, st)
  end.

Definition _generate_cache_key (fixes : list FixEngine.Fix) : Z :=
  hash (PyStr.join "|"
          (pretty (length fixes)
           :: map (fun f => Memory.str_take 50 (FixEngine.description f)) fixes)).

Definition generate_patches (fixes : list FixEngine.Fix) (st : state)
  : list (Patch * patch_metadata) * state :=
  let cache_key := _generate_cache_key fixes in
  match PyDict.get cache_key (_patch_cache st) with
  | Some cached => (cached, st)
  | None =>
      let '(patches, st) := _generate_patches_for_fixes fixes st in
      (patches,
       {| _patch_cache :=
            PyDict.add_to_cache _cache_size cache_key patches (_patch_cache st);
          output_dir := output_dir st;
          clock := clock st |})
  end.
End Generate.

End PatchOps.

(** ** Python [float]: the binary64 numbers

    Where the order of two results is at stake, a [float] is the IEEE
    754 double it is: 53 bits of precision, round to nearest even, as
    [SpecFloat] defines the operations. *)

Module Float64.

Definition prec : Z := 53.
Definition emax : Z := 1024.

Definition float : Type := spec_float.

(** The double nearest to an integer; exact below [2^53]. *)
Definition of_Z (z : Z) : float := binary_normalize prec emax z 0 false.

(** The conversion of an [int] operand; [None] is the [OverflowError]
    of an [int] too large for a [float]. *)
Definition of_int (z : Z) : option float :=
  match of_Z z with
  | S754_infinity _ => None
  | f => Some f
  end.

Definition add : float -> float -> float := SFadd prec emax.
Definition mul : float -> float -> float := SFmul prec emax.
Definition div : float -> float -> float := SFdiv prec emax.

(** The literal written [n/d] in decimal, as [0.1] is [1/10]: the
    double nearest to the quotient ([n] and [d] below [2^53]). *)
Definition decimal (n : Z) (d : positive) : float := div (of_Z n) (of_Z (Zpos d)).

(** [x < y], [x == y] and [x <= y]; all three are [False] on a NaN. *)
Definition ltb : float -> float -> bool := SFltb.
Definition eqb : float -> float -> bool := SFeqb.
Definition leb : float -> float -> bool := SFleb.

Definition is_nan (x : float) : bool :=
  match x with S754_nan => true | _ => false end.

(** [math.isfinite] *)
Definition is_finite (x : float) : bool :=
  match x with S754_zero _ | S754_finite _ _ _ => true | _ => false end.

(** [min(a, b)]: [b] when [b < a], else [a]. *)
Definition py_min (a b : float) : float := if ltb b a then b else a.

(** The place of a number in the order of the doubles, as three
    integers compared from left to right: the class (the infinities
    outermost, the zeros in the middle), then exponent and mantissa,
    both negated for a negative number. *)
Definition class (x : float) : Z :=
  match x with
  | S754_infinity true => -2
  | S754_finite true _ _ => -1
  | S754_zero _ | S754_nan => 0
  | S754_finite false _ _ => 1
  | S754_infinity false => 2
  end.

Definition exponent (x : float) : Z :=
  match x with
  | S754_finite false _ e => e
  | S754_finite true _ e => - e
  | _ => 0
  end.

Definition mantissa (x : float) : Z :=
  match x with
  | S754_finite false m _ => Zpos m
  | S754_finite true m _ => Zneg m
  | _ => 0
  end.

Definition below (x y : float) : Prop :=
  (class x < class y
   \/ (class x = class y
       /\ (exponent x < exponent y
           \/ (exponent x = exponent y /\ mantissa x < mantissa y))))%Z.

Definition level (x y : float) : Prop :=
  (class x = class y /\ exponent x = exponent y /\ mantissa x = mantissa y)%Z.

End Float64.

(** ** [fix_engine/deterministic_fix_engine.py]: the ranking, on the
    doubles

    The engine once more, from the rules to the sorted list, with the
    confidences as the doubles the code computes: [0.7 + 0.1] is below
    [0.8] here, and a rule may hold a NaN.  What does not touch a
    confidence is taken from [FixEngine]. *)

Module FixEngine64.
Import Re.

Record rule : Type := {
  name : option string;
  pattern : Re.pattern;
  rule_fix_type : option string;
  rule_description : option string;
  changes : list FixEngine.code_change;
  rule_confidence : option Float64.float;
  rule_risk_level : option string;
  rule_rollback_possible : option bool
}.

Record Fix : Type := {
  fix_type : string;
  description : string;
  code_changes : list FixEngine.code_change;
  confidence : Float64.float;
  risk_level : string;
  rollback_possible : bool;
  estimated_impact : string
}.

(** [rule['risk_level'] in ['LOW', 'MEDIUM']]; [None] is the
    [KeyError] of a rule without the key. *)
Definition low_or_medium (r : rule) : option bool :=
  risk ← rule_risk_level r;
  Some (bool_decide (risk = "LOW") || bool_decide (risk = "MEDIUM")).

Fixpoint filter_low_or_medium (rules : list rule) : option (list rule) :=
  match rules with
  | [] => Some []
  | r :: rest =>
      keep ← low_or_medium r;
      kept ← filter_low_or_medium rest;
      Some (if keep : bool then r :: kept else kept)
  end.

Definition _get_applicable_fix_rules (fix_rules : gmap string (list rule))
    (error_type severity : string) (components : list string)
  : option (list rule) :=
  let for_type := default [] (fix_rules !! error_type) in
  let for_components :=
    concat (map (fun component =>
                   default [] (fix_rules !! (error_type +:+ "_" +:+ component)))
                components) in
  let applicable_rules := for_type ++ for_components in
  if decide (severity = "CRITICAL")
  then filter_low_or_medium applicable_rules
  else Some applicable_rules.

Definition _rule_matches_context (r : rule)
    (error_context : list FixEngine.code_context)
    (common_patterns : list (Re.pattern * Z)) : option bool :=
  let by_snippet :=
    if truthy (pattern r)
    then map (fun s => (pattern r, s)) (FixEngine.snippets error_context) else [] in
  let by_description :=
    map (fun '(p, _) => (p, default "" (rule_description r))) common_patterns in
  FixEngine.any_search (by_snippet ++ by_description).

Definition _estimate_impact (r : rule) (error_context : list FixEngine.code_context)
  : string :=
  let affected_files :=
    length (remove_dups (omap FixEngine.file_path error_context)) in
  if (10 <? affected_files)%nat then "HIGH"
  else if (3 <? affected_files)%nat then "MEDIUM"
  else "LOW".

(** [None] is the [None] the method returns when its body raised: a
    pattern that does not compile, or a count of matches too large for
    a [float]. *)
Definition _create_fix_from_rule (r : rule)
    (error_context : list FixEngine.code_context)
    (common_patterns : list (Re.pattern * Z)) : option Fix :=
  let confidence := default (Float64.decimal 5 10) (rule_confidence r) in
  context_matches ←
    FixEngine.count_matches (pattern r) (FixEngine.snippets error_context);
  confidence ←
    (if (0 <? context_matches)%nat
     then matches ← Float64.of_int (Z.of_nat context_matches);
          Some (Float64.add confidence (Float64.mul (Float64.decimal 1 10) matches))
     else Some confidence);
  Some {| fix_type := default "unknown" (rule_fix_type r);
          description := default "" (rule_description r);
          code_changes := changes r;
          confidence := Float64.py_min confidence (Float64.of_Z 1);
          risk_level := default "UNKNOWN" (rule_risk_level r);
          rollback_possible := default false (rule_rollback_possible r);
          estimated_impact := _estimate_impact r error_context |}.

(** The sort key [(x.confidence, -self._risk_score(x.risk_level))] and
    [<] on such tuples: the second components decide when the first
    are [==], else the first do.  (On a NaN neither holds, and the key
    is not below any other.) *)
Definition sort_key (x : Fix) : Float64.float * Z :=
  (confidence x, - FixEngine._risk_score (risk_level x))%Z.

Definition key_lt (k1 k2 : Float64.float * Z) : bool :=
  if Float64.eqb k1.1 k2.1 then (k1.2 <? k2.2)%Z else Float64.ltb k1.1 k2.1.

Fixpoint fixes_of_rules (rules : list rule)
    (error_context : list FixEngine.code_context)
    (common_patterns : list (Re.pattern * Z)) : option (list Fix) :=
  match rules with
  | [] => Some []
  | r :: rest =>
      matched ← _rule_matches_context r error_context common_patterns;
      let here :=
        if matched : bool
        then option_list (_create_fix_from_rule r error_context common_patterns)
        else [] in
      more ← fixes_of_rules rest error_context common_patterns;
      Some (here ++ more)
  end.

Definition _generate_fixes_for_error (fix_rules : gmap string (list rule))
    (c : FixEngine.classification) (a : FixEngine.analysis) : option (list Fix) :=
  applicable_rules ←
    _get_applicable_fix_rules fix_rules (FixEngine.error_type c)
      (FixEngine.severity c) (FixEngine.components c);
  fixes ←
    fixes_of_rules applicable_rules (FixEngine.error_context a)
      (FixEngine.common_patterns a);
  Some (PyList.sort_desc key_lt sort_key fixes).

Section WithRuntime.
Variable hash : string -> Z.

Record state : Type := {
  fix_rules : gmap string (list rule);
  _fix_cache : PyDict.t Z (list Fix)
}.

Definition generate_fixes (st : state) (c : FixEngine.classification)
    (a : FixEngine.analysis) : list Fix * state :=
  let cache_key := FixEngine._generate_cache_key hash c a in
  match PyDict.get cache_key (_fix_cache st) with
  | Some cached => (cached, st)
  | None =>
      match _generate_fixes_for_error (fix_rules st) c a with
      | Some fixes =>
          (fixes,
           {| fix_rules := fix_rules st;
              _fix_cache :=
                PyDict.add_to_cache FixEngine._cache_size cache_key fixes
                  (_fix_cache st) |})
      | None => ([], st)
      end
  end.

Definition add_custom_fix_rule (st : state) (error_type : string) (r : rule)
  : state :=
  {| fix_rules :=
       <[error_type := default [] (fix_rules st !! error_type) ++ [r]]>
         (fix_rules st);
     _fix_cache := _fix_cache st |}.

Definition clear_cache (st : state) : state :=
  {| fix_rules := fix_rules st; _fix_cache := [] |}.

End WithRuntime.
End FixEngine64.

(** ** [memory/incident_memory.py]: similar incidents, on the doubles *)

Module Memory64.
Import Memory.

(** [len(intersection) / len(union)], the sizes below [2^53]. *)
Definition _calculate_similarity (text1 text2 : string) : Float64.float :=
  let set1 := tokens text1 in
  let set2 := tokens text2 in
  let intersection := set1 ∩ set2 in
  let union := set1 ∪ set2 in
  if decide (union = ∅) then Float64.of_Z 0
  else Float64.div (Float64.of_Z (Z.of_nat (size intersection)))
         (Float64.of_Z (Z.of_nat (size union))).

Section WithRuntime.
(** The builtin [sum] on a list of floats: CPython adds from the left
    up to 3.11 and with a compensation term from 3.12 on, which can
    differ in the last bit. *)
Variable sum : list Float64.float -> Float64.float.

Definition similarity_scores (incident1 incident2 : Incident) : list Float64.float :=
  (if bool_decide (error_type (inc_classification incident1)
                   = error_type (inc_classification incident2))
   then [Float64.decimal 4 10] else [])
  ++ (if bool_decide (severity (inc_classification incident1)
                      = severity (inc_classification incident2))
      then [Float64.decimal 3 10] else [])
  ++ [Float64.mul
        (_calculate_similarity (message_lower incident1) (message_lower incident2))
        (Float64.decimal 3 10)].

Definition _calculate_incident_similarity (incident1 incident2 : Incident)
  : Float64.float :=
  sum (similarity_scores incident1 incident2).

Definition get_similar_incidents (st : state) (incident : Incident) (limit : Z)
  : list Incident :=
  let similar_incidents :=
    omap (fun stored_incident =>
            if decide (incident_id stored_incident = incident_id incident) then None
            else
              let similarity := _calculate_incident_similarity incident stored_incident in
              if Float64.ltb (Float64.decimal 5 10) similarity
              then Some (similarity, stored_incident) else None)
         (PyDict.values (_incidents st)) in
  let sorted := PyList.sort_desc Float64.ltb fst similar_incidents in
  map snd (PyList.slice_to limit sorted).
End WithRuntime.
End Memory64.

(** ** Runs of the engines, and the vocabulary of the statements *)

(** The message of the spec's end-to-end example. *)
Definition timeout_message : string := "Database connection timeout after 30s".

(** Stand-ins for what the Python runtime supplies, to run the model on
    concrete inputs. *)
Module Demo.
Definition hash (s : string) : Z := Z.of_nat (String.length s).
Definition list_of_set (l : list string) : list string := remove_dups l.
Definition md5_hexdigest (s : string) : string := "9e107d9d372bb6826bd81d3542a419d6".
Definition strftime (t : Z) : string := pretty (t / 1000000)%Z.
Definition isoformat (t : Z) : string := pretty t.
Definition str_of_patterns (d : list (string * Z)) : string :=
  "{" +:+ PyStr.join ", " (map (fun '(k, n) => "'" +:+ k +:+ "': " +:+ pretty n) d) +:+ "}".

(** A registry with a HIGH-risk and a LOW-risk rule for one error type,
    registered in that order, and a context both match. *)
Definition high_rule : FixEngine.rule :=
  FixEngine.mk_rule "pool_rewrite_fix" (Re.lit "pool") "code"
    "Rewrite the connection pool" [] 0.8 "HIGH".
Definition low_rule : FixEngine.rule :=
  FixEngine.mk_rule "pool_size_fix" (Re.lit "pool") "configuration"
    "Increase connection pool size" [] 0.8 "LOW".
Definition registry : gmap string (list FixEngine.rule) :=
  {[ "database_errors" := [high_rule; low_rule] ]}.
Definition engine : FixEngine.state :=
  {| FixEngine.fix_rules := registry; FixEngine._fix_cache := [] |}.
Definition critical : FixEngine.classification :=
  {| FixEngine.error_type := "database_errors";
     FixEngine.severity := "CRITICAL";
     FixEngine.components := ["database"] |}.
Definition warning : FixEngine.classification :=
  {| FixEngine.error_type := "database_errors";
     FixEngine.severity := "WARNING";
     FixEngine.components := ["database"] |}.
Definition pool_analysis : FixEngine.analysis :=
  {| FixEngine.error_context :=
       [ {| FixEngine.code_snippet := Some "pool = Pool(size=5)";
            FixEngine.file_path := Some "db.py" |} ];
     FixEngine.common_patterns := [] |}.

(** A context the shipped [connection_timeout_fix] matches. *)
Definition timeout_analysis : FixEngine.analysis :=
  {| FixEngine.error_context :=
       [ {| FixEngine.code_snippet := Some "raise ConnectionError('Connection timeout')";
            FixEngine.file_path := Some "db.py" |} ];
     FixEngine.common_patterns := [] |}.

(** A patch, a tree with a directory [srv] to apply it to, and a
    validator that rejects what it is shown. *)
Definition patch : Patch.Patch :=
  {| Patch.patch_id := "patch_20240101_000000_0042";
     Patch.description := "Increase connection timeout settings";
     Patch.format := "git";
     Patch.content := "diff --git a/app.py b/app.py";
     Patch.affected_files := ["app.py"];
     Patch.created_at := 0;
     Patch.rollback_patch := None |}.
Definition srv : Patch.node :=
  Patch.Dir [("app.py", Patch.File "connect_timeout = 30")].
Definition tree : Patch.node := Patch.Dir [("srv", srv)].
Definition rejecting_validator (p : Patch.Patch) (target_dir : Patch.path)
  : Patch.io Patch.validation_result :=
  Patch.ret {| Patch.v_success := false;
               Patch.v_warnings := Some [];
               Patch.v_errors := Some [Patch.Message "syntax check failed"] |}.

(** The incident of the spec's dedup example, a clock that reads [t]
    throughout one call, and an empty store. *)
Definition timeout_incident : Memory.incident_data :=
  {| Memory.d_log_entry :=
       {| Memory.message := Some timeout_message; Memory.source := Some "app.log" |};
     Memory.d_parsed_data := [];
     Memory.d_classification :=
       {| Memory.error_type := Some "database_errors";
          Memory.severity := Some "WARNING";
          Memory.components := ["database"; "network"] |};
     Memory.d_analysis := {| Memory.common_patterns := [] |};
     Memory.d_fixes := [];
     Memory.d_patches := [] |}.
Definition clock_at (t : Z) : Memory.clock :=
  {| Memory.at_id := t; Memory.at_timestamp := t; Memory.at_created := t;
     Memory.at_check := t; Memory.at_stored := t |}.
Definition empty_store (deduplicate : bool) : Memory.state :=
  {| Memory.config :=
       {| Memory.retention_days := 365;
          Memory.enable_compression := true;
          Memory.enable_deduplication := deduplicate;
          Memory.version := "1.0.0" |};
     Memory._incidents := [];
     Memory._incident_cache := [];
     Memory.storage := [] |}.
Definition store (st : Memory.state) (d : Memory.incident_data) (t : Z)
  : string * Memory.state :=
  Memory.store_incident md5_hexdigest strftime isoformat str_of_patterns st d (clock_at t).

(** The example incident stored at time 0 and again one second later,
    with deduplication switched on or off. *)
Definition stored_once (deduplicate : bool) : Memory.state :=
  (store (empty_store deduplicate) timeout_incident 0).2.
Definition stored_twice (deduplicate : bool) : Memory.state :=
  (store (stored_once deduplicate) timeout_incident 1000000).2.

(** The incident the second call builds, as a query. *)
Definition second_incident (deduplicate : bool) : Memory.Incident :=
  Memory.new_incident md5_hexdigest strftime isoformat str_of_patterns
    (stored_once deduplicate) timeout_incident (clock_at 1000000).
End Demo.

Definition in_unit_interval (q : Q) : Prop := (0 <= q)%Q /\ (q <= 1)%Q.

(** The arithmetic mean of a list of numbers. *)
Definition sumQ (qs : list Q) : Q := foldr Qplus 0%Q qs.
Definition mean (qs : list Q) : Q := (sumQ qs / inject_Z (Z.of_nat (length qs)))%Q.

(** Every memoised classification has its confidence in [[0,1]]. *)
Definition cache_unit (st : Classifier.state) : Prop :=
  forall k c, (k, c) ∈ Classifier._classification_cache st ->
              in_unit_interval (Classifier.confidence c).

(** The states a classifier can be in: built by [__init__], then driven
    through its public methods. *)
Section ClassifierRuns.
Variable hash : string -> Z.
Variable list_of_set : list string -> list string.

Inductive classifier_reachable : Classifier.state -> Prop :=
| creach_init cfg :
    classifier_reachable (Classifier.init cfg)
| creach_classify st entry :
    classifier_reachable st ->
    classifier_reachable (Classifier.classify hash list_of_set st entry).2
| creach_update st new_rules :
    classifier_reachable st ->
    classifier_reachable (Classifier.update_classification_rules st new_rules)
| creach_clear st :
    classifier_reachable st ->
    classifier_reachable (Classifier.clear_cache st).
End ClassifierRuns.

(** The states of a fix engine whose rules all satisfy [ok]: any
    registry of such rules with an empty cache, then driven through the
    public methods, custom rules satisfying [ok] too. *)
Section EngineRuns.
Variable hash : string -> Z.
Variable ok : FixEngine.rule -> Prop.

Definition registry_ok (fix_rules : gmap string (list FixEngine.rule)) : Prop :=
  forall ty rs, fix_rules !! ty = Some rs -> Forall ok rs.

Inductive engine_reachable : FixEngine.state -> Prop :=
| ereach_init fix_rules :
    registry_ok fix_rules ->
    engine_reachable {| FixEngine.fix_rules := fix_rules; FixEngine._fix_cache := [] |}
| ereach_generate st c a :
    engine_reachable st ->
    engine_reachable (FixEngine.generate_fixes hash st c a).2
| ereach_add st ty r :
    ok r ->
    engine_reachable st ->
    engine_reachable (FixEngine.add_custom_fix_rule st ty r)
| ereach_clear st :
    engine_reachable st ->
    engine_reachable (FixEngine.clear_cache st).
End EngineRuns.

(** A rule whose declared confidence, when it declares one, is in
    [[0,1]]. *)
Definition rule_confidence_ok (r : FixEngine.rule) : Prop :=
  forall q, FixEngine.rule_confidence r = Some q -> in_unit_interval q.

(** A rule whose declared confidence, when it declares one, is a finite
    number (not a NaN, not an infinity). *)
Definition finite_confidence (r : FixEngine64.rule) : Prop :=
  forall q, FixEngine64.rule_confidence r = Some q -> Float64.is_finite q = true.

(** [f] may stand before [g] in a ranking: [g.confidence <= f.confidence],
    and where [f.confidence == g.confidence] the risk score of [f] is at
    most that of [g]. *)
Definition ranks_before (f g : FixEngine64.Fix) : Prop :=
  Float64.leb (FixEngine64.confidence g) (FixEngine64.confidence f) = true
  /\ (Float64.eqb (FixEngine64.confidence f) (FixEngine64.confidence g) = true ->
      (FixEngine._risk_score (FixEngine64.risk_level f)
       <= FixEngine._risk_score (FixEngine64.risk_level g))%Z).

(** Every element may stand before every later one. *)
Definition ranked (fixes : list FixEngine64.Fix) : Prop :=
  StronglySorted ranks_before fixes.

(** [g] ties with [f]: equal confidence and equal risk score. *)
Definition same_rank (f g : FixEngine64.Fix) : bool :=
  Float64.eqb (FixEngine64.confidence f) (FixEngine64.confidence g)
  && (FixEngine._risk_score (FixEngine64.risk_level f)
      =? FixEngine._risk_score (FixEngine64.risk_level g))%Z.

(** The fix a candidate rule contributes in a context, on the doubles. *)
Definition candidate_fix64 (a : FixEngine.analysis) (r : FixEngine64.rule)
  : option FixEngine64.Fix :=
  match FixEngine64._rule_matches_context r (FixEngine.error_context a)
          (FixEngine.common_patterns a) with
  | Some true =>
      FixEngine64._create_fix_from_rule r (FixEngine.error_context a)
        (FixEngine.common_patterns a)
  | _ => None
  end.

(** The states of a fix engine whose rules all satisfy [ok], on the
    doubles: any registry of such rules with an empty cache, then driven
    through the public methods. *)
Section Engine64Runs.
Variable hash : string -> Z.
Variable ok : FixEngine64.rule -> Prop.

Definition registry64_ok (fix_rules : gmap string (list FixEngine64.rule)) : Prop :=
  forall ty rs, fix_rules !! ty = Some rs -> Forall ok rs.

Inductive engine64_reachable : FixEngine64.state -> Prop :=
| ereach64_init fix_rules :
    registry64_ok fix_rules ->
    engine64_reachable
      {| FixEngine64.fix_rules := fix_rules; FixEngine64._fix_cache := [] |}
| ereach64_generate st c a :
    engine64_reachable st ->
    engine64_reachable (FixEngine64.generate_fixes hash st c a).2
| ereach64_add st ty r :
    ok r ->
    engine64_reachable st ->
    engine64_reachable (FixEngine64.add_custom_fix_rule st ty r)
| ereach64_clear st :
    engine64_reachable st ->
    engine64_reachable (FixEngine64.clear_cache st).
End Engine64Runs.

(** The fix a candidate rule contributes in a context, if any: the rule
    has to match the context, and the fix has to build. *)
Definition candidate_fix (a : FixEngine.analysis) (r : FixEngine.rule)
  : option FixEngine.Fix :=
  match FixEngine._rule_matches_context r (FixEngine.error_context a)
          (FixEngine.common_patterns a) with
  | Some true =>
      FixEngine._create_fix_from_rule r (FixEngine.error_context a)
        (FixEngine.common_patterns a)
  | _ => None
  end.

(** [r] is registered under the error type of [c] or under one of its
    ["{error_type}_{component}"] keys. *)
Definition registered_for (fix_rules : gmap string (list FixEngine.rule))
    (c : FixEngine.classification) (r : FixEngine.rule) : Prop :=
  exists key rs,
    (key = FixEngine.error_type c
     \/ exists component, component ∈ FixEngine.components c
          /\ key = FixEngine.error_type c +:+ "_" +:+ component)
    /\ fix_rules !! key = Some rs /\ r ∈ rs.

Definition low_or_medium_risk (risk : string) : Prop :=
  risk = "LOW" \/ risk = "MEDIUM".

Definition timeout_entry : Classifier.parsed_entry :=
  {| Classifier.pe_message := Some (Classifier.VStr timeout_message);
     Classifier.pe_structured_data := Some [] |}.

(** The states an incident store goes through: empty at first (the
    storage file missing), then driven through its methods, each call
    with the clock readings it happens to take. *)
Section MemoryRuns.
Variable md5_hexdigest : string -> string.
Variable strftime : Z -> string.
Variable isoformat : Z -> string.
Variable str_of_patterns : list (string * Z) -> string.

Inductive memory_reachable : Memory.state -> Prop :=
| mreach_init cfg :
    memory_reachable
      {| Memory.config := cfg; Memory._incidents := [];
         Memory._incident_cache := []; Memory.storage := [] |}
| mreach_store st d clk :
    memory_reachable st ->
    memory_reachable
      (Memory.store_incident md5_hexdigest strftime isoformat str_of_patterns st d clk).2
| mreach_get st id :
    memory_reachable st ->
    memory_reachable (MemoryOps.get_incident st id).2
| mreach_cleanup st now :
    memory_reachable st ->
    memory_reachable (Memory.cleanup_old_incidents st now)
| mreach_deduplicate st :
    memory_reachable st ->
    memory_reachable (MemoryOps._perform_deduplication st)
| mreach_clear_cache st :
    memory_reachable st ->
    memory_reachable (MemoryOps.clear_cache st)
| mreach_clear_all st :
    memory_reachable st ->
    memory_reachable (MemoryOps.clear_all_incidents st).
End MemoryRuns.

(** What the cache holds under an id is what the store holds under
    it. *)
Definition cache_coherent (st : Memory.state) : Prop :=
  forall id incident,
    PyDict.get id (Memory._incident_cache st) = Some incident ->
    PyDict.get id (Memory._incidents st) = Some incident.

(** Two incidents that differ at most in [resolution_status] and
    [metadata]. *)
Definition same_record (i i' : Memory.Incident) : Prop :=
  Memory.incident_id i' = Memory.incident_id i
  /\ Memory.timestamp i' = Memory.timestamp i
  /\ Memory.inc_log_entry i' = Memory.inc_log_entry i
  /\ Memory.parsed_data i' = Memory.parsed_data i
  /\ Memory.inc_classification i' = Memory.inc_classification i
  /\ Memory.inc_analysis i' = Memory.inc_analysis i
  /\ Memory.fixes i' = Memory.fixes i
  /\ Memory.patches i' = Memory.patches i.

(** A change read backwards: what it searched for is what it puts. *)
Definition inverse_change (ci : PatchOps.change_info) : PatchOps.change_info :=
  {| PatchOps.ci_search_pattern := PatchOps.ci_replace_pattern ci;
     PatchOps.ci_replace_pattern := PatchOps.ci_search_pattern ci;
     PatchOps.ci_description := PatchOps.ci_description ci |}.

Definition inverse_changes (affected_files : PyDict.t string PatchOps.change_info)
  : PyDict.t string PatchOps.change_info :=
  map (fun '(file, ci) => (file, inverse_change ci)) affected_files.

(** A fix that has something to change. *)
Definition has_changes (f : FixEngine.Fix) : bool :=
  match FixEngine.code_changes f with [] => false | _ => true end.

(** A pattern registered under [ty] is found in the message. *)
Definition detects (tbl : Patterns.error_table) (ty message : string) : Prop :=
  exists patterns p,
    (ty, patterns) ∈ tbl /\ p ∈ patterns /\ Re.search true p message = true.

(** No pattern of the table is found in the message. *)
Definition undetected (tbl : Patterns.error_table) (message : string) : Prop :=
  forall ty patterns p,
    (ty, patterns) ∈ tbl -> p ∈ patterns -> Re.search true p message = false.


(** What a store keeps true of itself: no id twice in the store or in
    the cache, the cache within its capacity and agreeing with the
    store. *)
Definition memory_invariant (st : Memory.state) : Prop :=
  PyDict.wf (Memory._incidents st)
  /\ PyDict.wf (Memory._incident_cache st)
  /\ (length (Memory._incident_cache st) <= 100)%nat
  /\ cache_coherent st.

(** [sum(counts.values())] *)
Definition total_count (counts : PyDict.t string nat) : nat :=
  foldr plus 0%nat (PyDict.values counts).


(** What a code change of a fix turns into under its mock file. *)
Definition change_info_of (change : FixEngine.code_change) : PatchOps.change_info :=
  {| PatchOps.ci_search_pattern := FixEngine.search_pattern change;
     PatchOps.ci_replace_pattern := FixEngine.replace_pattern change;
     PatchOps.ci_description := FixEngine.change_description change |}.

(** The patch formats the generator knows. *)
Definition supported_format (patch_format : string) : Prop :=
  patch_format = "git" \/ patch_format = "unified" \/ patch_format = "context".

(** The result of a rollback that was refused for want of inverse
    content. *)
Definition no_rollback_available (patch : Patch.Patch) : Patch.PatchResult :=
  {| Patch.success := false; Patch.patches := [];
     Patch.errors :=
       [Patch.Message ("No rollback patch available for " +:+ Patch.patch_id patch)];
     Patch.warnings := []; Patch.stats := [] |}.

(** ** Further inputs *)

Module Example.
(** A classifier whose memo table is full: 500 classifications under
    the keys 1000 to 1499. *)
Definition full_cache : PyDict.t Z Classifier.ErrorClassification :=
  map (fun n => ((1000 + Z.of_nat n)%Z, Classifier.fallback_classification))
      (seq 0 500).
Definition rules_only : Classifier.ClassifierConfig :=
  {| Classifier.enable_ml := false; Classifier.enable_rules := true |}.
Definition full_classifier : Classifier.state :=
  {| Classifier.config := rules_only;
     Classifier.error_patterns := Patterns._initialize_error_patterns;
     Classifier.ml_model := None;
     Classifier._classification_cache := full_cache |}.

(** Rules for cache trouble, to be added to a classifier. *)
Definition cache_rules : list (string * list Re.regex) :=
  [("cache_errors", [Re.lit "evicted"; Re.gap ["cache"; "miss"]])].

(** A custom rule whose author left out the ['risk_level'], registered
    beside a low-risk rule. *)
Definition riskless_rule : FixEngine.rule :=
  {| FixEngine.name := Some "pool_restart_fix";
     FixEngine.pattern := Re.PRegex (Re.lit "pool");
     FixEngine.rule_fix_type := Some "code";
     FixEngine.rule_description := Some "Restart the connection pool";
     FixEngine.changes := [];
     FixEngine.rule_confidence := Some 0.9%Q;
     FixEngine.rule_risk_level := None;
     FixEngine.rule_rollback_possible := Some true |}.
Definition riskless_engine : FixEngine.state :=
  {| FixEngine.fix_rules := {[ "database_errors" := [Demo.low_rule; riskless_rule] ]};
     FixEngine._fix_cache := [] |}.

(** A request like [Demo.warning] on [Demo.pool_analysis] in error
    type, severity and list lengths, and unlike it in the rest. *)
Definition other_warning : FixEngine.classification :=
  {| FixEngine.error_type := "database_errors";
     FixEngine.severity := "WARNING";
     FixEngine.components := ["network"; "cache"] |}.

(** Two incidents of one kind with the same words, a minute apart, in
    a store that deduplicates. *)
Definition incident_at (id : string) (t : Z) : Memory.Incident :=
  {| Memory.incident_id := id;
     Memory.timestamp := t;
     Memory.inc_log_entry := Memory.d_log_entry Demo.timeout_incident;
     Memory.parsed_data := [];
     Memory.inc_classification := Memory.d_classification Demo.timeout_incident;
     Memory.inc_analysis := Memory.d_analysis Demo.timeout_incident;
     Memory.fixes := [];
     Memory.patches := [];
     Memory.resolution_status := "pending";
     Memory.metadata := [] |}.
Definition older : Memory.Incident := incident_at "incident_older" 0.
Definition newer : Memory.Incident := incident_at "incident_newer" 60000000.
Definition twin_store : Memory.state :=
  {| Memory.config := Memory.config (Demo.empty_store true);
     Memory._incidents := [("incident_older", older); ("incident_newer", newer)];
     Memory._incident_cache := [];
     Memory.storage := [] |}.

(** A patch that carries inverse content. *)
Definition reversible_patch : Patch.Patch :=
  {| Patch.patch_id := "patch_20240101_000000_0042";
     Patch.description := "Increase connection timeout settings";
     Patch.format := "unified";
     Patch.content := "-    connect_timeout = 30";
     Patch.affected_files := ["app.py"];
     Patch.created_at := 0;
     Patch.rollback_patch := Some "+    connect_timeout = 30" |}.

(** A fix with two changes to the Python files, and one that cannot be
    rolled back. *)
Definition timeout_change : FixEngine.code_change :=
  {| FixEngine.file_pattern := FixEngine.py_files;
     FixEngine.search_pattern := "connect_timeout = 30";
     FixEngine.replace_pattern := "connect_timeout = 60";
     FixEngine.change_description := "Double connection timeout" |}.
Definition pool_change : FixEngine.code_change :=
  {| FixEngine.file_pattern := FixEngine.py_files;
     FixEngine.search_pattern := "pool_size = 5";
     FixEngine.replace_pattern := "pool_size = 10";
     FixEngine.change_description := "Double pool size" |}.
Definition two_change_fix (rollback_possible : bool) : FixEngine.Fix :=
  {| FixEngine.fix_type := "configuration";
     FixEngine.description := "Tune the database connection";
     FixEngine.code_changes := [timeout_change; pool_change];
     FixEngine.confidence := 0.8%Q;
     FixEngine.risk_level := "LOW";
     FixEngine.rollback_possible := rollback_possible;
     FixEngine.estimated_impact := "LOW" |}.

(** Stand-ins for the clock and the formatting of the patch generator,
    and a generator that has done nothing yet. *)
Definition now (n : nat) : Z := Z.of_nat n.
Definition strftime_id (t : Z) : string := pretty t.
Definition strftime_date (t : Z) : string := pretty t.
Definition json_dump (p : Patch.Patch) (m : PatchOps.patch_metadata) : string :=
  "{" +:+ Patch.patch_id p +:+ "}".
Definition generator : PatchOps.state :=
  {| PatchOps._patch_cache := []; PatchOps.output_dir := []; PatchOps.clock := 0 |}.
Definition _generate_patch_for_fix (patch_format : string) :=
  PatchOps._generate_patch_for_fix Demo.hash now strftime_id strftime_date json_dump
    patch_format.
Definition generate_patches (patch_format : string) :=
  PatchOps.generate_patches Demo.hash now strftime_id strftime_date json_dump
    patch_format.
End Example.

(** ** Inputs on the doubles *)

Module Demo64.
(** [sum] as CPython up to 3.11 computes it: from the [int] 0, adding
    from the left. *)
Definition sum (l : list Float64.float) : Float64.float :=
  fold_left Float64.add l (Float64.of_Z 0).

Definition mk_rule (n : string) (p : Re.regex) (descr : string)
    (conf : Float64.float) (risk : string) : FixEngine64.rule :=
  {| FixEngine64.name := Some n;
     FixEngine64.pattern := Re.PRegex p;
     FixEngine64.rule_fix_type := Some "code";
     FixEngine64.rule_description := Some descr;
     FixEngine64.changes := [];
     FixEngine64.rule_confidence := Some conf;
     FixEngine64.rule_risk_level := Some risk;
     FixEngine64.rule_rollback_possible := Some true |}.

Definition empty_engine : FixEngine64.state :=
  {| FixEngine64.fix_rules := ∅; FixEngine64._fix_cache := [] |}.

(** The two rules of the spec's example: equal confidence 0.8, risks
    HIGH and LOW, registered in that order. *)
Definition high_rule : FixEngine64.rule :=
  mk_rule "pool_rewrite_fix" (Re.lit "pool") "Rewrite the connection pool"
    (Float64.decimal 8 10) "HIGH".
Definition low_rule : FixEngine64.rule :=
  mk_rule "pool_size_fix" (Re.lit "pool") "Increase connection pool size"
    (Float64.decimal 8 10) "LOW".
Definition engine : FixEngine64.state :=
  FixEngine64.add_custom_fix_rule
    (FixEngine64.add_custom_fix_rule empty_engine "database_errors" high_rule)
    "database_errors" low_rule.

(** A rule of confidence 0.7 whose pattern is found in one snippet,
    before a rule of confidence 0.8 that matches by its description
    only: the first comes to [0.7 + 0.1], which is below [0.8]. *)
Definition raised_rule : FixEngine64.rule :=
  mk_rule "retry_fix" (Re.lit "pool") "Retry the connection"
    (Float64.decimal 7 10) "LOW".
Definition plain_rule : FixEngine64.rule :=
  mk_rule "restart_fix" (Re.lit "restart") "Restart the pool"
    (Float64.decimal 8 10) "HIGH".
Definition rounding_engine : FixEngine64.state :=
  FixEngine64.add_custom_fix_rule
    (FixEngine64.add_custom_fix_rule empty_engine "database_errors" raised_rule)
    "database_errors" plain_rule.
Definition rounding_analysis : FixEngine.analysis :=
  {| FixEngine.error_context :=
       [ {| FixEngine.code_snippet := Some "pool = Pool(size=5)";
            FixEngine.file_path := Some "db.py" |} ];
     FixEngine.common_patterns := [(Re.PRegex (Re.lit "pool"), 3%Z)] |}.

(** A query and two stored incidents whose similarities to it are both
    21/40 as fractions: one agrees with it in severity and in 6 words
    of 8, the other in error type and in 5 words of 12. *)
Definition incident (id message error_type severity : string) (t : Z)
  : Memory.Incident :=
  {| Memory.incident_id := id;
     Memory.timestamp := t;
     Memory.inc_log_entry :=
       {| Memory.message := Some message; Memory.source := Some "app.log" |};
     Memory.parsed_data := [];
     Memory.inc_classification :=
       {| Memory.error_type := Some error_type;
          Memory.severity := Some severity;
          Memory.components := [] |};
     Memory.inc_analysis := {| Memory.common_patterns := [] |};
     Memory.fixes := [];
     Memory.patches := [];
     Memory.resolution_status := "pending";
     Memory.metadata := [] |}.
Definition query : Memory.Incident :=
  incident "query" "db pool timeout on host alpha" "database_errors" "ERROR" 0.
Definition sev_only : Memory.Incident :=
  incident "sev_only" "db pool timeout on host alpha again today"
    "network_errors" "ERROR" 1000000.
Definition type_only : Memory.Incident :=
  incident "type_only" "db pool timeout on host beta gamma delta rate limit hit"
    "database_errors" "WARNING" 2000000.
Definition store : Memory.state :=
  {| Memory.config := Memory.config (Demo.empty_store true);
     Memory._incidents := [("sev_only", sev_only); ("type_only", type_only)];
     Memory._incident_cache := [];
     Memory.storage := [] |}.
End Demo64.

(** The cases of two numbers that are not NaN, with the comparisons
    unfolded. *)
Ltac float_cases x y :=
  destruct x as [[]|[]| |[] mx ex], y as [[]|[]| |[] my ey]; try discriminate;
  unfold Float64.ltb, Float64.eqb, Float64.leb, SFltb, SFeqb, SFleb, SFcompare,
    Float64.below, Float64.level;
  cbn [Float64.class Float64.exponent Float64.mantissa];
  try (change (Pos.compare_cont Eq mx my) with (Pos.compare mx my);
       destruct (Z.compare_spec ex ey); destruct (Pos.compare_spec mx my));
  cbn [CompOpp].

(** * Properties *)

(** ** Dictionaries *)

Section PyDictFacts.
Context {K V : Type} `{EqDecision K}.
Implicit Types (d : PyDict.t K V) (k : K) (v : V).

Lemma get_Some_elem_of d k v : PyDict.get k d = Some v -> (k, v) ∈ d.
Proof.
  induction d as [|[k' v'] d IH]; simpl; [done|].
  case_decide as Hk; intros Hget.
  - injection Hget as ->. subst. left.
  - right. auto.
Qed.

Lemma get_set_eq d k v : PyDict.get k (PyDict.set k v d) = Some v.
Proof.
  induction d as [|[k' v'] d IH]; simpl.
  - by rewrite decide_True.
  - case_decide as Hk; simpl; [by rewrite decide_True | by rewrite decide_False].
Qed.

Lemma get_set_ne d k k' v : k <> k' -> PyDict.get k' (PyDict.set k v d) = PyDict.get k' d.
Proof.
  intros Hne. induction d as [|[k0 v0] d IH]; simpl.
  - by rewrite decide_False.
  - destruct (decide (k0 = k)) as [->|Hk]; simpl.
    + by rewrite !decide_False.
    + by rewrite IH.
Qed.

Lemma elem_of_set d k v k' v' :
  (k', v') ∈ PyDict.set k v d -> (k', v') = (k, v) \/ (k', v') ∈ d.
Proof.
  induction d as [|[k0 v0] d IH]; simpl.
  - intros ->%list_elem_of_singleton. by left.
  - case_decide; rewrite !elem_of_cons; intros [Heq|Hin]; auto.
    destruct (IH Hin); auto.
Qed.

Lemma elem_of_del d k k' v' : (k', v') ∈ PyDict.del k d -> (k', v') ∈ d.
Proof.
  induction d as [|[k0 v0] d IH]; simpl; [done|].
  case_decide; rewrite !elem_of_cons; [auto|]. intros [Heq|Hin]; auto.
Qed.

Lemma elem_of_add_to_cache size d k v k' v' :
  (k', v') ∈ PyDict.add_to_cache size k v d -> (k', v') = (k, v) \/ (k', v') ∈ d.
Proof.
  unfold PyDict.add_to_cache. intros [?|Hin]%elem_of_set; [by left|right].
  destruct (size <=? length d)%nat; [|done].
  destruct d as [|[oldest ?] d']; [done|]. by eapply elem_of_del.
Qed.

Lemma keys_set_fresh d k v :
  k ∉ PyDict.keys d -> PyDict.keys (PyDict.set k v d) = PyDict.keys d ++ [k].
Proof.
  unfold PyDict.keys. induction d as [|[k0 v0] d IH]; simpl; [done|].
  rewrite not_elem_of_cons. intros [Hne Hnotin].
  rewrite decide_False by done. rewrite fmap_cons. simpl. by rewrite IH.
Qed.

Lemma keys_set_present d k v :
  k ∈ PyDict.keys d -> PyDict.keys (PyDict.set k v d) = PyDict.keys d.
Proof.
  unfold PyDict.keys. induction d as [|[k0 v0] d IH]; simpl.
  - by intros ?%elem_of_nil.
  - case_decide as Hk; [by subst|].
    rewrite elem_of_cons. intros [?|Hin]; [by subst|].
    rewrite fmap_cons. simpl. by rewrite IH.
Qed.

Lemma set_wf d k v : PyDict.wf d -> PyDict.wf (PyDict.set k v d).
Proof.
  unfold PyDict.wf. intros Hwf.
  destruct (decide (k ∈ PyDict.keys d)) as [Hin|Hnotin].
  - by rewrite keys_set_present.
  - rewrite keys_set_fresh by done.
    apply NoDup_app. split_and!; [done| |apply NoDup_singleton].
    intros x Hx ->%list_elem_of_singleton. done.
Qed.

Lemma keys_del_sublist d k : PyDict.keys (PyDict.del k d) `sublist_of` PyDict.keys d.
Proof.
  unfold PyDict.keys. induction d as [|[k0 v0] d IH]; simpl; [done|].
  case_decide; simpl; [by apply sublist_cons | by apply sublist_skip].
Qed.

Lemma del_wf d k : PyDict.wf d -> PyDict.wf (PyDict.del k d).
Proof. unfold PyDict.wf. intros Hwf. eapply sublist_NoDup; [exact Hwf | apply keys_del_sublist]. Qed.

Lemma add_to_cache_wf size d k v : PyDict.wf d -> PyDict.wf (PyDict.add_to_cache size k v d).
Proof.
  intros Hwf. unfold PyDict.add_to_cache. apply set_wf.
  destruct (size <=? length d)%nat; [|done].
  destruct d as [|[oldest ?] d']; [done|]. by apply del_wf.
Qed.

Lemma get_del_ne d k k' : k <> k' -> PyDict.get k' (PyDict.del k d) = PyDict.get k' d.
Proof.
  intros Hne. induction d as [|[k0 v0] d IH]; simpl; [done|].
  destruct (decide (k0 = k)) as [->|Hk]; simpl.
  - by rewrite decide_False.
  - by rewrite IH.
Qed.

Lemma get_None_not_key d k : PyDict.get k d = None <-> k ∉ PyDict.keys d.
Proof.
  unfold PyDict.keys. induction d as [|[k0 v0] d IH]; simpl.
  - split; [intros _; apply not_elem_of_nil | done].
  - rewrite not_elem_of_cons. case_decide as Hk.
    + split; [done|]. intros [Hne _]. by destruct Hne.
    + rewrite IH. split; [intros ?; split; [congruence|done] | by intros [_ ?]].
Qed.

Lemma get_del_eq d k : PyDict.wf d -> PyDict.get k (PyDict.del k d) = None.
Proof.
  unfold PyDict.wf, PyDict.keys. induction d as [|[k0 v0] d IH]; simpl; [done|].
  intros [Hnotin Hnd]%NoDup_cons. case_decide as Hk; simpl.
  - subst. by apply get_None_not_key.
  - rewrite decide_False by done. auto.
Qed.

Lemma elem_of_wf_get d k v : PyDict.wf d -> (k, v) ∈ d -> PyDict.get k d = Some v.
Proof.
  unfold PyDict.wf, PyDict.keys. induction d as [|[k0 v0] d IH]; simpl.
  - by intros _ ?%elem_of_nil.
  - intros [Hnotin Hnd]%NoDup_cons [Heq|Hin]%elem_of_cons.
    + injection Heq as -> ->. by rewrite decide_True.
    + rewrite decide_False; [auto|].
      intros ->. apply Hnotin. apply list_elem_of_fmap. by exists (k, v).
Qed.
End PyDictFacts.

(** ** Lists *)

Lemma elem_of_concat_map {A B : Type} (f : A -> list B) (l : list A) (x : B) :
  x ∈ concat (map f l) <-> exists a, a ∈ l /\ x ∈ f a.
Proof.
  induction l as [|a l IH]; simpl.
  - split; [by intros ?%elem_of_nil | by intros (a & ?%elem_of_nil & _)].
  - rewrite elem_of_app, IH. split.
    + intros [Hx|(a' & Ha' & Hx)]; [exists a | exists a']; split; auto.
      * apply list_elem_of_here.
      * by apply list_elem_of_further.
    + intros (a' & [->|Ha']%elem_of_cons & Hx); eauto.
Qed.

(** ** Rational arithmetic of the confidence model *)

Lemma py_min_unit (a : Q) : (0 <= a)%Q -> in_unit_interval (Classifier.py_min a 1).
Proof.
  intros Ha. unfold Classifier.py_min, in_unit_interval.
  destruct (Qle_bool a 1) eqn:E; [apply Qle_bool_iff in E|]; split; lra.
Qed.

(** ** Patterns: the matcher finds exactly the matches *)

Section ReFacts.
Variable ic : bool.

Import Re.

Lemma append_nil_l (s : string) : "" +:+ s = s.
Proof. reflexivity. Qed.

Lemma append_cons (c : ascii) (s1 s2 : string) :
  String c s1 +:+ s2 = String c (s1 +:+ s2).
Proof. reflexivity. Qed.

Lemma append_empty_r (s : string) : s +:+ "" = s.
Proof. induction s as [|c s IH]; [done|]. rewrite append_cons. by f_equal. Qed.

Lemma append_eq_empty (s1 s2 : string) : s1 +:+ s2 = "" -> s1 = "" /\ s2 = "".
Proof.
  destruct s1 as [|c s1]; [by rewrite append_nil_l|].
  rewrite append_cons. discriminate.
Qed.

Lemma append_eq_cons (s1 s2 s : string) (c : ascii) :
  s1 +:+ s2 = String c s ->
  (s1 = "" /\ s2 = String c s) \/ exists s1', s1 = String c s1' /\ s = s1' +:+ s2.
Proof.
  destruct s1 as [|c1 s1]; [rewrite append_nil_l; by left|].
  rewrite append_cons. intros [= -> <-]. right. by exists s1.
Qed.

Lemma nullable_lang r : nullable r = true -> lang ic r "".
Proof.
  induction r; simpl; try discriminate; intros Hn.
  - constructor.
  - apply andb_true_iff in Hn as [H1 H2].
    change "" with ("" +:+ ""). constructor; auto.
  - apply orb_true_iff in Hn as [H1|H2]; [apply lang_alt_l | apply lang_alt_r]; auto.
  - constructor.
Qed.

Lemma lang_nullable r s : lang ic r s -> s = "" -> nullable r = true.
Proof.
  induction 1 as [|a c|c|r1 r2 s1 s2 _ IH1 _ IH2|r1 r2 s _ IH|r1 r2 s _ IH| |];
    simpl; try done.
  - intros [-> ->]%append_eq_empty. by rewrite IH1, IH2.
  - intros ->. by rewrite IH.
  - intros ->. rewrite IH by done. apply orb_true_r.
Qed.

Lemma mk_cat_intro r1 r2 s1 s2 :
  lang ic r1 s1 -> lang ic r2 s2 -> lang ic (mk_cat r1 r2) (s1 +:+ s2).
Proof.
  intros H1 H2.
  destruct r1; try (by inversion H1);
    destruct r2; try (by inversion H2); simpl;
    try (by constructor);
    try (inversion H1; subst; by rewrite append_nil_l);
    try (inversion H2; subst; by rewrite append_empty_r).
Qed.

Lemma mk_cat_elim r1 r2 s :
  lang ic (mk_cat r1 r2) s -> lang ic (Cat r1 r2) s.
Proof.
  destruct r1, r2; simpl; intros H; try done; try (by inversion H);
    try (change s with ("" +:+ s); constructor; [constructor|done]);
    try (rewrite <- (append_empty_r s); constructor; [done|constructor]).
Qed.

Lemma mk_alt_intro_l r1 r2 s : lang ic r1 s -> lang ic (mk_alt r1 r2) s.
Proof.
  intros H. destruct r1; try (by inversion H);
    destruct r2; simpl; try done; by apply lang_alt_l.
Qed.

Lemma mk_alt_intro_r r1 r2 s : lang ic r2 s -> lang ic (mk_alt r1 r2) s.
Proof.
  intros H. destruct r2; try (by inversion H);
    destruct r1; simpl; try done; by apply lang_alt_r.
Qed.

Lemma mk_alt_elim r1 r2 s : lang ic (mk_alt r1 r2) s -> lang ic r1 s \/ lang ic r2 s.
Proof.
  destruct r1, r2; simpl; intros H; try (by inversion H); auto;
    inversion H; subst; auto.
Qed.

(** A non-empty word of a star starts with a non-empty word of its
    body. *)
Lemma lang_star_cons_inv_gen r' w :
  lang ic r' w ->
  forall r c s, r' = Star r -> w = String c s ->
  exists s1 s2, s = s1 +:+ s2 /\ lang ic r (String c s1) /\ lang ic (Star r) s2.
Proof.
  induction 1 as [| | | | | | |r0 s1 s2 H1 _ H2 IH2];
    intros body first others Hr Hw; try done.
  injection Hr as ->.
  apply append_eq_cons in Hw as [[-> ->]|(s1' & -> & ->)].
  - by apply IH2.
  - by exists s1', s2.
Qed.

Lemma lang_star_cons_inv r c s :
  lang ic (Star r) (String c s) ->
  exists s1 s2, s = s1 +:+ s2 /\ lang ic r (String c s1) /\ lang ic (Star r) s2.
Proof. intros H. by eapply lang_star_cons_inv_gen. Qed.

Lemma lang_cat_inv r1 r2 s :
  lang ic (Cat r1 r2) s -> exists s1 s2, s = s1 +:+ s2 /\ lang ic r1 s1 /\ lang ic r2 s2.
Proof. inversion 1; subst; eauto. Qed.

Lemma lang_alt_inv r1 r2 s : lang ic (Alt r1 r2) s -> lang ic r1 s \/ lang ic r2 s.
Proof. inversion 1; subst; eauto. Qed.

Lemma lang_chr_inv a s :
  lang ic (Chr a) s -> exists c, s = String c "" /\ chr_eqb ic a c = true.
Proof. inversion 1; subst; eauto. Qed.

Lemma lang_dot_inv s :
  lang ic Dot s -> exists c, s = String c "" /\ Ascii.eqb c line_feed = false.
Proof. inversion 1; subst; eauto. Qed.

Lemma deriv_sound c r s : lang ic (deriv ic c r) s -> lang ic r (String c s).
Proof.
  revert s. induction r as [| |a| |r1 IH1 r2 IH2|r1 IH1 r2 IH2|r IH]; intros s; simpl.
  - inversion 1.
  - inversion 1.
  - destruct (chr_eqb ic a c) eqn:Hc; inversion 1; subst. by constructor.
  - destruct (Ascii.eqb c line_feed) eqn:Hc; inversion 1; subst. by constructor.
  - assert (Hcat : lang ic (mk_cat (deriv ic c r1) r2) s ->
                   lang ic (Cat r1 r2) (String c s)).
    { intros (s1 & s2 & -> & H1 & H2)%mk_cat_elim%lang_cat_inv.
      rewrite <- append_cons. constructor; auto. }
    destruct (nullable r1) eqn:Hn; [|done].
    intros [H|H]%mk_alt_elim; [auto|].
    rewrite <- (append_nil_l (String c s)).
    constructor; [by apply nullable_lang|auto].
  - intros [H|H]%mk_alt_elim; [apply lang_alt_l | apply lang_alt_r]; auto.
  - intros (s1 & s2 & -> & H1 & H2)%mk_cat_elim%lang_cat_inv.
    rewrite <- append_cons. constructor; auto.
Qed.

Lemma deriv_complete c r s : lang ic r (String c s) -> lang ic (deriv ic c r) s.
Proof.
  revert s. induction r as [| |a| |r1 IH1 r2 IH2|r1 IH1 r2 IH2|r IH]; intros s; simpl.
  - inversion 1.
  - inversion 1.
  - intros (c' & [= <- ->] & Hc)%lang_chr_inv. rewrite Hc. constructor.
  - intros (c' & [= <- ->] & Hc)%lang_dot_inv. rewrite Hc. constructor.
  - intros (s1 & s2 & Heq & H1 & H2)%lang_cat_inv.
    symmetry in Heq. apply append_eq_cons in Heq as [[-> ->]|(s1' & -> & ->)].
    + rewrite (lang_nullable _ _ H1 eq_refl). apply mk_alt_intro_r. auto.
    + assert (lang ic (mk_cat (deriv ic c r1) r2) (s1' +:+ s2))
        by (apply mk_cat_intro; auto).
      destruct (nullable r1); [by apply mk_alt_intro_l|done].
  - intros [H|H]%lang_alt_inv; [apply mk_alt_intro_l | apply mk_alt_intro_r]; auto.
  - intros (s1 & s2 & -> & H1 & H2)%lang_star_cons_inv. apply mk_cat_intro; auto.
Qed.

(** [matches_prefix] answers whether a prefix of the subject is a
    word of the pattern, [search] whether a substring is: the truth
    value of [re.match], and of [re.search]. *)
Lemma matches_prefix_spec r s :
  matches_prefix ic r s = true <-> exists s1 s2, s = s1 +:+ s2 /\ lang ic r s1.
Proof.
  revert r. induction s as [|c s IH]; intros r.
  - change (matches_prefix ic r "") with (nullable r || false).
    rewrite orb_false_r. split.
    + intros H%nullable_lang. by exists "", "".
    + intros (s1 & s2 & [-> ->]%eq_sym%append_eq_empty & H).
      by eapply lang_nullable.
  - change (matches_prefix ic r (String c s))
      with (nullable r || matches_prefix ic (deriv ic c r) s).
    rewrite orb_true_iff, IH. split.
    + intros [H%nullable_lang|(s1 & s2 & -> & H%deriv_sound)].
      * by exists "", (String c s).
      * by exists (String c s1), s2.
    + intros (s1 & s2 & Heq & H).
      symmetry in Heq. apply append_eq_cons in Heq as [[-> ->]|(s1' & -> & ->)].
      * left. by eapply lang_nullable.
      * right. exists s1', s2. split; [done|]. by apply deriv_complete.
Qed.

Theorem search_spec r s :
  search ic r s = true
  <-> exists s0 s1 s2, s = s0 +:+ (s1 +:+ s2) /\ lang ic r s1.
Proof.
  induction s as [|c s IH].
  - change (search ic r "") with (matches_prefix ic r "" || false).
    rewrite orb_false_r, matches_prefix_spec. split.
    + intros (s1 & s2 & Heq & H). by exists "", s1, s2.
    + intros (s0 & s1 & s2 & Heq & H). exists s1, s2. split; [|done].
      symmetry in Heq. by apply append_eq_empty in Heq as [-> ?].
  - change (search ic r (String c s))
      with (matches_prefix ic r (String c s) || search ic r s).
    rewrite orb_true_iff, matches_prefix_spec, IH. split.
    + intros [(s1 & s2 & Heq & H)|(s0 & s1 & s2 & -> & H)].
      * by exists "", s1, s2.
      * by exists (String c s0), s1, s2.
    + intros ([|c0 s0] & s1 & s2 & Heq & H).
      * left. by exists s1, s2.
      * rewrite append_cons in Heq. injection Heq as -> ->. right. by exists s0, s1, s2.
Qed.
End ReFacts.

(** ** The classifier on the end-to-end example *)

Section ClassifierFacts.
Variable hash : string -> Z.
Variable list_of_set : list string -> list string.
Hypothesis list_of_set_NoDup : forall l, NoDup (list_of_set l).
Hypothesis list_of_set_elem : forall l x, x ∈ list_of_set l <-> x ∈ l.

Import Classifier.

Local Abbreviation classify := (classify hash list_of_set).
Local Abbreviation _combine_classifications := (_combine_classifications list_of_set).

(** C1, as amended: on a fresh classifier with the rule source
    enabled, the message "Database connection timeout after 30s" with
    empty structured data is classified as [database_errors] with
    severity [WARNING] and a component ["database"]; two error types
    match it ([database_errors] by [connection.*timeout],
    [network_errors] by [timeout]), so there is no single-type bonus
    and the confidence is 0.3 + 0.1 + 0.2 + 0.2 = 0.8. *)
Theorem classify_timeout_example (ml : bool) :
  let st := init {| enable_ml := ml; enable_rules := true |} in
  let c := (classify st timeout_entry).1 in
  error_type c = "database_errors"
  /\ severity c = "WARNING"
  /\ "database" ∈ components c
  /\ Patterns.classify_error (error_patterns st) timeout_message
     = ["database_errors"; "network_errors"]
  /\ (confidence c == 0.8)%Q.
Proof.
  assert (Hcomp : forall b,
    components (classify (init {| enable_ml := b; enable_rules := true |})
                  timeout_entry).1 = ["database"; "network"])
    by (intros []; vm_compute; reflexivity).
  cbv zeta. rewrite Hcomp. split_and!.
  - destruct ml; vm_compute; reflexivity.
  - destruct ml; vm_compute; reflexivity.
  - apply list_elem_of_here.
  - vm_compute; reflexivity.
  - destruct ml; vm_compute; reflexivity.
Qed.

(** *** Confidence of the rule source *)

Lemma _calculate_rule_confidence_unit error_types message :
  in_unit_interval (_calculate_rule_confidence error_types message).
Proof.
  unfold _calculate_rule_confidence. apply py_min_unit.
  repeat case_match; vm_compute; discriminate.
Qed.

Lemma sum_confidence_sumQ cs : (sum_confidence cs == sumQ (map confidence cs))%Q.
Proof.
  unfold sum_confidence. rewrite <- (Qplus_0_l (sumQ _)).
  generalize 0%Q as acc. induction cs as [|c cs IH]; intros acc; simpl.
  - lra.
  - rewrite IH. unfold sumQ. simpl. lra.
Qed.

Lemma sumQ_bounds qs :
  Forall in_unit_interval qs ->
  (0 <= sumQ qs)%Q /\ (sumQ qs <= inject_Z (Z.of_nat (length qs)))%Q.
Proof.
  induction 1 as [|q qs [Hq0 Hq1] _ [IH0 IH1]].
  - split; vm_compute; discriminate.
  - cbn [length]. rewrite Nat2Z.inj_succ, <- Z.add_1_r, inject_Z_plus.
    change (inject_Z 1) with 1%Q. unfold sumQ in *. cbn [foldr]. split; lra.
Qed.

Lemma mean_unit qs : qs <> [] -> Forall in_unit_interval qs -> in_unit_interval (mean qs).
Proof.
  intros Hne [H0 H1]%sumQ_bounds. unfold mean.
  assert (Hn : (0 < inject_Z (Z.of_nat (length qs)))%Q).
  { change 0%Q with (inject_Z 0). rewrite <- Zlt_Qlt. destruct qs; [done|]. simpl. lia. }
  split.
  - apply Qle_shift_div_l; [done|]. lra.
  - apply Qle_shift_div_r; [done|]. lra.
Qed.

Lemma combine_confidence_mean c1 c2 cs :
  (confidence (_combine_classifications (c1 :: c2 :: cs))
   == mean (map confidence (c1 :: c2 :: cs)))%Q.
Proof.
  unfold mean. cbn [_combine_classifications Classifier._combine_classifications confidence].
  rewrite sum_confidence_sumQ, length_map. reflexivity.
Qed.

Lemma _combine_classifications_unit cs :
  Forall (fun c => in_unit_interval (confidence c)) cs ->
  in_unit_interval (confidence (_combine_classifications cs)).
Proof.
  intros Hcs. destruct cs as [|c1 [|c2 cs]].
  - split; vm_compute; discriminate.
  - by apply Forall_inv in Hcs.
  - unfold in_unit_interval. rewrite combine_confidence_mean.
    apply mean_unit; [done|]. by apply Forall_fmap.
Qed.

Lemma _classify_error_unit st message sd c :
  _classify_error list_of_set st message sd = Some c ->
  in_unit_interval (confidence c).
Proof.
  unfold _classify_error. intros Hc.
  destruct (if enable_rules (config st) then _ else _) as [rule_part|] eqn:Hrule;
    [|done]. cbn [mbind option_bind] in Hc. injection Hc as <-.
  apply _combine_classifications_unit, Forall_app. split.
  - destruct (enable_rules (config st)), message; simplify_eq;
      [apply Forall_singleton, _calculate_rule_confidence_unit | by apply Forall_nil ..].
  - destruct (enable_ml (config st) && _); [|by apply Forall_nil].
    apply Forall_singleton; split; vm_compute; discriminate.
Qed.

(** *** The memo table *)

Lemma classify_cache_unit st entry :
  cache_unit st ->
  in_unit_interval (confidence (classify st entry).1)
  /\ cache_unit (classify st entry).2.
Proof.
  intros Hinv. unfold Classifier.classify.
  destruct (PyDict.get _ (_classification_cache st)) as [cached|] eqn:Hget; simpl.
  - split; [|done]. eapply Hinv, get_Some_elem_of, Hget.
  - destruct (_classify_error _ _ _ _) as [c|] eqn:Hc; simpl.
    + pose proof (_classify_error_unit _ _ _ _ Hc) as Hunit. split; [done|].
      intros k c' [Heq|Hin]%elem_of_add_to_cache; [by simplify_eq|by eapply Hinv].
    + split; [|done]. split; vm_compute; discriminate.
Qed.

Lemma classifier_reachable_cache_unit st :
  classifier_reachable hash list_of_set st -> cache_unit st.
Proof.
  induction 1 as [cfg|st entry _ IH|st new_rules _ IH|st _ IH].
  - intros k c Hin. by apply elem_of_nil in Hin.
  - by apply classify_cache_unit.
  - exact IH.
  - intros k c Hin. by apply elem_of_nil in Hin.
Qed.

(** C7: combining two or more classifications takes [error_type],
    [severity], [root_cause], [affected_systems] and
    [classification_rules] from the first; the components are, without
    repetition, those of all the sources, and so are the suggested
    actions; the confidence is the arithmetic mean of the sources'
    confidences.  A single source is returned as it is. *)
Theorem combine_classifications_spec primary second rest :
  let sources := primary :: second :: rest in
  let r := _combine_classifications sources in
  (error_type r = error_type primary
   /\ severity r = severity primary
   /\ root_cause r = root_cause primary
   /\ affected_systems r = affected_systems primary
   /\ classification_rules r = classification_rules primary)
  /\ (NoDup (components r)
      /\ forall x, x ∈ components r <-> exists c, c ∈ sources /\ x ∈ components c)
  /\ (NoDup (suggested_actions r)
      /\ forall x, x ∈ suggested_actions r
                   <-> exists c, c ∈ sources /\ x ∈ suggested_actions c)
  /\ (confidence r == mean (map confidence sources))%Q
  /\ forall c, _combine_classifications [c] = c.
Proof using list_of_set_NoDup list_of_set_elem.
  cbv zeta. split_and!; try reflexivity.
  - apply list_of_set_NoDup.
  - intros x. cbn [_combine_classifications Classifier._combine_classifications components].
    rewrite list_of_set_elem, elem_of_app, elem_of_concat_map. split.
    + intros [?|(c & Hc & Hx)]; [exists primary | exists c];
        (split; [|done]); [apply list_elem_of_here | by apply list_elem_of_further].
    + intros (c & [->|Hc]%elem_of_cons & Hx); eauto.
  - apply list_of_set_NoDup.
  - intros x.
    cbn [_combine_classifications Classifier._combine_classifications suggested_actions].
    rewrite list_of_set_elem, elem_of_app, list_of_set_elem, elem_of_concat_map. split.
    + intros [?|(c & Hc & Hx)]; [exists primary | exists c];
        (split; [|done]); [apply list_elem_of_here | by apply list_elem_of_further].
    + intros (c & [->|Hc]%elem_of_cons & Hx); eauto.
  - apply combine_confidence_mean.
Qed.

(** C9: what [classify] answers, and the state it leaves, depend on
    the entry through its ['message'] alone: two entries with the same
    message are classified alike whatever their [structured_data], and
    classifying the second right after the first gives the first
    answer again.  This holds under every configuration, the rule
    source enabled and the ML source disabled included. *)
Theorem classify_depends_on_message_only st e1 e2 :
  pe_message e1 = pe_message e2 ->
  classify st e1 = classify st e2
  /\ (classify (classify st e1).2 e2).1 = (classify st e1).1.
Proof.
  intros Hmsg.
  assert (Hsd : forall sd sd' m,
    _classify_error list_of_set st m sd = _classify_error list_of_set st m sd').
  { intros sd sd' m. unfold _classify_error. by destruct (enable_rules _), m. }
  assert (Hsame : classify st e1 = classify st e2).
  { unfold Classifier.classify. rewrite Hmsg.
    by rewrite (Hsd (default [] (pe_structured_data e1))
                    (default [] (pe_structured_data e2))). }
  split; [done|]. rewrite Hsame. clear Hsame Hmsg e1.
  unfold Classifier.classify at 2 3.
  destruct (PyDict.get _ (_classification_cache st)) as [cached|] eqn:Hget; simpl.
  - unfold Classifier.classify. by rewrite Hget.
  - destruct (_classify_error _ _ _ _) as [c|] eqn:Hc; simpl.
    + unfold Classifier.classify. simpl.
      unfold PyDict.add_to_cache. by rewrite get_set_eq.
    + unfold Classifier.classify. by rewrite Hget, Hc.
Qed.
End ClassifierFacts.

(** C1, as the claim states it, fails: the confidence of the example is
    not 1.0. *)
Lemma classify_timeout_confidence_not_one :
  let c := (Classifier.classify Demo.hash Demo.list_of_set
              (Classifier.init {| Classifier.enable_ml := true;
                                  Classifier.enable_rules := true |})
              timeout_entry).1 in
  ~ (Classifier.error_type c = "database_errors"
     /\ Classifier.severity c = "WARNING"
     /\ "database" ∈ Classifier.components c
     /\ (Classifier.confidence c == 1.0)%Q).
Proof.
  cbv zeta. intros (_ & _ & _ & H). vm_compute in H. discriminate H.
Qed.


(** ** Sorting *)

Section SortFacts.
Context {A K : Type} (lt : K -> K -> bool) (key : A -> K).
Hypothesis lt_asym : forall a b, lt a b = true -> lt b a = false.
Hypothesis lt_negtrans : forall a b c, lt a b = false -> lt b c = false -> lt a c = false.

Local Abbreviation insert_desc := (PyList.insert_desc lt key).
Local Abbreviation sort_desc := (PyList.sort_desc lt key).
Local Abbreviation not_below := (PyList.not_below lt key).

Lemma insert_desc_Permutation x l : insert_desc x l ≡ₚ x :: l.
Proof.
  induction l as [|y l IH]; simpl; [done|].
  destruct (lt (key x) (key y)); [|done].
  rewrite IH. apply Permutation_swap.
Qed.

Lemma sort_desc_Permutation l : sort_desc l ≡ₚ l.
Proof.
  induction l as [|x l IH]; simpl; [done|].
  by rewrite insert_desc_Permutation, IH.
Qed.



(** Stability: a class of elements none of which is below another
    keeps its order. *)
Lemma insert_desc_filter (p : A -> bool) x l :
  (forall y z, p y = true -> p z = true -> lt (key y) (key z) = false) ->
  List.filter p (insert_desc x l) = List.filter p (x :: l).
Proof.
  intros Hclass. induction l as [|y l IH]; [done|].
  cbn [PyList.insert_desc]. destruct (lt (key x) (key y)) eqn:Hxy; [|done].
  cbn [List.filter] in *. rewrite IH.
  destruct (p x) eqn:Hx, (p y) eqn:Hy; try done.
  by rewrite Hclass in Hxy.
Qed.

Lemma sort_desc_filter (p : A -> bool) l :
  (forall y z, p y = true -> p z = true -> lt (key y) (key z) = false) ->
  List.filter p (sort_desc l) = List.filter p l.
Proof.
  intros Hclass. induction l as [|x l IH]; [done|].
  cbn [PyList.sort_desc]. rewrite insert_desc_filter by done.
  cbn [List.filter]. by rewrite IH.
Qed.
End SortFacts.

(** ** The fix engine *)

Section EngineFacts.
Variable hash : string -> Z.

Import FixEngine.

Local Abbreviation generate_fixes := (generate_fixes hash).

(** *** Comparisons of rationals *)

Lemma Qle_bool_false (a b : Q) : Qle_bool a b = false <-> (b < a)%Q.
Proof.
  rewrite <- not_true_iff_false, Qle_bool_iff. split; [apply Qnot_le_lt | apply Qlt_not_le].
Qed.

(** *** The candidate rules *)

Lemma filter_low_or_medium_elem rules kept r :
  filter_low_or_medium rules = Some kept ->
  r ∈ kept ->
  r ∈ rules
  /\ (rule_risk_level r = Some "LOW" \/ rule_risk_level r = Some "MEDIUM").
Proof.
  revert kept. induction rules as [|r0 rules IH]; intros kept Hf Hin; simpl in Hf.
  - injection Hf as <-. by apply elem_of_nil in Hin.
  - unfold low_or_medium in Hf.
    destruct (rule_risk_level r0) as [risk|] eqn:Hrisk; [|done].
    destruct (filter_low_or_medium rules) as [kept'|]; [|done].
    cbn in Hf. injection Hf as <-.
    destruct (bool_decide (risk = "LOW") || bool_decide (risk = "MEDIUM")) eqn:Hkeep.
    + apply elem_of_cons in Hin as [->|Hin].
      * split; [apply list_elem_of_here|]. rewrite Hrisk.
        apply orb_true_iff in Hkeep as [?%bool_decide_eq_true|?%bool_decide_eq_true];
          subst; auto.
      * destruct (IH _ eq_refl Hin). split; [by apply list_elem_of_further|done].
    + destruct (IH _ eq_refl Hin). split; [by apply list_elem_of_further|done].
Qed.

Lemma applicable_rules_registered fix_rules c rules r :
  _get_applicable_fix_rules fix_rules (error_type c) (severity c) (components c)
  = Some rules ->
  r ∈ rules ->
  registered_for fix_rules c r.
Proof.
  unfold _get_applicable_fix_rules. intros Hrules Hin.
  assert (Hall : r ∈ default [] (fix_rules !! error_type c)
                   ++ concat (map (fun component =>
                        default [] (fix_rules !! (error_type c +:+ "_" +:+ component)))
                        (components c))).
  { destruct (decide (severity c = "CRITICAL")); [|by simplify_eq].
    by eapply filter_low_or_medium_elem. }
  apply elem_of_app in Hall as [Hty|Hcomp].
  - destruct (fix_rules !! error_type c) as [rs|] eqn:Hrs;
      [|by apply elem_of_nil in Hty].
    exists (error_type c), rs. split_and!; [by left|done|done].
  - apply elem_of_concat_map in Hcomp as (component & Hc & Hr).
    destruct (fix_rules !! (error_type c +:+ "_" +:+ component)) as [rs|] eqn:Hrs;
      [|by apply elem_of_nil in Hr].
    exists (error_type c +:+ "_" +:+ component), rs.
    split_and!; [right; by exists component|done|done].
Qed.

Lemma applicable_rules_critical fix_rules error_type components rules r :
  _get_applicable_fix_rules fix_rules error_type "CRITICAL" components = Some rules ->
  r ∈ rules ->
  rule_risk_level r = Some "LOW" \/ rule_risk_level r = Some "MEDIUM".
Proof.
  unfold _get_applicable_fix_rules. rewrite decide_True by done.
  intros Hf Hin. by eapply filter_low_or_medium_elem.
Qed.

(** *** From rules to fixes *)

Lemma fixes_of_rules_omap a rules fixes :
  fixes_of_rules rules (error_context a) (common_patterns a) = Some fixes ->
  fixes = omap (candidate_fix a) rules.
Proof.
  revert fixes. induction rules as [|r rules IH]; intros fixes Hf; simpl in Hf.
  - by injection Hf as <-.
  - cbn [omap list_omap]. unfold candidate_fix at 1.
    destruct (_rule_matches_context r _ _) as [matched|]; [|done].
    destruct (fixes_of_rules rules _ _) as [more|]; [|done].
    cbn in Hf. injection Hf as <-. rewrite <- (IH _ eq_refl).
    destruct matched; [|done]. by destruct (_create_fix_from_rule r _ _).
Qed.

Lemma generated_fixes_sorted fix_rules c a fixes :
  _generate_fixes_for_error fix_rules c a = Some fixes ->
  exists rules,
    _get_applicable_fix_rules fix_rules (error_type c) (severity c) (components c)
    = Some rules
    /\ fixes = PyList.sort_desc key_lt sort_key (omap (candidate_fix a) rules).
Proof.
  unfold _generate_fixes_for_error. intros Hg.
  destruct (_get_applicable_fix_rules _ _ _ _) as [rules|]; [|done].
  cbn [mbind option_bind] in Hg.
  destruct (fixes_of_rules rules _ _) as [unsorted|] eqn:Hu; [|done].
  cbn in Hg. injection Hg as <-. exists rules. split; [done|].
  by rewrite (fixes_of_rules_omap _ _ _ Hu).
Qed.

Lemma candidate_fix_risk a r f :
  candidate_fix a r = Some f -> risk_level f = default "UNKNOWN" (rule_risk_level r).
Proof.
  unfold candidate_fix, _create_fix_from_rule. intros Hf.
  destruct (_rule_matches_context r _ _) as [[]|]; try done.
  destruct (count_matches _ _); [|done]. cbn in Hf. by injection Hf as <-.
Qed.

Lemma candidate_fix_confidence_unit a r f :
  rule_confidence_ok r -> candidate_fix a r = Some f -> in_unit_interval (confidence f).
Proof.
  unfold candidate_fix, _create_fix_from_rule. intros Hok Hf.
  destruct (_rule_matches_context r _ _) as [[]|]; try done.
  destruct (count_matches _ _) as [n|]; [|done]. cbn in Hf. injection Hf as <-.
  cbn [confidence]. apply py_min_unit.
  assert (Hbase : (0 <= default 0.5 (rule_confidence r))%Q).
  { destruct (rule_confidence r) as [q|] eqn:Hq; simpl.
    - by destruct (Hok q Hq).
    - vm_compute; discriminate. }
  destruct n as [|n]; [exact Hbase|].
  assert (0 <= inject_Z (Z.of_nat (S n)))%Q.
  { change 0%Q with (inject_Z 0). rewrite <- Zle_Qle. lia. }
  assert (0 <= 0.1 * inject_Z (Z.of_nat (S n)))%Q
    by (apply Qmult_le_0_compat; [vm_compute; discriminate|done]).
  lra.
Qed.
End EngineFacts.

(** *** Runs of the engine *)

Section EngineRunFacts.
Variable hash : string -> Z.
Variable ok : FixEngine.rule -> Prop.
Variable P : list FixEngine.Fix -> Prop.
Hypothesis P_nil : P [].
Hypothesis P_generated : forall fix_rules c a fixes,
  registry_ok ok fix_rules ->
  FixEngine._generate_fixes_for_error fix_rules c a = Some fixes -> P fixes.

Import FixEngine.

Lemma generate_fixes_preserves st c a :
  registry_ok ok (fix_rules st) ->
  (forall k fixes, (k, fixes) ∈ _fix_cache st -> P fixes) ->
  P (generate_fixes hash st c a).1
  /\ registry_ok ok (fix_rules (generate_fixes hash st c a).2)
  /\ (forall k fixes, (k, fixes) ∈ _fix_cache (generate_fixes hash st c a).2 -> P fixes).
Proof using P_nil P_generated.
  intros Hreg Hcache. unfold generate_fixes.
  destruct (PyDict.get _ (_fix_cache st)) as [cached|] eqn:Hget; simpl.
  - split_and!; [|done|done]. eapply Hcache, get_Some_elem_of, Hget.
  - destruct (_generate_fixes_for_error _ c a) as [fixes|] eqn:Hgen; simpl.
    + pose proof (P_generated _ _ _ _ Hreg Hgen) as HP. split_and!; [done|done|].
      intros k fixes' [Heq|Hin]%elem_of_add_to_cache; [by simplify_eq|by eapply Hcache].
    + by split_and!.
Qed.

Lemma add_custom_fix_rule_registry_ok st ty r :
  ok r -> registry_ok ok (fix_rules st) ->
  registry_ok ok (fix_rules (add_custom_fix_rule st ty r)).
Proof.
  intros Hr Hreg ty' rs. simpl. rewrite lookup_insert.
  case_decide as Hty; [|apply Hreg].
  intros [= <-]. apply Forall_app. split; [|by apply Forall_singleton].
  destruct (fix_rules st !! ty) as [rs0|] eqn:Hrs0; simpl; [by eapply Hreg|].
  by apply Forall_nil.
Qed.

Lemma engine_reachable_invariant st :
  engine_reachable hash ok st ->
  registry_ok ok (fix_rules st)
  /\ (forall k fixes, (k, fixes) ∈ _fix_cache st -> P fixes).
Proof using P_nil P_generated.
  induction 1 as [rules Hreg|st c a _ [IHr IHc]|st ty r Hr _ [IHr IHc]|st _ [IHr IHc]].
  - split; [done|]. intros k fixes Hin. by apply elem_of_nil in Hin.
  - by apply generate_fixes_preserves.
  - split; [by apply add_custom_fix_rule_registry_ok|done].
  - split; [done|]. intros k fixes Hin. by apply elem_of_nil in Hin.
Qed.

Lemma engine_reachable_output st c a :
  engine_reachable hash ok st -> P (generate_fixes hash st c a).1.
Proof using P_nil P_generated.
  intros [Hreg Hcache]%engine_reachable_invariant.
  by apply generate_fixes_preserves.
Qed.
End EngineRunFacts.

Section EngineClaims.
Variable hash : string -> Z.

Import FixEngine.

Lemma generated_fixes_low_or_medium fix_rules c a fixes f :
  severity c = "CRITICAL" ->
  _generate_fixes_for_error fix_rules c a = Some fixes ->
  f ∈ fixes ->
  low_or_medium_risk (risk_level f)
  /\ exists r, registered_for fix_rules c r
               /\ rule_risk_level r = Some (risk_level f)
               /\ candidate_fix a r = Some f.
Proof.
  intros Hsev (rules & Hrules & ->)%generated_fixes_sorted Hin.
  rewrite sort_desc_Permutation in Hin.
  apply list_elem_of_omap in Hin as (r & Hr & Hf).
  pose proof (applicable_rules_registered _ _ _ _ Hrules Hr) as Hreg.
  rewrite Hsev in Hrules.
  pose proof (applicable_rules_critical _ _ _ _ _ Hrules Hr) as Hrisk.
  rewrite (candidate_fix_risk _ _ _ Hf).
  destruct Hrisk as [Hrisk|Hrisk]; rewrite Hrisk; simpl;
    (split; [by (left + right)|]); exists r; by rewrite Hrisk.
Qed.

(** C4: under a CRITICAL classification every candidate rule
    [generate_fixes] works from is registered for the error type or one
    of its components and has risk level LOW or MEDIUM; every fix in
    the list computed from them is the fix of such a rule and carries
    its risk level, so a HIGH-risk rule contributes nothing; and that
    list is what [generate_fixes] returns when it computes (the key is
    not memoised). *)
Theorem critical_severity_gate st c a :
  severity c = "CRITICAL" ->
  (forall rules,
     _get_applicable_fix_rules (fix_rules st) (error_type c) (severity c) (components c)
     = Some rules ->
     forall r, r ∈ rules ->
       registered_for (fix_rules st) c r
       /\ exists risk, rule_risk_level r = Some risk /\ low_or_medium_risk risk)
  /\ (forall fixes,
        _generate_fixes_for_error (fix_rules st) c a = Some fixes ->
        forall f, f ∈ fixes ->
          low_or_medium_risk (risk_level f)
          /\ exists r, registered_for (fix_rules st) c r
                       /\ rule_risk_level r = Some (risk_level f)
                       /\ candidate_fix a r = Some f)
  /\ (PyDict.get (_generate_cache_key hash c a) (_fix_cache st) = None ->
      Forall (fun f => low_or_medium_risk (risk_level f)) (generate_fixes hash st c a).1).
Proof.
  intros Hsev. split_and!.
  - intros rules Hrules r Hr. split; [by eapply applicable_rules_registered|].
    rewrite Hsev in Hrules.
    destruct (applicable_rules_critical _ _ _ _ _ Hrules Hr) as [-> | ->];
      eexists; (split; [done|]); by (left + right).
  - intros fixes Hgen f Hf. by eapply generated_fixes_low_or_medium.
  - intros Hmiss. unfold generate_fixes. rewrite Hmiss.
    destruct (_generate_fixes_for_error _ c a) as [fixes|] eqn:Hgen; simpl;
      [|by apply Forall_nil].
    apply Forall_forall. intros f Hf.
    by destruct (generated_fixes_low_or_medium _ _ _ _ _ Hsev Hgen Hf).
Qed.

End EngineClaims.

Lemma mk_rule_confidence_ok n p ty descr chs conf risk :
  in_unit_interval conf ->
  rule_confidence_ok (FixEngine.mk_rule n p ty descr chs conf risk).
Proof. intros Hconf q Hq. cbn in Hq. by injection Hq as <-. Qed.

(** The rules the engine ships with declare confidences in [[0,1]]. *)
Lemma shipped_rules_confidence_ok :
  registry_ok rule_confidence_ok FixEngine._load_fix_rules.
Proof.
  intros ty rs Hlookup. unfold FixEngine._load_fix_rules in Hlookup.
  apply elem_of_list_to_map_2 in Hlookup.
  repeat (apply elem_of_cons in Hlookup as [Hlookup|Hlookup];
          [simplify_eq;
           repeat (apply Forall_cons; split;
                   [apply mk_rule_confidence_ok; split; vm_compute; discriminate|]);
           by apply Forall_nil|]).
  by apply elem_of_nil in Hlookup.
Qed.

(** C6: the confidence of every classification [classify] returns, in
    any state a classifier reaches, and of every fix [generate_fixes]
    returns, in any state reached by an engine whose rules declare
    confidences in [[0,1]], lies in [[0,1]]. *)
Theorem confidences_in_unit_interval
    (hash : string -> Z) (list_of_set : list string -> list string)
    (cst : Classifier.state) (entry : Classifier.parsed_entry)
    (est : FixEngine.state) (c : FixEngine.classification) (a : FixEngine.analysis) :
  classifier_reachable hash list_of_set cst ->
  engine_reachable hash rule_confidence_ok est ->
  in_unit_interval
    (Classifier.confidence (Classifier.classify hash list_of_set cst entry).1)
  /\ Forall (fun f => in_unit_interval (FixEngine.confidence f))
       (FixEngine.generate_fixes hash est c a).1.
Proof.
  intros Hc He. split.
  - apply classify_cache_unit. by eapply classifier_reachable_cache_unit.
  - apply (engine_reachable_output hash rule_confidence_ok
             (Forall (fun f => in_unit_interval (FixEngine.confidence f))));
      [by apply Forall_nil| |done].
    intros rules c' a' fixes Hreg (rs & Hrs & ->)%generated_fixes_sorted.
    rewrite sort_desc_Permutation. apply Forall_forall. intros f Hf.
    apply list_elem_of_omap in Hf as (r & Hr & Hf).
    eapply candidate_fix_confidence_unit; [|exact Hf].
    destruct (applicable_rules_registered _ _ _ _ Hrs Hr) as (key & rs' & _ & Hkey & Hin).
    specialize (Hreg _ _ Hkey). rewrite Forall_forall in Hreg. by apply Hreg.
Qed.

(** ** Applying a patch *)

Section PatchFacts.
Import Patch.

Lemma lookup_app p q n : lookup (p ++ q) n = lookup p n ≫= lookup q.
Proof.
  revert n. induction p as [|x p IH]; intros n; simpl; [done|].
  destruct n as [|es]; [done|]. destruct (PyDict.get x es); simpl; [apply IH|done].
Qed.

Lemma get_filter_out (x : string) (es : list (string * node)) :
  PyDict.get x (List.filter (fun e => negb (String.eqb e.1 x)) es) = None.
Proof.
  induction es as [|[y m] es IH]; simpl; [done|].
  destruct (String.eqb_spec y x); simpl; [done|]. by rewrite decide_False.
Qed.

Lemma lookup_remove p n : p <> [] -> lookup p (remove p n) = None.
Proof.
  revert n. induction p as [|x p IH]; intros n Hp; [done|].
  destruct n as [|es]; [by destruct p|].
  destruct p as [|y p].
  - simpl. by rewrite get_filter_out.
  - cbn [remove]. destruct (PyDict.get x es) as [m|] eqn:Hx.
    + cbn [lookup]. rewrite get_set_eq. simpl. by apply IH.
    + cbn [lookup]. by rewrite Hx.
Qed.

(** Restoring from a backup that lives inside the target: the target
    goes, the backup with it, and the copy back raises. *)
Lemma restore_backup_inside_target target name fs es :
  lookup target fs = Some (Dir es) ->
  exists e fs',
    _restore_backup target (target ++ [name]) fs = (inl e, fs')
    /\ (target = [] /\ fs' = Dir [] \/ target <> [] /\ lookup target fs' = None).
Proof.
  intros Htarget. unfold _restore_backup, bind, get_fs, exists_.
  rewrite Htarget, bool_decide_eq_true_2 by eauto.
  unfold rmtree, bind, get_fs. rewrite Htarget.
  destruct target as [|x p].
  - eexists _, _. split; [reflexivity|]. by left.
  - unfold put_fs, copytree, bind, get_fs.
    rewrite lookup_app, lookup_remove by done. cbn [mbind option_bind].
    eexists _, _. split; [reflexivity|]. right. split; [done|]. by apply lookup_remove.
Qed.

Lemma place_cons x p new es :
  p <> [] ->
  place (x :: p) new (Dir es)
  = m' ← place p new (default (Dir []) (PyDict.get x es)); Some (Dir (PyDict.set x m' es)).
Proof. by destruct p. Qed.

Lemma place_child target name new fs es :
  lookup target fs = Some (Dir es) ->
  PyDict.get name es = None ->
  exists fs1,
    place (target ++ [name]) new fs = Some fs1
    /\ lookup target fs1 = Some (Dir (PyDict.set name new es)).
Proof.
  revert fs. induction target as [|x p IH]; intros fs Htarget Hfresh.
  - injection Htarget as ->. simpl. rewrite Hfresh. by eexists.
  - destruct fs as [|es0]; [done|]. cbn [lookup] in Htarget.
    destruct (PyDict.get x es0) as [m|] eqn:Hx; [|done].
    destruct (IH m Htarget Hfresh) as (m1 & Hplace & Hlookup).
    exists (Dir (PyDict.set x m1 es0)). split.
    + change ((x :: p) ++ [name]) with (x :: (p ++ [name])).
      rewrite place_cons by (by destruct p). rewrite Hx. simpl. by rewrite Hplace.
    + cbn [lookup]. by rewrite get_set_eq.
Qed.

(** The restore path in general: whenever the target is a directory
    that holds no entry of the backup's name, the forward content goes
    in untouched and the validator, whatever it is, rejects, [apply_patch]
    reports a failure without a backup and the target directory is
    lost. *)
Lemma apply_patch_rejected_loses_target max_patch_size patch target fs es verdict :
  (Z.of_nat (String.length (content patch)) <= max_patch_size * 1024)%Z ->
  lookup target fs = Some (Dir es) ->
  PyDict.get (backup_name patch) es = None ->
  v_success verdict = false ->
  exists result fs',
    apply_patch max_patch_size _apply_patch_content (fun _ _ => ret verdict)
      patch target fs = (result, fs')
    /\ success result = false
    /\ stats result = []
    /\ (target = [] /\ fs' = Dir [] \/ target <> [] /\ lookup target fs' = None).
Proof.
  intros Hsize Htarget Hfresh Hverdict.
  destruct (place_child target (backup_name patch) (Dir es) fs es Htarget Hfresh)
    as (fs1 & Hplace & Hlookup).
  destruct (restore_backup_inside_target target (backup_name patch) fs1 _ Hlookup)
    as (e & fs' & Hrestore & Hlost).
  assert (Hbackup : _create_backup target (target ++ [backup_name patch]) fs
                    = (inr tt, fs1)).
  { assert (Hnone : lookup (target ++ [backup_name patch]) fs = None).
    { rewrite lookup_app, Htarget. cbn [mbind option_bind lookup]. by rewrite Hfresh. }
    unfold _create_backup, copytree, bind, get_fs, exists_, ret, put_fs.
    rewrite Hnone, bool_decide_eq_false_2 by (by intros [? ?]).
    rewrite Htarget, Hplace.
    by rewrite Hnone, bool_decide_eq_false_2 by (by intros [? ?]). }
  exists {| success := false; patches := []; errors := [Raised e];
            warnings := []; stats := [] |}, fs'.
  split; [|by split_and!].
  unfold apply_patch, apply_patch_body.
  rewrite (proj2 (Z.ltb_ge _ _) Hsize).
  unfold bind at 1. rewrite Hbackup.
  unfold bind, _apply_patch_content, ret. rewrite Hverdict.
  by rewrite Hrestore.
Qed.

(** C2, on the code: a patch whose forward content goes in and whose
    validation fails.  Restoring removes the target directory, and with
    it the backup [.backup_<id>] made inside it, so the copy back raises;
    the call reports a failure that names no backup, and the target is
    gone (or, for the directory the process stands in, empty).  With the
    validation the source ships the call succeeds and the backup stays,
    holding the content found. *)
Theorem apply_patch_failed_validation_loses_target :
  let backup := ".backup_patch_20240101_000000_0042" in
  let failed :=
    apply_patch 1024 _apply_patch_content Demo.rejecting_validator
      Demo.patch ["srv"] Demo.tree in
  let failed_here :=
    apply_patch 1024 _apply_patch_content Demo.rejecting_validator
      Demo.patch [] Demo.srv in
  let passed :=
    apply_patch 1024 _apply_patch_content _validate_patch_application
      Demo.patch ["srv"] Demo.tree in
  lookup ["srv"] Demo.tree = Some Demo.srv
  /\ (success failed.1 = false
      /\ stats failed.1 = []
      /\ errors failed.1 = [Raised (FileNotFoundError ["srv"; backup])]
      /\ lookup ["srv"] failed.2 = None)
  /\ (success failed_here.1 = false
      /\ stats failed_here.1 = []
      /\ failed_here.2 = Dir [])
  /\ (success passed.1 = true
      /\ stats passed.1 = [("backup_created", ["srv"; backup])]
      /\ lookup ["srv"; backup] passed.2 = Some Demo.srv
      /\ lookup ["srv"; "app.py"] passed.2 = Some (File "connect_timeout = 30")).
Proof. vm_compute. by split_and!. Qed.
End PatchFacts.

(** ** The incident store *)

Section MemoryFacts.
Variable md5_hexdigest : string -> string.
Variable strftime : Z -> string.
Variable isoformat : Z -> string.
Variable str_of_patterns : list (string * Z) -> string.

Import Memory.

Local Abbreviation store_incident :=
  (store_incident md5_hexdigest strftime isoformat str_of_patterns).
Local Abbreviation new_incident :=
  (new_incident md5_hexdigest strftime isoformat str_of_patterns).
Local Abbreviation _generate_incident_id :=
  (_generate_incident_id md5_hexdigest strftime str_of_patterns).

(** *** Similarity *)

Lemma Qgt_bool_true (a b : Q) : Qgt_bool a b = true <-> (b < a)%Q.
Proof. unfold Qgt_bool. rewrite negb_true_iff. apply Qle_bool_false. Qed.

Lemma _calculate_similarity_self text :
  tokens text <> ∅ -> (_calculate_similarity text text == 1)%Q.
Proof.
  intros Hne. unfold _calculate_similarity.
  rewrite (idemp_L (∪)), (idemp_L (∩)), decide_False by done.
  apply Qmult_inv_r. intros Heq.
  assert (Hsize : size (tokens text) <> 0%nat).
  { apply size_non_empty_iff. by intros ?%leibniz_equiv. }
  unfold Qeq in Heq. simpl in Heq. lia.
Qed.


(** *** Storing *)

Lemma _is_duplicate_incident_true st now new stored :
  stored ∈ PyDict.values (_incidents st) ->
  (now - 24 * microseconds_per_hour <= timestamp stored)%Z ->
  error_type (inc_classification stored) = error_type (inc_classification new) ->
  severity (inc_classification stored) = severity (inc_classification new) ->
  (0.8 < _calculate_similarity (message_lower stored) (message_lower new))%Q ->
  _is_duplicate_incident st now new = true.
Proof.
  intros Hin Hrecent Hty Hsev Hsim. unfold _is_duplicate_incident.
  apply existsb_exists. exists stored. split; [by apply list_elem_of_In|].
  unfold same_kind. rewrite !andb_true_iff, negb_true_iff, Z.ltb_ge,
    !bool_decide_eq_true, Qgt_bool_true. done.
Qed.

Lemma store_incident_duplicate st d clk :
  enable_deduplication (config st) = true ->
  _is_duplicate_incident st (at_check clk) (new_incident st d clk) = true ->
  store_incident st d clk = (_generate_incident_id d (at_id clk), st).
Proof. intros Hdedup Hdup. unfold Memory.store_incident. by rewrite Hdedup, Hdup. Qed.

Lemma store_incident_first st d clk :
  _incidents st = [] ->
  _incidents (store_incident st d clk).2
  = [(_generate_incident_id d (at_id clk),
      with_metadata (new_incident st d clk) "stored_at" (isoformat (at_stored clk)))].
Proof.
  intros Hempty. unfold Memory.store_incident, _is_duplicate_incident.
  rewrite Hempty, andb_false_r. cbn. by rewrite decide_True.
Qed.

Lemma store_incident_wf st d clk :
  PyDict.wf (_incidents st) -> PyDict.wf (_incidents (store_incident st d clk).2).
Proof.
  intros Hwf. unfold Memory.store_incident.
  destruct (enable_deduplication _ && _); [done|]. cbn. by do 2 apply set_wf.
Qed.

(** C3, as amended: with deduplication enabled, storing an incident for
    which the store holds, no older than 24 hours, an incident of the
    same error type and severity whose lowercased message has token
    Jaccard similarity above 0.8 with the new one's, changes nothing in
    the store and still returns the id generated for the call.  In
    particular an incident whose message has a token, stored into an
    empty store and stored again within a minute, leaves one incident. *)
Theorem store_suppresses_duplicates st d clk :
  enable_deduplication (config st) = true ->
  (forall stored,
     stored ∈ PyDict.values (_incidents st) ->
     (at_check clk - 24 * microseconds_per_hour <= timestamp stored)%Z ->
     error_type (inc_classification stored) = error_type (d_classification d) ->
     severity (inc_classification stored) = severity (d_classification d) ->
     (0.8 < _calculate_similarity (message_lower stored)
              (PyStr.lower (default "" (message (d_log_entry d)))))%Q ->
     store_incident st d clk = (_generate_incident_id d (at_id clk), st))
  /\ (forall first,
        _incidents st = [] ->
        tokens (PyStr.lower (default "" (message (d_log_entry d)))) <> ∅ ->
        (at_check clk - at_timestamp first <= 60 * 1000000)%Z ->
        let st1 := (store_incident st d first).2 in
        total_incidents st1 = 1%nat
        /\ store_incident st1 d clk = (_generate_incident_id d (at_id clk), st1)
        /\ total_incidents (store_incident st1 d clk).2 = 1%nat).
Proof.
  intros Hdedup. split.
  - intros stored Hin Hrecent Hty Hsev Hsim.
    apply store_incident_duplicate; [done|].
    by eapply _is_duplicate_incident_true.
  - intros first Hempty Htokens Hminute st1.
    pose proof (store_incident_first st d first Hempty) as Hst1. fold st1 in Hst1.
    assert (Hconfig : config st1 = config st).
    { unfold st1, Memory.store_incident, _is_duplicate_incident.
      by rewrite Hempty, andb_false_r. }
    assert (Htotal : total_incidents st1 = 1%nat)
      by (unfold total_incidents; by rewrite Hst1).
    assert (Hagain :
      store_incident st1 d clk = (_generate_incident_id d (at_id clk), st1)).
    { apply store_incident_duplicate; [by rewrite Hconfig|].
      eapply _is_duplicate_incident_true.
      - rewrite Hst1. apply list_elem_of_here.
      - cbn. unfold microseconds_per_hour. lia.
      - done.
      - done.
      - unfold message_lower. cbn [inc_log_entry with_metadata Memory.new_incident].
        rewrite _calculate_similarity_self by done. reflexivity. }
    split_and!; [done|done|]. by rewrite Hagain.
Qed.

(** *** Retention *)

Lemma get_fold_del (d : PyDict.t string Incident) (ids : list string) id :
  PyDict.wf d ->
  PyDict.get id (fold_left (fun d id => PyDict.del id d) ids d)
  = if decide (id ∈ ids) then None else PyDict.get id d.
Proof.
  revert d. induction ids as [|k ids IH]; intros d Hwf; cbn [fold_left].
  - by rewrite decide_False by apply not_elem_of_nil.
  - rewrite IH by by apply del_wf.
    destruct (decide (id ∈ ids)) as [Hin|Hnotin].
    + by rewrite decide_True by by apply list_elem_of_further.
    + destruct (decide (k = id)) as [->|Hne].
      * rewrite decide_True by apply list_elem_of_here. by apply get_del_eq.
      * rewrite decide_False.
        -- by apply get_del_ne.
        -- intros [?|?]%elem_of_cons; congruence.
Qed.

Lemma cutoff_time_Some st now cutoff :
  (delta ← timedelta_days (retention_days (config st)); datetime_sub now delta)
  = Some cutoff ->
  cutoff = (now - retention_days (config st) * microseconds_per_day)%Z.
Proof.
  unfold timedelta_days, datetime_sub.
  destruct (Z.abs _ <=? 999999999)%Z; [|done]. cbn [mbind option_bind].
  destruct (is_datetime _); [|done]. by intros [= <-].
Qed.

Lemma cutoff_time_None st now :
  (0 <= retention_days (config st))%Z ->
  is_datetime now = true ->
  (delta ← timedelta_days (retention_days (config st)); datetime_sub now delta) = None ->
  (now - retention_days (config st) * microseconds_per_day < datetime_min)%Z.
Proof.
  unfold timedelta_days, datetime_sub, is_datetime, datetime_min, datetime_max,
    microseconds_per_day, microseconds_per_hour.
  intros Hdays [Hmin Hmax]%andb_true_iff.
  apply Z.leb_le in Hmin. apply Z.leb_le in Hmax.
  destruct (Z.abs _ <=? 999999999)%Z eqn:Hdelta; cbn [mbind option_bind].
  - destruct (_ && _) eqn:Hrange; [done|]. intros _.
    apply andb_false_iff in Hrange as [Hlow|Hhigh].
    + apply Z.leb_gt in Hlow. lia.
    + apply Z.leb_gt in Hhigh. lia.
  - intros _. apply Z.leb_gt in Hdelta. lia.
Qed.

Lemma cleanup_incidents st now cutoff :
  (delta ← timedelta_days (retention_days (config st)); datetime_sub now delta)
  = Some cutoff ->
  _incidents (cleanup_old_incidents st now)
  = fold_left (fun d id => PyDict.del id d)
      (omap (M := list) (fun '(incident_id, incident) =>
               if (timestamp incident <? cutoff)%Z
               then Some incident_id else None) (_incidents st))
      (_incidents st).
Proof.
  intros Hcutoff. unfold cleanup_old_incidents. rewrite Hcutoff.
  set (ids := omap (M := list) _ (_incidents st)).
  assert (Hfold : forall s,
    _incidents (fold_left
      (fun s incident_id =>
         {| config := config s;
            _incidents := PyDict.del incident_id (_incidents s);
            _incident_cache :=
              if PyDict.mem incident_id (_incident_cache s)
              then PyDict.del incident_id (_incident_cache s)
              else _incident_cache s;
            storage := storage s |}) ids s)
    = fold_left (fun d id => PyDict.del id d) ids (_incidents s)).
  { induction ids as [|k ids IH]; intros s; [done|]. simpl. by rewrite IH. }
  destruct (0 <? length ids)%nat; simpl; apply Hfold.
Qed.

(** C8: after [cleanup_old_incidents] at time [now], with a retention
    that is not negative, what the store holds under an id is what it
    held before, provided the timestamp is not older than [now] minus
    [retention_days] days; an incident whose timestamp is older is
    gone, one whose timestamp is newer is there as it was.  This covers
    the retentions so long that the cutoff is no [datetime]: the pass
    then raises, is caught and removes nothing, and no timestamp is
    older than such a cutoff. *)
Theorem cleanup_removes_exactly_the_old st now :
  PyDict.wf (_incidents st) ->
  (0 <= retention_days (config st))%Z ->
  is_datetime now = true ->
  (forall id incident,
     PyDict.get id (_incidents st) = Some incident ->
     is_datetime (timestamp incident) = true) ->
  let cutoff := (now - retention_days (config st) * microseconds_per_day)%Z in
  let st' := cleanup_old_incidents st now in
  PyDict.wf (_incidents st')
  /\ (forall id incident,
        PyDict.get id (_incidents st) = Some incident ->
        (timestamp incident < cutoff)%Z ->
        PyDict.get id (_incidents st') = None)
  /\ (forall id incident,
        PyDict.get id (_incidents st) = Some incident ->
        (cutoff < timestamp incident)%Z ->
        PyDict.get id (_incidents st') = Some incident)
  /\ (forall id incident,
        PyDict.get id (_incidents st') = Some incident ->
        PyDict.get id (_incidents st) = Some incident
        /\ (cutoff <= timestamp incident)%Z).
Proof.
  intros Hwf Hdays Hnow Hstored cutoff st'.
  assert (Hboth :
    PyDict.wf (_incidents st')
    /\ forall id,
         PyDict.get id (_incidents st')
         = match PyDict.get id (_incidents st) with
           | Some incident =>
               if (timestamp incident <? cutoff)%Z then None else Some incident
           | None => None
           end).
  { destruct (delta ← timedelta_days (retention_days (config st));
              datetime_sub now delta) as [c|] eqn:Hcutoff.
    - pose proof (cutoff_time_Some _ _ _ Hcutoff) as ->. fold cutoff in Hcutoff.
      split.
      + unfold st'. rewrite (cleanup_incidents _ _ _ Hcutoff).
        generalize (omap (M := list) (fun '(incident_id, incident) =>
          if (timestamp incident <? cutoff)%Z
          then Some incident_id else None) (_incidents st)).
        intros ids. revert Hwf. generalize (_incidents st).
        induction ids as [|k ids IH]; intros d Hd; [done|]. simpl. by apply IH, del_wf.
      + intros id. unfold st'.
        rewrite (cleanup_incidents _ _ _ Hcutoff), get_fold_del by done.
        case_decide as Hin.
        * apply list_elem_of_omap in Hin as ([k incident] & Hin & Hold).
          destruct (timestamp incident <? cutoff)%Z eqn:Hts; [|done].
          injection Hold as ->. by rewrite (elem_of_wf_get _ _ _ Hwf Hin), Hts.
        * destruct (PyDict.get id (_incidents st)) as [incident|] eqn:Hid; [|done].
          destruct (timestamp incident <? cutoff)%Z eqn:Hts; [|done].
          destruct Hin. apply list_elem_of_omap. exists (id, incident).
          split; [by apply get_Some_elem_of|]. by rewrite Hts.
    - pose proof (cutoff_time_None _ _ Hdays Hnow Hcutoff) as Hbelow.
      fold cutoff in Hbelow.
      assert (Hsame : st' = st).
      { unfold st', cleanup_old_incidents. by rewrite Hcutoff. }
      rewrite Hsame. split; [done|]. intros id.
      destruct (PyDict.get id (_incidents st)) as [incident|] eqn:Hid; [|done].
      apply Hstored in Hid. unfold is_datetime in Hid.
      apply andb_true_iff in Hid as [Hmin%Z.leb_le _].
      rewrite (proj2 (Z.ltb_ge _ _)); [done|lia]. }
  destruct Hboth as [Hwf' Hget].
  split_and!; [done|..].
  - intros id incident Hid Hold. rewrite Hget, Hid.
    by rewrite (proj2 (Z.ltb_lt _ _) Hold).
  - intros id incident Hid Hnew. rewrite Hget, Hid.
    rewrite (proj2 (Z.ltb_ge _ _)); [done|lia].
  - intros id incident. rewrite Hget.
    destruct (PyDict.get id (_incidents st)) as [i|]; [|done].
    destruct (timestamp i <? cutoff)%Z eqn:Hts; [done|].
    intros [= ->]. split; [done|]. by apply Z.ltb_ge.
Qed.

(** Where the cutoff cannot be computed the pass removes nothing: a
    retention of more than 999999999 days either way, or a cutoff before
    the year 1 or after the year 9999. *)
Lemma cleanup_old_incidents_raises st now :
  (999999999 < Z.abs (retention_days (config st)))%Z
  \/ is_datetime (now - retention_days (config st) * microseconds_per_day) = false ->
  cleanup_old_incidents st now = st.
Proof.
  unfold cleanup_old_incidents, timedelta_days, datetime_sub.
  intros [Hdays|Hrange].
  - by rewrite (proj2 (Z.leb_gt _ _) Hdays).
  - destruct (Z.abs _ <=? 999999999)%Z; [|done]. cbn [mbind option_bind].
    by rewrite Hrange.
Qed.

(** *** Similar incidents *)

Lemma slice_to_prefix {A} (n : Z) (l : list A) :
  exists rest, l = PyList.slice_to n l ++ rest.
Proof.
  unfold PyList.slice_to. destruct (0 <=? n)%Z; eexists; symmetry; apply take_drop.
Qed.

Lemma slice_to_length {A} (n : Z) (l : list A) :
  (0 <= n)%Z -> (Z.of_nat (length (PyList.slice_to n l)) <= n)%Z.
Proof.
  intros Hn. unfold PyList.slice_to. rewrite (proj2 (Z.leb_le _ _) Hn), length_take. lia.
Qed.

End MemoryFacts.

(** ** The doubles *)

Section Float64Facts.
Import Float64.

Lemma ltb_below x y :
  is_nan x = false -> is_nan y = false -> ltb x y = true <-> below x y.
Proof. intros Hx Hy. float_cases x y; split; intros Hyp; try done; lia. Qed.

Lemma eqb_level x y :
  is_nan x = false -> is_nan y = false -> eqb x y = true <-> level x y.
Proof. intros Hx Hy. float_cases x y; split; intros Hyp; try done; lia. Qed.

Lemma leb_not_below x y :
  is_nan x = false -> is_nan y = false -> leb x y = true <-> ~ below y x.
Proof. intros Hx Hy. float_cases x y; split; intros Hyp; try done; lia. Qed.

Lemma ltb_not_nan x y : ltb x y = true -> is_nan x = false /\ is_nan y = false.
Proof. by destruct x as [[]|[]| |[] mx ex], y as [[]|[]| |[] my ey]. Qed.

Lemma eqb_not_nan x y : eqb x y = true -> is_nan x = false /\ is_nan y = false.
Proof. by destruct x as [[]|[]| |[] mx ex], y as [[]|[]| |[] my ey]. Qed.

Lemma ltb_asym x y :
  is_nan x = false -> is_nan y = false -> ltb x y = true -> ltb y x = false.
Proof.
  intros Hx Hy Hlt. apply not_true_iff_false. rewrite ltb_below in * by done.
  unfold below in *. lia.
Qed.

Lemma ltb_negtrans x y z :
  is_nan x = false -> is_nan y = false -> is_nan z = false ->
  ltb x y = false -> ltb y z = false -> ltb x z = false.
Proof.
  intros Hx Hy Hz Hxy Hyz. apply not_true_iff_false.
  apply not_true_iff_false in Hxy, Hyz. rewrite ltb_below in * by done.
  unfold below in *. lia.
Qed.

(** Rounding never makes a NaN of a number. *)
Lemma shr_1_nonneg mrs : (0 <= shr_m mrs -> 0 <= shr_m (shr_1 mrs))%Z.
Proof. destruct mrs as [[|[p|p|]|p] r s]; simpl; lia. Qed.

Lemma iter_shr_1_nonneg p mrs :
  (0 <= shr_m mrs -> 0 <= shr_m (SpecFloat.iter_pos shr_1 p mrs))%Z.
Proof.
  revert mrs. induction p as [p IH|p IH|]; intros mrs Hm; simpl.
  - by apply IH, IH, shr_1_nonneg.
  - by apply IH, IH.
  - by apply shr_1_nonneg.
Qed.

Lemma shr_fexp_nonneg m e l :
  (0 <= m -> 0 <= shr_m (shr_fexp prec emax m e l).1)%Z.
Proof.
  intros Hm. unfold shr_fexp, shr.
  assert (Hrec : (0 <= shr_m (shr_record_of_loc m l))%Z) by (by destruct l as [|[]]).
  destruct (fexp prec emax (Zdigits2 m + e) - e)%Z; simpl; [done| |done].
  by apply iter_shr_1_nonneg.
Qed.

Lemma round_nearest_even_nonneg m l : (0 <= m -> 0 <= round_nearest_even m l)%Z.
Proof.
  intros Hm. destruct l as [|[]]; simpl; [done| |done|lia]. destruct (Z.even m); lia.
Qed.

Lemma binary_round_aux_not_nan sx mx ex lx :
  (0 <= mx)%Z -> is_nan (binary_round_aux prec emax sx mx ex lx) = false.
Proof.
  intros Hm. unfold binary_round_aux.
  pose proof (shr_fexp_nonneg mx ex lx Hm) as H1.
  destruct (shr_fexp prec emax mx ex lx) as [mrs' e'].
  pose proof (shr_fexp_nonneg
                (round_nearest_even (shr_m mrs') (loc_of_shr_record mrs')) e' loc_Exact
                (round_nearest_even_nonneg _ _ H1)) as H2.
  destruct (shr_fexp prec emax _ e' loc_Exact) as [mrs'' e''].
  simpl in H2. destruct (shr_m mrs''); [done| |lia].
  by destruct (e'' <=? emax - prec)%Z.
Qed.

Lemma of_Z_not_nan z : is_nan (of_Z z) = false.
Proof.
  destruct z as [|m|m]; [done| |]; unfold of_Z, binary_normalize, binary_round;
    destruct (shl_align _ _ _); by apply binary_round_aux_not_nan.
Qed.

Lemma of_int_finite z f : of_int z = Some f -> is_finite f = true.
Proof.
  unfold of_int. pose proof (of_Z_not_nan z) as Hnan.
  destruct (of_Z z); try done; by intros [= <-].
Qed.

Lemma add_not_nan x y :
  is_finite x = true -> is_nan y = false -> is_nan (add x y) = false.
Proof.
  destruct x as [sx| | |sx mx ex]; try done;
    destruct y as [sy|sy| |sy my ey]; try done; intros _ _.
  - by destruct sx, sy.
  - unfold add, SFadd.
    destruct (cond_Zopp sx _ + cond_Zopp sy _)%Z as [|m|m]; [done| |];
      unfold binary_normalize, binary_round;
      destruct (shl_align _ _ _); by apply binary_round_aux_not_nan.
Qed.

Lemma mul_not_nan x y :
  is_finite x = true -> is_finite y = true -> is_nan (mul x y) = false.
Proof.
  destruct x as [sx| | |sx mx ex]; try done;
    destruct y as [sy| | |sy my ey]; try done; intros _ _.
  unfold mul, SFmul. by apply binary_round_aux_not_nan.
Qed.

Lemma py_min_not_nan a b :
  is_nan a = false -> is_nan b = false -> is_nan (py_min a b) = false.
Proof. intros Ha Hb. unfold py_min. by destruct (ltb b a). Qed.
End Float64Facts.

(** ** Sorting a list whose keys are comparable *)

Section SortFactsOn.
Context {A K : Type} (lt : K -> K -> bool) (key : A -> K) (ok : K -> Prop).
Hypothesis lt_asym : forall a b, ok a -> ok b -> lt a b = true -> lt b a = false.
Hypothesis lt_negtrans : forall a b c,
  ok a -> ok b -> ok c -> lt a b = false -> lt b c = false -> lt a c = false.

Lemma insert_desc_sorted_on x l :
  ok (key x) -> Forall (fun y => ok (key y)) l ->
  StronglySorted (PyList.not_below lt key) l ->
  StronglySorted (PyList.not_below lt key) (PyList.insert_desc lt key x l).
Proof using lt_asym lt_negtrans.
  intros Hx Hl Hs. induction Hs as [|y l Hs IH Hy]; simpl.
  - repeat constructor.
  - apply Forall_cons in Hl as [Hoky Hl].
    destruct (lt (key x) (key y)) eqn:Hxy.
    + constructor; [by apply IH|].
      rewrite insert_desc_Permutation. constructor; [|done].
      by apply lt_asym.
    + constructor; [by constructor|].
      constructor; [done|].
      rewrite Forall_forall in Hy, Hl. apply Forall_forall. intros z Hz.
      eapply (lt_negtrans _ (key y)); [done|done|by apply Hl|done|by apply Hy].
Qed.

Lemma sort_desc_sorted_on l :
  Forall (fun y => ok (key y)) l ->
  StronglySorted (PyList.not_below lt key) (PyList.sort_desc lt key l).
Proof using lt_asym lt_negtrans.
  induction l as [|x l IH]; simpl; [constructor|].
  intros [Hx Hl]%Forall_cons. apply insert_desc_sorted_on; [done| |by apply IH].
  by rewrite sort_desc_Permutation.
Qed.
End SortFactsOn.

(** ** The ranking of the fixes *)

Section Engine64Facts.
Variable hash : string -> Z.

Import FixEngine64.

Lemma key64_lt_true k1 k2 :
  Float64.is_nan k1.1 = false -> Float64.is_nan k2.1 = false ->
  key_lt k1 k2 = true
  <-> Float64.below k1.1 k2.1 \/ (Float64.level k1.1 k2.1 /\ (k1.2 < k2.2)%Z).
Proof.
  intros H1 H2. unfold key_lt.
  destruct (Float64.eqb k1.1 k2.1) eqn:Heq.
  - apply eqb_level in Heq; [|done..]. rewrite Z.ltb_lt.
    unfold Float64.below, Float64.level in *. split; [by right|]. lia.
  - rewrite ltb_below by done.
    assert (Hne : ~ Float64.level k1.1 k2.1).
    { intros Hl. apply eqb_level in Hl; [|done..]. congruence. }
    split; [by left|]. tauto.
Qed.

Lemma key64_lt_asym k1 k2 :
  Float64.is_nan k1.1 = false -> Float64.is_nan k2.1 = false ->
  key_lt k1 k2 = true -> key_lt k2 k1 = false.
Proof.
  intros H1 H2 Hlt. apply not_true_iff_false. rewrite key64_lt_true in * by done.
  unfold Float64.below, Float64.level in *. lia.
Qed.

Lemma key64_lt_negtrans k1 k2 k3 :
  Float64.is_nan k1.1 = false -> Float64.is_nan k2.1 = false ->
  Float64.is_nan k3.1 = false ->
  key_lt k1 k2 = false -> key_lt k2 k3 = false -> key_lt k1 k3 = false.
Proof.
  intros H1 H2 H3 H12 H23. apply not_true_iff_false.
  apply not_true_iff_false in H12, H23. rewrite key64_lt_true in * by done.
  unfold Float64.below, Float64.level in *. lia.
Qed.

Lemma not_below_ranks_before f g :
  Float64.is_nan (confidence f) = false -> Float64.is_nan (confidence g) = false ->
  PyList.not_below key_lt sort_key f g -> ranks_before f g.
Proof.
  intros Hf Hg. unfold PyList.not_below, ranks_before, sort_key.
  intros Hnot. apply not_true_iff_false in Hnot.
  rewrite key64_lt_true in Hnot by done. cbn [fst snd] in Hnot. split.
  - apply leb_not_below; [done..|]. tauto.
  - intros Heq%eqb_level; [|done..].
    assert (~ (- FixEngine._risk_score (risk_level f)
               < - FixEngine._risk_score (risk_level g))%Z) by tauto.
    lia.
Qed.

Lemma sort_desc_ranked fixes :
  Forall (fun f => Float64.is_nan (confidence f) = false) fixes ->
  ranked (PyList.sort_desc key_lt sort_key fixes).
Proof.
  intros Hall. unfold ranked.
  pose proof (sort_desc_sorted_on key_lt sort_key
                (fun k => Float64.is_nan k.1 = false)
                key64_lt_asym key64_lt_negtrans fixes Hall) as Hs.
  assert (Hsorted : Forall (fun f => Float64.is_nan (confidence f) = false)
                      (PyList.sort_desc key_lt sort_key fixes))
    by (by rewrite sort_desc_Permutation).
  induction Hs as [|f l _ IH Hf]; constructor.
  - apply IH. by apply Forall_cons in Hsorted as [_ ?].
  - apply Forall_cons in Hsorted as [Hnan Hrest].
    rewrite Forall_forall in Hf, Hrest. apply Forall_forall. intros g Hg.
    apply not_below_ranks_before; [done|by apply Hrest|by apply Hf].
Qed.

Lemma same_rank_not_below f y z :
  same_rank f y = true -> same_rank f z = true ->
  key_lt (sort_key y) (sort_key z) = false.
Proof.
  unfold same_rank, sort_key. rewrite !andb_true_iff, !Z.eqb_eq.
  intros [Hy Hry] [Hz Hrz].
  destruct (eqb_not_nan _ _ Hy) as [Hnf Hny]. destruct (eqb_not_nan _ _ Hz) as [_ Hnz].
  apply eqb_level in Hy; [|done..]. apply eqb_level in Hz; [|done..].
  apply not_true_iff_false. rewrite key64_lt_true by done. cbn [fst snd].
  unfold Float64.below, Float64.level in *. lia.
Qed.

(** *** From rules to fixes *)

Lemma _create_fix_from_rule_not_nan r error_context common_patterns f :
  finite_confidence r ->
  _create_fix_from_rule r error_context common_patterns = Some f ->
  Float64.is_nan (confidence f) = false.
Proof.
  unfold _create_fix_from_rule. intros Hr Hf.
  assert (Hbase : Float64.is_finite
                    (default (Float64.decimal 5 10) (rule_confidence r)) = true).
  { destruct (rule_confidence r) as [q|] eqn:Hq; simpl; [by apply Hr|reflexivity]. }
  destruct (FixEngine.count_matches _ _) as [n|]; [|done]. cbn [mbind option_bind] in Hf.
  assert (Hone : Float64.is_nan (Float64.of_Z 1) = false) by reflexivity.
  set (base := default (Float64.decimal 5 10) (rule_confidence r)) in *.
  destruct (0 <? n)%nat.
  - destruct (Float64.of_int (Z.of_nat n)) as [m|] eqn:Hm; [|done].
    assert (Hraised : Float64.is_nan
              (Float64.add base (Float64.mul (Float64.decimal 1 10) m)) = false).
    { apply add_not_nan; [done|].
      apply mul_not_nan; [reflexivity|]. by eapply of_int_finite. }
    set (raised := Float64.add base _) in *.
    cbn [mbind option_bind] in Hf. injection Hf as <-. cbn [confidence].
    by apply py_min_not_nan.
  - cbn [mbind option_bind] in Hf. injection Hf as <-. cbn [confidence].
    apply py_min_not_nan; [|done]. by destruct base.
Qed.

Lemma fixes_of_rules64_omap a rules fixes :
  fixes_of_rules rules (FixEngine.error_context a) (FixEngine.common_patterns a)
  = Some fixes ->
  fixes = omap (candidate_fix64 a) rules.
Proof.
  revert fixes. induction rules as [|r rules IH]; intros fixes Hf; simpl in Hf.
  - by injection Hf as <-.
  - cbn [omap list_omap]. unfold candidate_fix64 at 1.
    destruct (_rule_matches_context r _ _) as [matched|]; [|done].
    destruct (fixes_of_rules rules _ _) as [more|]; [|done].
    cbn in Hf. injection Hf as <-. rewrite <- (IH _ eq_refl).
    destruct matched; [|done]. by destruct (_create_fix_from_rule r _ _).
Qed.

Lemma generated_fixes64_sorted fix_rules c a fixes :
  _generate_fixes_for_error fix_rules c a = Some fixes ->
  exists rules,
    _get_applicable_fix_rules fix_rules (FixEngine.error_type c)
      (FixEngine.severity c) (FixEngine.components c) = Some rules
    /\ fixes = PyList.sort_desc key_lt sort_key (omap (candidate_fix64 a) rules).
Proof.
  unfold _generate_fixes_for_error. intros Hg.
  destruct (_get_applicable_fix_rules _ _ _ _) as [rules|]; [|done].
  cbn [mbind option_bind] in Hg.
  destruct (fixes_of_rules rules _ _) as [unsorted|] eqn:Hu; [|done].
  cbn in Hg. injection Hg as <-. exists rules. split; [done|].
  by rewrite (fixes_of_rules64_omap _ _ _ Hu).
Qed.

Lemma filter_low_or_medium64_elem rules kept r :
  filter_low_or_medium rules = Some kept -> r ∈ kept -> r ∈ rules.
Proof.
  revert kept. induction rules as [|r0 rules IH]; intros kept Hf Hin; simpl in Hf.
  - injection Hf as <-. by apply elem_of_nil in Hin.
  - destruct (low_or_medium r0) as [keep|]; [|done].
    destruct (filter_low_or_medium rules) as [kept'|]; [|done].
    cbn in Hf. injection Hf as <-. destruct keep.
    + apply elem_of_cons in Hin as [->|Hin]; [apply list_elem_of_here|].
      apply list_elem_of_further. by eapply IH.
    + apply list_elem_of_further. by eapply IH.
Qed.

Lemma applicable_rules64_ok (ok : rule -> Prop) fix_rules error_type severity
    components rules :
  registry64_ok ok fix_rules ->
  _get_applicable_fix_rules fix_rules error_type severity components = Some rules ->
  Forall ok rules.
Proof.
  unfold _get_applicable_fix_rules. intros Hreg Hrules.
  assert (Hall : Forall ok
            (default [] (fix_rules !! error_type)
             ++ concat (map (fun component =>
                  default [] (fix_rules !! (error_type +:+ "_" +:+ component)))
                  components))).
  { apply Forall_app. split.
    - destruct (fix_rules !! error_type) as [rs|] eqn:Hrs; simpl;
        [by eapply Hreg|by apply Forall_nil].
    - apply Forall_forall. intros r (component & _ & Hr)%elem_of_concat_map.
      destruct (fix_rules !! (error_type +:+ "_" +:+ component)) as [rs|] eqn:Hrs;
        simpl in Hr; [|by apply elem_of_nil in Hr].
      pose proof (Hreg _ _ Hrs) as Hok. rewrite Forall_forall in Hok. by apply Hok. }
  destruct (decide (severity = "CRITICAL")); [|by simplify_eq].
  apply Forall_forall. intros r Hr. rewrite Forall_forall in Hall.
  apply Hall. by eapply filter_low_or_medium64_elem.
Qed.

Lemma generated_fixes64_ranked fix_rules c a fixes :
  registry64_ok finite_confidence fix_rules ->
  _generate_fixes_for_error fix_rules c a = Some fixes ->
  ranked fixes.
Proof.
  intros Hreg (rules & Hrules & ->)%generated_fixes64_sorted.
  apply sort_desc_ranked. apply Forall_forall.
  intros f (r & Hr & Hf)%list_elem_of_omap.
  pose proof (applicable_rules64_ok _ _ _ _ _ _ Hreg Hrules) as Hok.
  rewrite Forall_forall in Hok. specialize (Hok _ Hr).
  unfold candidate_fix64 in Hf.
  destruct (_rule_matches_context r _ _) as [[]|]; try done.
  by eapply _create_fix_from_rule_not_nan.
Qed.

(** *** Runs of the engine *)

Lemma engine64_reachable_invariant st :
  engine64_reachable hash finite_confidence st ->
  registry64_ok finite_confidence (fix_rules st)
  /\ (forall k fixes, (k, fixes) ∈ _fix_cache st -> ranked fixes).
Proof.
  induction 1 as [rules Hreg|st c a _ [IHr IHc]|st ty r Hr _ [IHr IHc]|st _ [IHr IHc]].
  - split; [done|]. intros k fixes Hin. by apply elem_of_nil in Hin.
  - unfold generate_fixes.
    destruct (PyDict.get _ (_fix_cache st)); [done|].
    destruct (_generate_fixes_for_error _ c a) as [fixes|] eqn:Hgen; [|done].
    split; [done|]. cbn [snd _fix_cache].
    intros k fixes' [Heq|Hin]%elem_of_add_to_cache; [|by eapply IHc].
    simplify_eq. by eapply generated_fixes64_ranked.
  - split; [|done]. intros ty' rs. simpl. rewrite lookup_insert.
    case_decide as Hty; [|apply IHr].
    intros [= <-]. apply Forall_app. split; [|by apply Forall_singleton].
    destruct (fix_rules st !! ty) as [rs0|] eqn:Hrs0; simpl; [by eapply IHr|].
    by apply Forall_nil.
  - split; [done|]. intros k fixes Hin. by apply elem_of_nil in Hin.
Qed.

(** C5: the list [generate_fixes] returns is ranked, with the
    confidences as the doubles the code computes and compares: of any
    two of its fixes the earlier is at least as confident, and at equal
    confidence its risk score (LOW 1, MEDIUM 2, HIGH 3, CRITICAL 4,
    UNKNOWN 5) is at most that of the later.  This holds of an engine
    whose rules hold finite confidences.  When the list is computed it
    is a rearrangement of the fixes of the candidate rules, taken in the
    order of the rules, in which the fixes that tie in confidence and
    risk keep that order. *)
Theorem generate_fixes_ranked st c a :
  engine64_reachable hash finite_confidence st ->
  ranked (generate_fixes hash st c a).1
  /\ (forall fixes,
        _generate_fixes_for_error (fix_rules st) c a = Some fixes ->
        ranked fixes
        /\ (PyDict.get (FixEngine._generate_cache_key hash c a) (_fix_cache st) = None ->
            (generate_fixes hash st c a).1 = fixes)
        /\ exists rules,
             _get_applicable_fix_rules (fix_rules st) (FixEngine.error_type c)
               (FixEngine.severity c) (FixEngine.components c) = Some rules
             /\ fixes ≡ₚ omap (candidate_fix64 a) rules
             /\ forall f, List.filter (same_rank f) fixes
                          = List.filter (same_rank f) (omap (candidate_fix64 a) rules))
  /\ map FixEngine._risk_score ["LOW"; "MEDIUM"; "HIGH"; "CRITICAL"; "UNKNOWN"]
     = [1; 2; 3; 4; 5]%Z.
Proof.
  intros [Hreg Hcache]%engine64_reachable_invariant. split_and!; [| |done].
  - unfold generate_fixes.
    destruct (PyDict.get _ (_fix_cache st)) as [cached|] eqn:Hget; simpl.
    + eapply Hcache, get_Some_elem_of, Hget.
    + destruct (_generate_fixes_for_error _ c a) as [fixes|] eqn:Hgen; simpl;
        [by eapply generated_fixes64_ranked|constructor].
  - intros fixes Hgen. split_and!.
    + by eapply generated_fixes64_ranked.
    + intros Hmiss. unfold generate_fixes. by rewrite Hmiss, Hgen.
    + apply generated_fixes64_sorted in Hgen as (rules & Hrules & ->).
      exists rules. split_and!; [done|apply sort_desc_Permutation|].
      intros f. apply sort_desc_filter. apply same_rank_not_below.
Qed.

(** A fix whose confidence is a NaN stands in no ranking with another
    fix, on either side: what the hypothesis on the rules keeps out. *)
Lemma nan_confidence_never_ranks f g :
  Float64.is_nan (confidence f) = true -> ~ ranks_before f g /\ ~ ranks_before g f.
Proof.
  unfold ranks_before. destruct (confidence f); try done. intros _.
  split; intros [Hle _]; by destruct (confidence g).
Qed.
End Engine64Facts.

(** ** Similar incidents *)

Section Similar64Facts.
Variable sum : list Float64.float -> Float64.float.

Import Memory Memory64.

(** C10: for a limit that counts, [get_similar_incidents] returns at
    most [limit] incidents; none of them has the id of the query; each
    has a similarity to the query above 0.5, as the code computes and
    compares the doubles, the similarity being the [sum] of 0.4 where
    the error types are equal, 0.3 where the severities are equal and
    0.3 times the Jaccard similarity of the lowercased messages' words;
    and they come in order of non-increasing similarity. *)
Theorem similar_incidents_spec st incident (limit : nat) :
  let similarity := _calculate_incident_similarity sum incident in
  let result := get_similar_incidents sum st incident (Z.of_nat limit) in
  (length result <= limit)%nat
  /\ Forall (fun i =>
              incident_id i <> incident_id incident
              /\ i ∈ PyDict.values (_incidents st)
              /\ Float64.ltb (Float64.decimal 5 10) (similarity i) = true) result
  /\ StronglySorted
       (fun i j => Float64.leb (similarity j) (similarity i) = true) result
  /\ (forall i,
        similarity i
        = sum ((if bool_decide (error_type (inc_classification incident)
                                = error_type (inc_classification i))
                then [Float64.decimal 4 10] else [])
               ++ (if bool_decide (severity (inc_classification incident)
                                   = severity (inc_classification i))
                   then [Float64.decimal 3 10] else [])
               ++ [Float64.mul
                     (_calculate_similarity (message_lower incident) (message_lower i))
                     (Float64.decimal 3 10)])).
Proof.
  intros similarity result. unfold get_similar_incidents in result.
  set (similar := omap _ (PyDict.values (_incidents st))) in result.
  assert (Hsimilar : Forall (fun p : Float64.float * Incident =>
            p.1 = similarity p.2
            /\ incident_id p.2 <> incident_id incident
            /\ p.2 ∈ PyDict.values (_incidents st)
            /\ Float64.ltb (Float64.decimal 5 10) p.1 = true) similar).
  { apply Forall_forall. intros [q i] (stored & Hstored & Hp)%list_elem_of_omap.
    case_decide as Hid; [done|].
    destruct (Float64.ltb _ _) eqn:Hq; [|done]. by injection Hp as <- <-. }
  assert (Hok : Forall (fun p : Float64.float * Incident =>
            Float64.is_nan p.1 = false) similar).
  { eapply Forall_impl; [exact Hsimilar|]. intros p (_ & _ & _ & Hlt).
    by destruct (ltb_not_nan _ _ Hlt). }
  destruct (slice_to_prefix (Z.of_nat limit)
              (PyList.sort_desc Float64.ltb fst similar)) as [rest Hrest].
  assert (Hsorted : StronglySorted (PyList.not_below Float64.ltb fst)
                      (PyList.slice_to (Z.of_nat limit)
                         (PyList.sort_desc Float64.ltb fst similar))).
  { eapply StronglySorted_app_1_l. rewrite <- Hrest.
    by apply (sort_desc_sorted_on Float64.ltb fst
                (fun k => Float64.is_nan k = false) ltb_asym ltb_negtrans). }
  assert (Hall : Forall (fun p : Float64.float * Incident =>
            p.1 = similarity p.2
            /\ incident_id p.2 <> incident_id incident
            /\ p.2 ∈ PyDict.values (_incidents st)
            /\ Float64.ltb (Float64.decimal 5 10) p.1 = true)
            (PyList.slice_to (Z.of_nat limit)
               (PyList.sort_desc Float64.ltb fst similar))).
  { apply Forall_forall. intros p Hp. rewrite Forall_forall in Hsimilar.
    apply Hsimilar. rewrite <- (sort_desc_Permutation Float64.ltb fst similar), Hrest.
    apply elem_of_app. by left. }
  split_and!.
  - unfold result. rewrite length_map.
    pose proof (slice_to_length (Z.of_nat limit)
                  (PyList.sort_desc Float64.ltb fst similar)). lia.
  - unfold result. apply Forall_fmap. eapply Forall_impl; [exact Hall|].
    intros [q i] (Hq & Hid & Hin & Hsim). simpl in *. split_and!; [done|done|].
    by rewrite <- Hq.
  - unfold result. clear Hrest.
    induction Hsorted as [|p l _ IH Hp]; [constructor|].
    apply Forall_cons in Hall as [(Hq & _ & _ & Hlt) Hall]. cbn [map].
    constructor; [by apply IH|].
    apply Forall_fmap. rewrite Forall_forall in Hp, Hall. apply Forall_forall.
    intros p' Hp'. destruct (Hall _ Hp') as (Hq' & _ & _ & Hlt'). specialize (Hp _ Hp').
    unfold PyList.not_below in Hp. simpl. rewrite <- Hq, <- Hq'.
    destruct (ltb_not_nan _ _ Hlt) as [_ Hn]. destruct (ltb_not_nan _ _ Hlt') as [_ Hn'].
    apply leb_not_below; [done..|]. intros Hbelow.
    apply ltb_below in Hbelow; [|done..]. congruence.
  - done.
Qed.
End Similar64Facts.

(** * The statements at concrete inputs *)

(** C3, as the claim states it, fails: with deduplication switched
    off, the example incident stored a second time one second after the
    first is a duplicate by the claim's test, and the store grows to two
    incidents. *)
Lemma store_keeps_duplicate_without_deduplication :
  Memory._is_duplicate_incident (Demo.stored_once false) 1000000
    (Demo.second_incident false) = true
  /\ Memory.total_incidents (Demo.stored_once false) = 1%nat
  /\ Memory.total_incidents (Demo.stored_twice false) = 2%nat
  /\ Demo.stored_twice false <> Demo.stored_once false.
Proof.
  split_and!; [vm_compute; reflexivity ..|].
  intros Heq. apply (f_equal Memory.total_incidents) in Heq. vm_compute in Heq.
  discriminate Heq.
Qed.

(** The example incident stored twice, a second apart, into an empty
    store that deduplicates. *)
Lemma store_suppresses_duplicates_witness :
  Memory.enable_deduplication (Memory.config (Demo.empty_store true)) = true
  /\ Memory._incidents (Demo.empty_store true) = []
  /\ Memory.total_incidents (Demo.stored_once true) = 1%nat
  /\ Memory.total_incidents (Demo.stored_twice true) = 1%nat.
Proof.
  split; [reflexivity|]. split; [reflexivity|].
  destruct (store_suppresses_duplicates Demo.md5_hexdigest Demo.strftime
              Demo.isoformat Demo.str_of_patterns (Demo.empty_store true)
              Demo.timeout_incident (Demo.clock_at 1000000) eq_refl) as [_ Htwice].
  destruct (Htwice (Demo.clock_at 0) eq_refl) as (Hone & _ & Hstill).
  - intros Hempty. apply (f_equal size) in Hempty. vm_compute in Hempty.
    discriminate Hempty.
  - vm_compute. discriminate.
  - split; [exact Hone | exact Hstill].
Defined.

(** A HIGH-risk and a LOW-risk rule under a CRITICAL classification:
    only the LOW-risk fix comes out. *)
Lemma critical_severity_gate_witness :
  FixEngine.severity Demo.critical = "CRITICAL"
  /\ Forall (fun f => low_or_medium_risk (FixEngine.risk_level f))
       (FixEngine.generate_fixes Demo.hash Demo.engine Demo.critical
          Demo.pool_analysis).1
  /\ map FixEngine.risk_level
       (FixEngine.generate_fixes Demo.hash Demo.engine Demo.critical
          Demo.pool_analysis).1 = ["LOW"].
Proof.
  split; [reflexivity|]. split; [|vm_compute; reflexivity].
  apply (critical_severity_gate Demo.hash Demo.engine Demo.critical
           Demo.pool_analysis eq_refl).
  reflexivity.
Defined.

(** The engine of the examples is in an initial state. *)
Lemma demo_engine_reachable (ok : FixEngine.rule -> Prop) :
  ok Demo.high_rule -> ok Demo.low_rule -> engine_reachable Demo.hash ok Demo.engine.
Proof.
  intros Hhigh Hlow. apply ereach_init.
  intros ty rs Hlookup. unfold Demo.engine, Demo.registry in Hlookup. simpl in Hlookup.
  apply lookup_singleton_Some in Hlookup as [_ <-]. by repeat constructor.
Qed.

(** The same two rules under a WARNING: both fixes have confidence 0.9,
    and the LOW-risk one, registered second, comes first. *)

(** The example message on a fresh classifier, and the shipped rules on
    a context [connection_timeout_fix] matches. *)
Lemma confidences_in_unit_interval_witness :
  in_unit_interval
    (Classifier.confidence
       (Classifier.classify Demo.hash Demo.list_of_set
          (Classifier.init {| Classifier.enable_ml := true;
                              Classifier.enable_rules := true |})
          timeout_entry).1)
  /\ Forall (fun f => in_unit_interval (FixEngine.confidence f))
       (FixEngine.generate_fixes Demo.hash FixEngine.init Demo.warning
          Demo.timeout_analysis).1
  /\ length (FixEngine.generate_fixes Demo.hash FixEngine.init Demo.warning
               Demo.timeout_analysis).1 = 1%nat.
Proof.
  rewrite (and_assoc _ _ (length _ = 1%nat)). split; [|vm_compute; reflexivity].
  apply confidences_in_unit_interval.
  - apply creach_init.
  - apply ereach_init, shipped_rules_confidence_ok.
Defined.

(** The rule source's answer on the example message combined with the
    ML placeholder: (0.8 + 0.8) / 2. *)
Lemma combine_classifications_spec_witness :
  let rule_based :=
    Classifier._classify_with_rules Demo.list_of_set
      Patterns._initialize_error_patterns timeout_message [] in
  let combined :=
    Classifier._combine_classifications Demo.list_of_set
      [rule_based; Classifier._classify_with_ml] in
  Classifier.error_type combined = "database_errors"
  /\ (Classifier.confidence combined == 0.8)%Q
  /\ "ml_component" ∈ Classifier.components combined.
Proof.
  cbv zeta.
  destruct (combine_classifications_spec Demo.list_of_set
              (fun l => NoDup_remove_dups l)
              (fun l x => elem_of_remove_dups l x)
              (Classifier._classify_with_rules Demo.list_of_set
                 Patterns._initialize_error_patterns timeout_message [])
              Classifier._classify_with_ml [])
    as ((Hty & _) & (_ & Hcomponents) & _ & Hmean & _).
  split; [rewrite Hty; vm_compute; reflexivity|].
  split; [rewrite Hmean; vm_compute; reflexivity|].
  apply Hcomponents. exists Classifier._classify_with_ml.
  split; [apply list_elem_of_further, list_elem_of_here | apply list_elem_of_here].
Defined.

(** Two incidents stored at times 0 and 1s, cleaned up 400 days later
    under a retention of 365 days. *)
Lemma cleanup_removes_exactly_the_old_witness :
  let st := Demo.stored_twice false in
  let now := (400 * Memory.microseconds_per_day)%Z in
  PyDict.wf (Memory._incidents st)
  /\ Memory.retention_days (Memory.config st) = 365%Z
  /\ Memory.total_incidents st = 2%nat
  /\ PyDict.wf (Memory._incidents (Memory.cleanup_old_incidents st now))
  /\ Memory.total_incidents (Memory.cleanup_old_incidents st now) = 0%nat.
Proof.
  cbv zeta.
  assert (Hwf : PyDict.wf (Memory._incidents (Demo.stored_twice false))).
  { apply (bool_decide_unpack _). vm_compute. exact I. }
  split; [exact Hwf|]. split; [reflexivity|]. split; [vm_compute; reflexivity|].
  split; [|vm_compute; reflexivity].
  apply (cleanup_removes_exactly_the_old (Demo.stored_twice false)
           (400 * Memory.microseconds_per_day)%Z Hwf).
  - vm_compute. intros Hgt. discriminate Hgt.
  - vm_compute. reflexivity.
  - intros id incident Hget.
    apply get_Some_elem_of in Hget.
    assert (Hall : Forall (fun e => Memory.is_datetime (Memory.timestamp e.2) = true)
                     (Memory._incidents (Demo.stored_twice false))).
    { apply (bool_decide_unpack _). vm_compute. exact I. }
    rewrite Forall_forall in Hall. exact (Hall _ Hget).
Defined.

(** The example message with and without structured data. *)
Lemma classify_depends_on_message_only_witness :
  let st := Classifier.init {| Classifier.enable_ml := false;
                               Classifier.enable_rules := true |} in
  let other :=
    {| Classifier.pe_message := Some (Classifier.VStr timeout_message);
       Classifier.pe_structured_data := Some [("host", "db-1"); ("retries", "3")] |} in
  Classifier.pe_message timeout_entry = Classifier.pe_message other
  /\ Classifier.classify Demo.hash Demo.list_of_set st timeout_entry
     = Classifier.classify Demo.hash Demo.list_of_set st other.
Proof.
  cbv zeta. split; [reflexivity|].
  apply (classify_depends_on_message_only Demo.hash Demo.list_of_set).
  reflexivity.
Defined.

Lemma demo64_engine_reachable ty r1 r2 :
  finite_confidence r1 -> finite_confidence r2 ->
  engine64_reachable Demo.hash finite_confidence
    (FixEngine64.add_custom_fix_rule
       (FixEngine64.add_custom_fix_rule Demo64.empty_engine ty r1) ty r2).
Proof.
  intros H1 H2. apply ereach64_add; [done|]. apply ereach64_add; [done|].
  apply ereach64_init. intros ty' rs Hlookup. by rewrite lookup_empty in Hlookup.
Qed.

Lemma generate_fixes_ranked_witness :
  let tied :=
    (FixEngine64.generate_fixes Demo.hash Demo64.engine Demo.warning
       Demo.pool_analysis).1 in
  let rounded :=
    (FixEngine64.generate_fixes Demo.hash Demo64.rounding_engine Demo.warning
       Demo64.rounding_analysis).1 in
  (ranked tied /\ map FixEngine64.risk_level tied = ["LOW"; "HIGH"])
  /\ (ranked rounded /\ map FixEngine64.risk_level rounded = ["HIGH"; "LOW"]).
Proof.
  cbv zeta. split; (split; [|vm_compute; reflexivity]).
  - refine (proj1 (generate_fixes_ranked Demo.hash Demo64.engine Demo.warning
                     Demo.pool_analysis _)).
    apply demo64_engine_reachable; intros q Hq; injection Hq as <-; reflexivity.
  - refine (proj1 (generate_fixes_ranked Demo.hash Demo64.rounding_engine Demo.warning
                     Demo64.rounding_analysis _)).
    apply demo64_engine_reachable; intros q Hq; injection Hq as <-; reflexivity.
Defined.

Lemma similar_incidents_spec_witness :
  (length (Memory64.get_similar_incidents Demo64.sum Demo64.store Demo64.query 1)
   <= 1)%nat
  /\ map Memory.incident_id
       (Memory64.get_similar_incidents Demo64.sum Demo64.store Demo64.query 1)
     = ["type_only"]
  /\ map Memory.incident_id
       (Memory64.get_similar_incidents Demo64.sum Demo64.store Demo64.query 5)
     = ["type_only"; "sev_only"].
Proof.
  split; [|split; vm_compute; reflexivity].
  apply (similar_incidents_spec Demo64.sum Demo64.store Demo64.query 1).
Defined.

(** * Further properties of the code *)

(** ** The bounded caches *)

Section CacheFacts.
Context {K V : Type} `{EqDecision K}.
Implicit Types (d : PyDict.t K V) (k : K) (v : V).

Lemma length_set_le d k v : (length (PyDict.set k v d) <= S (length d))%nat.
Proof.
  induction d as [|[k0 v0] d IH]; simpl; [lia|].
  case_decide; simpl; lia.
Qed.

Lemma add_to_cache_length size d k v :
  (0 < size)%nat -> (length d <= size)%nat ->
  (length (PyDict.add_to_cache size k v d) <= size)%nat.
Proof.
  intros Hsize Hlen. unfold PyDict.add_to_cache.
  destruct (size <=? length d)%nat eqn:Hfull.
  - apply Nat.leb_le in Hfull. destruct d as [|[oldest v0] d']; simpl in *; [lia|].
    rewrite decide_True by done.
    pose proof (length_set_le d' k v). lia.
  - apply Nat.leb_gt in Hfull. pose proof (length_set_le d k v). lia.
Qed.

(** At capacity, a key that is new takes the place of the key that was
    inserted first; the others keep their order. *)
Lemma add_to_cache_evicts_oldest size d k v :
  (0 < size)%nat -> length d = size -> k ∉ PyDict.keys d -> PyDict.wf d ->
  PyDict.keys (PyDict.add_to_cache size k v d) = tail (PyDict.keys d) ++ [k].
Proof.
  intros Hsize Hlen Hk Hwf. unfold PyDict.add_to_cache.
  rewrite (proj2 (Nat.leb_le _ _)) by lia.
  destruct d as [|[oldest v0] d']; simpl in *; [lia|].
  rewrite decide_True by done.
  apply keys_set_fresh. unfold PyDict.keys in *. simpl in Hk.
  by apply not_elem_of_cons in Hk as [_ ?].
Qed.

Lemma add_to_cache_below_capacity size d k v :
  (length d < size)%nat -> k ∉ PyDict.keys d ->
  PyDict.keys (PyDict.add_to_cache size k v d) = PyDict.keys d ++ [k].
Proof.
  intros Hlen Hk. unfold PyDict.add_to_cache.
  rewrite (proj2 (Nat.leb_gt _ _)) by lia. by apply keys_set_fresh.
Qed.
End CacheFacts.

Section CacheRuns.
Variable hash : string -> Z.
Variable list_of_set : list string -> list string.

Lemma classifier_reachable_cache_bounded st :
  classifier_reachable hash list_of_set st ->
  (length (Classifier._classification_cache st) <= 500)%nat
  /\ PyDict.wf (Classifier._classification_cache st).
Proof.
  induction 1 as [cfg|st entry _ [IHlen IHwf]|st new_rules _ IH|st _ IH].
  - split; [simpl; lia | apply NoDup_nil_2].
  - unfold Classifier.classify.
    destruct (PyDict.get _ (Classifier._classification_cache st)); [done|].
    destruct (Classifier._classify_error _ _ _ _); [|done]. simpl. split.
    + apply add_to_cache_length; [unfold Classifier._cache_size; lia | done].
    + by apply add_to_cache_wf.
  - exact IH.
  - split; [simpl; lia | apply NoDup_nil_2].
Qed.

Lemma engine_reachable_cache_bounded ok st :
  engine_reachable hash ok st ->
  (length (FixEngine._fix_cache st) <= 200)%nat
  /\ PyDict.wf (FixEngine._fix_cache st).
Proof.
  induction 1 as [rules Hreg|st c a _ [IHlen IHwf]|st ty r Hr _ IH|st _ IH].
  - split; [simpl; lia | apply NoDup_nil_2].
  - unfold FixEngine.generate_fixes.
    destruct (PyDict.get _ (FixEngine._fix_cache st)); [done|].
    destruct (FixEngine._generate_fixes_for_error _ _ _); [|done]. simpl. split.
    + apply add_to_cache_length; [unfold FixEngine._cache_size; lia | done].
    + by apply add_to_cache_wf.
  - exact IH.
  - split; [simpl; lia | apply NoDup_nil_2].
Qed.

(** X1: however a classifier and a fix engine are driven, the memo
    table of the first never holds more than 500 classifications and
    that of the second never more than 200 fix lists, each under
    distinct keys. *)
Theorem caches_stay_within_capacity ok cst est :
  classifier_reachable hash list_of_set cst ->
  engine_reachable hash ok est ->
  ((length (Classifier._classification_cache cst) <= 500)%nat
   /\ PyDict.wf (Classifier._classification_cache cst))
  /\ ((length (FixEngine._fix_cache est) <= 200)%nat
      /\ PyDict.wf (FixEngine._fix_cache est)).
Proof.
  intros Hc He. split.
  - by apply classifier_reachable_cache_bounded.
  - by eapply engine_reachable_cache_bounded.
Qed.

(** X2: the classification cache is first-in, first-out.  When it is
    full, classifying a message whose hash is not memoised drops the key
    inserted first and puts the new one last; a message whose hash is
    memoised leaves the table as it is, so being asked for again does
    not keep an entry from being the next to go. *)
Theorem classify_evicts_first_inserted st message sd :
  PyDict.wf (Classifier._classification_cache st) ->
  length (Classifier._classification_cache st) = 500%nat ->
  hash message ∉ PyDict.keys (Classifier._classification_cache st) ->
  PyDict.keys (Classifier._classification_cache
     (Classifier.classify hash list_of_set st
        {| Classifier.pe_message := Some (Classifier.VStr message);
           Classifier.pe_structured_data := sd |}).2)
  = tail (PyDict.keys (Classifier._classification_cache st)) ++ [hash message]
  /\ forall other sd',
       hash other ∈ PyDict.keys (Classifier._classification_cache st) ->
       (Classifier.classify hash list_of_set st
          {| Classifier.pe_message := Some (Classifier.VStr other);
             Classifier.pe_structured_data := sd' |}).2 = st.
Proof.
  intros Hwf Hfull Hnew. split.
  - unfold Classifier.classify. simpl.
    rewrite (proj2 (get_None_not_key _ _) Hnew).
    assert (Hsome : is_Some (Classifier._classify_error list_of_set st
                               (Classifier.VStr message) (default [] sd))).
    { unfold Classifier._classify_error. destruct (Classifier.enable_rules _); by eexists. }
    destruct Hsome as [c ->]. simpl.
    apply add_to_cache_evicts_oldest; [unfold Classifier._cache_size; lia|done..].
  - intros other sd' Hhit. unfold Classifier.classify. simpl.
    destruct (PyDict.get (hash other) _) eqn:Hget; [done|].
    by apply get_None_not_key in Hget.
Qed.

(** X3: [classify] does not raise on a message that is not a string.
    With the rule source enabled and nothing memoised under the
    message's hash, it answers the fallback classification (["unknown"],
    ["UNKNOWN"], confidence 0, one action) and memoises nothing, so the
    next call takes the same path. *)
Theorem classify_non_string_message st h sd :
  Classifier.enable_rules (Classifier.config st) = true ->
  PyDict.get h (Classifier._classification_cache st) = None ->
  Classifier.classify hash list_of_set st
    {| Classifier.pe_message := Some (Classifier.VOther h);
       Classifier.pe_structured_data := sd |}
  = (Classifier.fallback_classification, st)
  /\ Classifier.error_type Classifier.fallback_classification = "unknown"
  /\ Classifier.severity Classifier.fallback_classification = "UNKNOWN"
  /\ (Classifier.confidence Classifier.fallback_classification == 0)%Q
  /\ Classifier.suggested_actions Classifier.fallback_classification
     = ["Manual investigation required"].
Proof.
  intros Hrules Hmiss. split; [|done].
  unfold Classifier.classify, Classifier._classify_error. simpl.
  by rewrite Hmiss, Hrules.
Qed.
End CacheRuns.

(** ** The rule source of the classifier *)

Section RuleSourceFacts.
Variable hash : string -> Z.
Variable list_of_set : list string -> list string.

Import PyStr Re.

Lemma lower_ascii_idem c : lower_ascii (lower_ascii c) = lower_ascii c.
Proof. by destruct c as [[] [] [] [] [] [] [] []]. Qed.

Lemma lower_ascii_line_feed c :
  Ascii.eqb (lower_ascii c) line_feed = Ascii.eqb c line_feed.
Proof. by destruct c as [[] [] [] [] [] [] [] []]. Qed.

Lemma lower_idem s : lower (lower s) = lower s.
Proof.
  induction s as [|c s IH]; [done|].
  unfold lower in *. simpl. by rewrite lower_ascii_idem, IH.
Qed.

Lemma length_lower s : String.length (lower s) = String.length s.
Proof. induction s as [|c s IH]; [done|]. unfold lower in *. simpl. by rewrite IH. Qed.

Lemma deriv_lower c r : deriv true (lower_ascii c) r = deriv true c r.
Proof.
  induction r as [| |a| |r1 IH1 r2 IH2|r1 IH1 r2 IH2|r IH]; simpl.
  - done.
  - done.
  - unfold chr_eqb. by rewrite lower_ascii_idem.
  - by rewrite lower_ascii_line_feed.
  - by rewrite IH1, IH2.
  - by rewrite IH1, IH2.
  - by rewrite IH.
Qed.

Lemma matches_prefix_lower r s :
  matches_prefix true r (lower s) = matches_prefix true r s.
Proof.
  revert r. induction s as [|c s IH]; intros r; [done|].
  change (lower (String c s)) with (String (lower_ascii c) (lower s)).
  simpl. by rewrite deriv_lower, IH.
Qed.

Lemma search_lower r s : search true r (lower s) = search true r s.
Proof.
  induction s as [|c s IH]; [done|].
  change (search true r (lower (String c s)))
    with (matches_prefix true r (lower (String c s)) || search true r (lower s)).
  rewrite matches_prefix_lower, IH. done.
Qed.

Lemma classify_error_lower tbl message :
  Patterns.classify_error tbl (lower message) = Patterns.classify_error tbl message.
Proof.
  unfold Patterns.classify_error.
  assert (Heq : omap (fun '(error_type, patterns) =>
                        if existsb (fun p => search true p (lower message)) patterns
                        then Some error_type else None) tbl
                = omap (fun '(error_type, patterns) =>
                        if existsb (fun p => search true p message) patterns
                        then Some error_type else None) tbl).
  { induction tbl as [|[ty patterns] tbl IH]; [done|].
    cbn [omap list_omap]. rewrite IH.
    assert (Hex : existsb (fun p => search true p (lower message)) patterns
                  = existsb (fun p => search true p message) patterns).
    { clear IH. induction patterns as [|p patterns IHp]; [done|].
      simpl. by rewrite search_lower, IHp. }
    by rewrite Hex. }
  by rewrite Heq.
Qed.

Lemma _determine_root_cause_lower message error_types :
  Classifier._determine_root_cause (lower message) error_types
  = Classifier._determine_root_cause message error_types.
Proof.
  induction error_types as [|ty rest IH]; [done|]. simpl. rewrite IH.
  assert (Heq : forall rows : list (regex * string),
             List.find (fun '(p, _) => search true p (lower message)) rows
             = List.find (fun '(p, _) => search true p message) rows).
  { induction rows as [|[p cause] rows IHr]; [done|].
    simpl. by rewrite search_lower, IHr. }
  by rewrite Heq.
Qed.

Lemma get_error_context_lower tbl message :
  Patterns.get_error_context tbl (lower message)
  = Patterns.get_error_context tbl message.
Proof.
  unfold Patterns.get_error_context, Patterns._determine_severity,
    Patterns._extract_components, Patterns._suggest_actions.
  by rewrite classify_error_lower, !lower_idem.
Qed.

Lemma _calculate_rule_confidence_lower error_types message :
  Classifier._calculate_rule_confidence error_types (lower message)
  = Classifier._calculate_rule_confidence error_types message.
Proof.
  unfold Classifier._calculate_rule_confidence, Patterns._extract_components,
    Patterns._suggest_actions.
  by rewrite length_lower, !lower_idem.
Qed.

Lemma _classify_with_rules_lower tbl message sd sd' :
  Classifier._classify_with_rules list_of_set tbl (lower message) sd
  = Classifier._classify_with_rules list_of_set tbl message sd'.
Proof.
  unfold Classifier._classify_with_rules.
  rewrite get_error_context_lower, _calculate_rule_confidence_lower,
    _determine_root_cause_lower.
  unfold Classifier._determine_affected_systems,
    Classifier._get_classification_rules, Patterns._determine_severity,
    Patterns._extract_components.
  by rewrite !lower_idem.
Qed.

(** X4: the rule source does not look at letter case, nor at the
    structured data.  Two messages with the same lower-case form get the
    same classification in every field, the confidence included. *)
Theorem classification_ignores_letter_case tbl message1 message2 sd1 sd2 :
  lower message1 = lower message2 ->
  Classifier._classify_with_rules list_of_set tbl message1 sd1
  = Classifier._classify_with_rules list_of_set tbl message2 sd2.
Proof.
  intros Heq.
  rewrite <- (_classify_with_rules_lower tbl message1 sd1 sd1).
  rewrite <- (_classify_with_rules_lower tbl message2 sd1 sd2).
  by rewrite Heq.
Qed.

Lemma classify_error_undetected tbl message :
  undetected tbl message -> Patterns.classify_error tbl message = ["unknown"].
Proof.
  intros Hno. unfold Patterns.classify_error.
  assert (Hnil : omap (fun '(error_type, patterns) =>
                         if existsb (fun p => search true p message) patterns
                         then Some error_type else None) tbl = []).
  { induction tbl as [|[ty patterns] tbl IH]; [done|].
    cbn [omap list_omap].
    assert (Hex : existsb (fun p => search true p message) patterns = false).
    { apply not_true_is_false. intros (p & Hp & Hs)%existsb_exists.
      apply list_elem_of_In in Hp.
      rewrite (Hno ty patterns p) in Hs; [done|apply list_elem_of_here|done]. }
    rewrite Hex. apply IH. intros ty' patterns' p' Hin.
    apply (Hno ty' patterns' p'). by apply list_elem_of_further. }
  by rewrite Hnil.
Qed.

(** X5: a message in which no pattern of the table is found is
    classified ["unknown"] with no root cause, and still with a
    confidence between 0.2 and 0.7: the bonus for a single detected
    type is granted to the placeholder type too. *)
Theorem unmatched_message_is_unknown tbl message sd :
  undetected tbl message ->
  let c := Classifier._classify_with_rules list_of_set tbl message sd in
  Classifier.error_type c = "unknown"
  /\ Classifier.root_cause c = None
  /\ (0.2 <= Classifier.confidence c)%Q
  /\ (Classifier.confidence c <= 0.7)%Q.
Proof.
  intros Hno. unfold Classifier._classify_with_rules, Patterns.get_error_context.
  cbn [Patterns.error_types Classifier.error_type Classifier.root_cause
       Classifier.confidence].
  rewrite (classify_error_undetected _ _ Hno).
  split; [done|]. split; [done|].
  unfold Classifier._calculate_rule_confidence.
  rewrite decide_True by done.
  destruct (10 <? String.length message)%nat;
    destruct (Patterns._extract_components message);
    destruct (Patterns._suggest_actions message);
    (split; vm_compute; discriminate).
Qed.

Lemma detects_classify_error tbl ty message :
  detects tbl ty message -> ty ∈ Patterns.classify_error tbl message.
Proof.
  intros (patterns & p & Hin & Hp & Hs). unfold Patterns.classify_error.
  assert (Hty : ty ∈ omap (fun '(error_type, patterns) =>
                         if existsb (fun p => search true p message) patterns
                         then Some error_type else None) tbl).
  { apply list_elem_of_omap. exists (ty, patterns). split; [done|].
    assert (Hex : existsb (fun p => search true p message) patterns = true).
    { apply existsb_exists. exists p. split; [by apply list_elem_of_In|done]. }
    by rewrite Hex. }
  destruct (omap _ tbl); [by apply elem_of_nil in Hty|done].
Qed.

Lemma set_extends_rows (tbl : Patterns.error_table) ty added k patterns p :
  (k, patterns) ∈ tbl -> p ∈ patterns ->
  exists patterns',
    (k, patterns') ∈ PyDict.set ty (default [] (PyDict.get ty tbl) ++ added) tbl
    /\ p ∈ patterns'.
Proof.
  induction tbl as [|[k0 ps0] tbl IH]; intros Hin Hp; [by apply elem_of_nil in Hin|].
  simpl. destruct (decide (k0 = ty)) as [->|Hne].
  - apply elem_of_cons in Hin as [[= -> ->]|Hin].
    + exists (ps0 ++ added). split; [apply list_elem_of_here|].
      apply elem_of_app. by left.
    + exists patterns. split; [by apply list_elem_of_further|done].
  - apply elem_of_cons in Hin as [[= -> ->]|Hin].
    + exists ps0. split; [apply list_elem_of_here|done].
    + destruct (IH Hin Hp) as (patterns' & Hin' & Hp').
      exists patterns'. split; [by apply list_elem_of_further|done].
Qed.
Lemma set_adds_rows (tbl : Patterns.error_table) ty added p :
  p ∈ added ->
  exists patterns',
    (ty, patterns') ∈ PyDict.set ty (default [] (PyDict.get ty tbl) ++ added) tbl
    /\ p ∈ patterns'.
Proof.
  intros Hp. induction tbl as [|[k0 ps0] tbl IH].
  - exists added. split; [apply list_elem_of_here|done].
  - simpl. destruct (decide (k0 = ty)) as [->|Hne].
    + exists (ps0 ++ added). split; [apply list_elem_of_here|].
      apply elem_of_app. by right.
    + destruct IH as (patterns' & Hin' & Hp').
      exists patterns'. split; [by apply list_elem_of_further|done].
Qed.

Lemma update_keeps_rows new_rules (tbl : Patterns.error_table) k patterns p :
  (k, patterns) ∈ tbl -> p ∈ patterns ->
  exists patterns',
    (k, patterns')
      ∈ fold_left (fun tbl '(ty, pats) =>
                     PyDict.set ty (default [] (PyDict.get ty tbl) ++ pats) tbl)
                  new_rules tbl
    /\ p ∈ patterns'.
Proof.
  revert tbl patterns. induction new_rules as [|[ty added] new_rules IH];
    intros tbl patterns Hin Hp; [by exists patterns|].
  cbn [fold_left].
  destruct (set_extends_rows tbl ty added k patterns p Hin Hp) as (ps' & Hin' & Hp').
  by eapply IH.
Qed.

Lemma update_adds_rows new_rules (tbl : Patterns.error_table) ty added p :
  (ty, added) ∈ new_rules -> p ∈ added ->
  exists patterns',
    (ty, patterns')
      ∈ fold_left (fun tbl '(ty, pats) =>
                     PyDict.set ty (default [] (PyDict.get ty tbl) ++ pats) tbl)
                  new_rules tbl
    /\ p ∈ patterns'.
Proof.
  revert tbl. induction new_rules as [|[ty0 added0] new_rules IH];
    intros tbl Hin Hp; [by apply elem_of_nil in Hin|].
  cbn [fold_left]. apply elem_of_cons in Hin as [[= <- <-]|Hin].
  - destruct (set_adds_rows tbl ty added p Hp) as (ps' & Hin' & Hp').
    by eapply update_keeps_rows.
  - by apply IH.
Qed.

(** X6: [update_classification_rules] only ever widens what is
    detected.  A message in which a pattern of some type was found
    before is still reported under that type, and a message in which one
    of the new patterns is found is reported under the type the pattern
    was added to, whether the type existed or not. *)
Theorem update_rules_extends_detection st new_rules ty message :
  detects (Classifier.error_patterns st) ty message
  \/ detects new_rules ty message ->
  ty ∈ Patterns.classify_error
         (Classifier.error_patterns
            (Classifier.update_classification_rules st new_rules))
         message.
Proof.
  intros Hd. apply detects_classify_error. simpl.
  destruct Hd as [(patterns & p & Hin & Hp & Hs)|(patterns & p & Hin & Hp & Hs)].
  - destruct (update_keeps_rows new_rules _ _ _ _ Hin Hp) as (ps' & Hin' & Hp').
    by exists ps', p.
  - destruct (update_adds_rows new_rules (Classifier.error_patterns st) _ _ _ Hin Hp)
      as (ps' & Hin' & Hp').
    by exists ps', p.
Qed.

(** X7: new rules do not reach a message that was classified before.
    Whatever [classify] answered for an entry, it answers again for the
    same entry after any [update_classification_rules]: the memo table
    is keyed by the message alone and is not cleared by the update. *)
Theorem update_rules_keeps_memoised_answers st entry new_rules :
  (Classifier.classify hash list_of_set
     (Classifier.update_classification_rules
        (Classifier.classify hash list_of_set st entry).2 new_rules)
     entry).1
  = (Classifier.classify hash list_of_set st entry).1.
Proof.
  unfold Classifier.classify at 2 3.
  destruct (PyDict.get _ (Classifier._classification_cache st)) as [cached|] eqn:Hget.
  - unfold Classifier.classify. simpl. by rewrite Hget.
  - destruct (Classifier._classify_error list_of_set st _ _) as [c|] eqn:Hc.
    + unfold Classifier.classify. simpl.
      unfold PyDict.add_to_cache. by rewrite get_set_eq.
    + unfold Classifier.classify. cbn [snd fst].
      cbn [Classifier.update_classification_rules Classifier._classification_cache].
      rewrite Hget.
      assert (Hnone : Classifier._classify_error list_of_set
                (Classifier.update_classification_rules st new_rules)
                (default (Classifier.VStr "") (Classifier.pe_message entry))
                (default [] (Classifier.pe_structured_data entry)) = None).
      { unfold Classifier._classify_error in *. simpl.
        destruct (Classifier.enable_rules (Classifier.config st)); [|done].
        by destruct (default _ (Classifier.pe_message entry)). }
      by rewrite Hnone.
Qed.
End RuleSourceFacts.

(** ** The fix engine beyond the ranking *)

Section EngineEdgeFacts.
Variable hash : string -> Z.

Import FixEngine.

Lemma filter_low_or_medium_raises rules r :
  r ∈ rules -> rule_risk_level r = None -> filter_low_or_medium rules = None.
Proof.
  intros Hin Hrisk. induction rules as [|r0 rules IH]; [by apply elem_of_nil in Hin|].
  simpl. apply elem_of_cons in Hin as [<-|Hin].
  - unfold low_or_medium. by rewrite Hrisk.
  - rewrite (IH Hin). by destruct (low_or_medium r0).
Qed.

Lemma registered_for_applicable fix_rules c r :
  registered_for fix_rules c r ->
  r ∈ default [] (fix_rules !! error_type c)
      ++ concat (map (fun component =>
           default [] (fix_rules !! (error_type c +:+ "_" +:+ component)))
           (components c)).
Proof.
  intros (key & rs & Hkey & Hrs & Hin). apply elem_of_app.
  destruct Hkey as [->|(component & Hc & ->)].
  - left. by rewrite Hrs.
  - right. apply elem_of_concat_map. exists component. split; [done|]. by rewrite Hrs.
Qed.

(** X8: one registered rule without a ['risk_level'] silences the
    engine for critical errors.  When the severity is ["CRITICAL"] and
    some rule registered for the error lacks the key, an unmemoised
    [generate_fixes] returns no fix at all, also none from the low-risk
    rules beside it, and memoises nothing. *)
Theorem critical_gate_fails_without_risk_level st c a r :
  severity c = "CRITICAL" ->
  registered_for (fix_rules st) c r ->
  rule_risk_level r = None ->
  PyDict.get (_generate_cache_key hash c a) (_fix_cache st) = None ->
  generate_fixes hash st c a = ([], st).
Proof.
  intros Hsev Hreg Hrisk Hmiss. unfold generate_fixes. rewrite Hmiss.
  unfold _generate_fixes_for_error, _get_applicable_fix_rules.
  rewrite decide_True by done.
  by rewrite (filter_low_or_medium_raises _ r (registered_for_applicable _ _ _ Hreg) Hrisk).
Qed.

Lemma add_custom_fix_rules_cache added st :
  _fix_cache (fold_left (fun st '(ty, r) => add_custom_fix_rule st ty r) added st)
  = _fix_cache st.
Proof.
  revert st. induction added as [|[ty r] added IH]; intros st; [done|].
  cbn [fold_left]. by rewrite IH.
Qed.

(** X9: the memo of the fix engine is keyed by the error type, the
    severity and the two list lengths only.  Once a request has been
    computed, every later request that agrees with it on these four
    gets the same fixes back, whatever its components, code context and
    patterns are, and whatever rules have been added in between. *)
Theorem fix_cache_ignores_content_and_new_rules st c a c' a' added :
  is_Some (_generate_fixes_for_error (fix_rules st) c a) ->
  error_type c' = error_type c ->
  severity c' = severity c ->
  length (error_context a') = length (error_context a) ->
  length (common_patterns a') = length (common_patterns a) ->
  (generate_fixes hash
     (fold_left (fun st '(ty, r) => add_custom_fix_rule st ty r) added
        (generate_fixes hash st c a).2)
     c' a').1
  = (generate_fixes hash st c a).1.
Proof.
  intros [fixes Hfixes] Hty Hsev Hctx Hpat.
  assert (Hkey : _generate_cache_key hash c' a' = _generate_cache_key hash c a).
  { unfold _generate_cache_key. by rewrite Hty, Hsev, Hctx, Hpat. }
  unfold generate_fixes at 1. rewrite Hkey, add_custom_fix_rules_cache.
  unfold generate_fixes.
  destruct (PyDict.get _ (_fix_cache st)) as [cached|] eqn:Hget.
  - cbn [snd fst]. by rewrite Hget.
  - rewrite Hfixes. cbn [snd fst _fix_cache].
    unfold PyDict.add_to_cache. by rewrite get_set_eq.
Qed.

(** X10: a custom rule takes effect at the next computed request.
    After [add_custom_fix_rule st ty r], a request for error type [ty]
    below critical severity that is computed without an exception
    contains the fix of [r] whenever [r] matches the context. *)
Theorem custom_rule_contributes st ty r c a f fixes :
  error_type c = ty ->
  severity c <> "CRITICAL" ->
  candidate_fix a r = Some f ->
  _generate_fixes_for_error (fix_rules (add_custom_fix_rule st ty r)) c a = Some fixes ->
  f ∈ fixes.
Proof.
  intros Hty Hsev Hf Hgen.
  apply generated_fixes_sorted in Hgen as (rules & Hrules & ->).
  rewrite (sort_desc_Permutation key_lt sort_key).
  apply list_elem_of_omap. exists r. split; [|done].
  unfold _get_applicable_fix_rules in Hrules.
  rewrite decide_False in Hrules by done. injection Hrules as <-.
  apply elem_of_app. left. simpl. rewrite Hty, lookup_insert, decide_True by done.
  simpl. apply elem_of_app. right. apply list_elem_of_here.
Qed.
End EngineEdgeFacts.

(** ** Validation of applied fixes *)

Section ValidationFacts.
Import FixValidation.

Lemma _run_validation_success rule a_fix : o_success (_run_validation rule a_fix) = true.
Proof. unfold _run_validation. by repeat case_decide. Qed.

(** X11: validation never rejects a fix.  For every registry of
    validation rules, the shipped one or one extended with custom rules,
    and every fix, [_validate_fix] reports success, with one passing
    result per rule registered for the fix type. *)
Theorem validation_never_rejects validation_rules a_fix :
  success (_validate_fix validation_rules a_fix) = true
  /\ Forall (fun o => o_success o = true)
       (validation_results (_validate_fix validation_rules a_fix))
  /\ length (validation_results (_validate_fix validation_rules a_fix))
     = length (default [] (validation_rules !! FixEngine.fix_type a_fix)).
Proof.
  unfold _validate_fix. cbn [success validation_results].
  generalize (default [] (validation_rules !! FixEngine.fix_type a_fix)).
  intros rules. split_and!.
  - induction rules as [|rule rules IH]; [done|].
    simpl. by rewrite _run_validation_success.
  - induction rules as [|rule rules IH]; [by apply Forall_nil|].
    simpl. apply Forall_cons. split; [apply _run_validation_success|done].
  - by rewrite length_map.
Qed.
End ValidationFacts.

(** ** The incident store beyond storing and retention *)

Section StoreFacts.
Variable md5_hexdigest : string -> string.
Variable strftime : Z -> string.
Variable isoformat : Z -> string.
Variable str_of_patterns : list (string * Z) -> string.

Import Memory MemoryOps.

Local Abbreviation store_incident :=
  (Memory.store_incident md5_hexdigest strftime isoformat str_of_patterns).
Local Abbreviation new_incident :=
  (Memory.new_incident md5_hexdigest strftime isoformat str_of_patterns).

Lemma get_del_Some {V} (d : PyDict.t string V) k k' x :
  PyDict.wf d -> PyDict.get k' (PyDict.del k d) = Some x -> PyDict.get k' d = Some x.
Proof.
  intros Hwf Hget. destruct (decide (k = k')) as [->|Hne].
  - by rewrite get_del_eq in Hget.
  - by rewrite get_del_ne in Hget.
Qed.

Lemma get_add_to_cache {V} size (d : PyDict.t string V) k v k' x :
  PyDict.wf d ->
  PyDict.get k' (PyDict.add_to_cache size k v d) = Some x ->
  (k' = k /\ x = v) \/ PyDict.get k' d = Some x.
Proof.
  intros Hwf Hget. unfold PyDict.add_to_cache in Hget.
  destruct (decide (k = k')) as [->|Hne].
  - rewrite get_set_eq in Hget. left. by simplify_eq.
  - rewrite get_set_ne in Hget by done. right.
    destruct (size <=? length d)%nat; [|done].
    destruct d as [|[oldest v0] d']; [done|]. by eapply get_del_Some.
Qed.

Lemma length_del_le {V} (d : PyDict.t string V) k :
  (length (PyDict.del k d) <= length d)%nat.
Proof.
  induction d as [|[k0 v0] d IH]; simpl; [lia|].
  destruct (decide (k0 = k)); simpl; lia.
Qed.

Lemma length_set_present {V} (d : PyDict.t string V) k v :
  is_Some (PyDict.get k d) -> length (PyDict.set k v d) = length d.
Proof.
  induction d as [|[k0 v0] d IH]; simpl; [by intros [? ?]|].
  destruct (decide (k0 = k)); simpl; [done|]. intros H. by rewrite IH.
Qed.

Lemma store_incident_invariant st d clk :
  memory_invariant st -> memory_invariant (store_incident st d clk).2.
Proof.
  intros (Hwi & Hwc & Hlen & Hco). unfold Memory.store_incident.
  destruct (enable_deduplication (config st) && _ ); [done|].
  cbn [snd _save_incidents config _incidents _incident_cache storage].
  set (id := incident_id (new_incident st d clk)).
  split_and!.
  - by do 2 apply set_wf.
  - by apply set_wf, add_to_cache_wf.
  - cbn [_incident_cache]. rewrite length_set_present.
    + apply add_to_cache_length; [unfold _cache_size; lia|done].
    + unfold PyDict.add_to_cache. rewrite get_set_eq. by eexists.
  - intros k x. cbn [_incidents _incident_cache].
    destruct (decide (id = k)) as [<-|Hne].
    + by rewrite !get_set_eq.
    + rewrite !get_set_ne by done.
      intros [[? _]|Hget]%get_add_to_cache; [done|by apply Hco|done].
Qed.

Lemma get_incident_invariant st id :
  memory_invariant st -> memory_invariant (get_incident st id).2.
Proof.
  intros (Hwi & Hwc & Hlen & Hco). unfold get_incident.
  destruct (PyDict.get id (_incident_cache st)); [done|].
  destruct (PyDict.get id (_incidents st)) as [incident|] eqn:Hget; [|done].
  cbn [snd with_cache _incidents _incident_cache]. split_and!; [done| | |].
  - by apply add_to_cache_wf.
  - apply add_to_cache_length; [unfold _cache_size; lia|done].
  - intros k x. cbn [_incidents _incident_cache with_cache].
    intros [[-> ->]|Hk]%get_add_to_cache; [done|by apply Hco|done].
Qed.

Lemma cleanup_fold_invariant ids st :
  memory_invariant st ->
  memory_invariant
    (fold_left
       (fun s incident_id =>
          {| config := config s;
             _incidents := PyDict.del incident_id (_incidents s);
             _incident_cache :=
               if PyDict.mem incident_id (_incident_cache s)
               then PyDict.del incident_id (_incident_cache s)
               else _incident_cache s;
             storage := storage s |})
       ids st).
Proof.
  revert st. induction ids as [|id ids IH]; intros st Hinv; [done|].
  cbn [fold_left]. apply IH. destruct Hinv as (Hwi & Hwc & Hlen & Hco).
  assert (Hcache :
    (if PyDict.mem id (_incident_cache st)
     then PyDict.del id (_incident_cache st) else _incident_cache st)
    = PyDict.del id (_incident_cache st)).
  { unfold PyDict.mem. case_bool_decide as Hmem; [done|].
    assert (Hnone : PyDict.get id (_incident_cache st) = None).
    { destruct (PyDict.get id (_incident_cache st)); [|done].
      exfalso. apply Hmem. by eexists. }
    clear -Hnone. induction (_incident_cache st) as [|[k0 v0] c IHc]; [done|].
    simpl in *. destruct (decide (k0 = id)); [done|]. by rewrite <- IHc. }
  rewrite Hcache. split_and!; cbn [_incidents _incident_cache].
  - by apply del_wf.
  - by apply del_wf.
  - pose proof (length_del_le (_incident_cache st) id). lia.
  - intros k x. cbn [_incidents _incident_cache].
    destruct (decide (id = k)) as [<-|Hne].
    + by rewrite get_del_eq.
    + rewrite !get_del_ne by done. apply Hco.
Qed.

Lemma cleanup_invariant st now :
  memory_invariant st -> memory_invariant (cleanup_old_incidents st now).
Proof.
  intros Hinv. unfold cleanup_old_incidents.
  destruct (delta ← timedelta_days (retention_days (config st));
            datetime_sub now delta) as [cutoff_time|]; [|done].
  match goal with |- context [fold_left ?f ?ids st] =>
    pose proof (cleanup_fold_invariant ids st Hinv) as Hfold end.
  by destruct (0 <? _)%nat.
Qed.
Lemma get_update_entry k f (d : PyDict.t string Incident) k' :
  PyDict.get k' (update_entry k f d)
  = if decide (k = k') then f <$> PyDict.get k d else PyDict.get k' d.
Proof.
  unfold update_entry. destruct (PyDict.get k d) as [i|] eqn:Hget.
  - case_decide as Hk; [subst; by rewrite get_set_eq|by rewrite get_set_ne].
  - case_decide as Hk; [by subst|done].
Qed.

Lemma keys_update_entry k f (d : PyDict.t string Incident) :
  PyDict.keys (update_entry k f d) = PyDict.keys d.
Proof.
  unfold update_entry. destruct (PyDict.get k d) as [i|] eqn:Hget; [|done].
  apply keys_set_present. destruct (decide (k ∈ PyDict.keys d)) as [|Hno]; [done|].
  apply get_None_not_key in Hno. congruence.
Qed.

Lemma keys_apply_marks marks (d : PyDict.t string Incident) :
  PyDict.keys (apply_marks marks d) = PyDict.keys d.
Proof.
  unfold apply_marks. revert d.
  induction marks as [|[k duplicate_of] marks IH]; intros d; [done|].
  cbn [fold_left]. by rewrite IH, keys_update_entry.
Qed.

Lemma mark_duplicate_same_record duplicate_of i i' :
  same_record i i' -> same_record i (mark_duplicate duplicate_of i').
Proof. intros H. exact H. Qed.

Lemma same_record_refl i : same_record i i.
Proof. by repeat split. Qed.

Lemma get_apply_marks marks (d : PyDict.t string Incident) id i0 i :
  same_record i0 i ->
  i = i0 \/ resolution_status i = "duplicate" ->
  PyDict.get id d = Some i ->
  exists i',
    PyDict.get id (apply_marks marks d) = Some i'
    /\ same_record i0 i'
    /\ (i' = i0 \/ resolution_status i' = "duplicate").
Proof.
  unfold apply_marks. revert d i.
  induction marks as [|[k duplicate_of] marks IH]; intros d i Hsame Hstatus Hget;
    [by exists i|].
  cbn [fold_left]. destruct (decide (k = id)) as [->|Hne].
  - apply (IH _ (mark_duplicate duplicate_of i)).
    + by apply mark_duplicate_same_record.
    + by right.
    + by rewrite get_update_entry, decide_True, Hget.
  - apply (IH _ i); [done|done|]. by rewrite get_update_entry, decide_False.
Qed.

Lemma apply_marks_coherent marks (incidents cache : PyDict.t string Incident) :
  (forall id i, PyDict.get id cache = Some i -> PyDict.get id incidents = Some i) ->
  forall id i,
    PyDict.get id (apply_marks marks cache) = Some i ->
    PyDict.get id (apply_marks marks incidents) = Some i.
Proof.
  unfold apply_marks. revert incidents cache.
  induction marks as [|[k duplicate_of] marks IH]; intros incidents cache Hco; [done|].
  cbn [fold_left]. apply IH. intros id i. rewrite !get_update_entry.
  case_decide as Hk; [|apply Hco].
  destruct (PyDict.get k cache) as [c|] eqn:Hc; [|done].
  by rewrite (Hco _ _ Hc).
Qed.

Lemma length_keys {V} (d : PyDict.t string V) : length (PyDict.keys d) = length d.
Proof. unfold PyDict.keys. by rewrite length_fmap. Qed.

Lemma _perform_deduplication_invariant st :
  memory_invariant st -> memory_invariant (_perform_deduplication st).
Proof.
  intros (Hwi & Hwc & Hlen & Hco). unfold _perform_deduplication.
  destruct (negb _); [done|].
  unfold memory_invariant, cache_coherent.
  cbn [_save_incidents config _incidents _incident_cache storage].
  split_and!.
  - unfold PyDict.wf. by rewrite keys_apply_marks.
  - unfold PyDict.wf. by rewrite keys_apply_marks.
  - rewrite <- (length_keys (apply_marks _ _)), keys_apply_marks, length_keys. done.
  - intros id i. cbn [_incidents _incident_cache]. by apply apply_marks_coherent.
Qed.

Lemma memory_reachable_invariant st :
  memory_reachable md5_hexdigest strftime isoformat str_of_patterns st ->
  memory_invariant st.
Proof.
  induction 1 as [cfg|st d clk _ IH|st id _ IH|st now _ IH|st _ IH|st _ IH|st _ IH].
  - split_and!; [apply NoDup_nil_2|apply NoDup_nil_2|simpl; lia|done].
  - by apply store_incident_invariant.
  - by apply get_incident_invariant.
  - by apply cleanup_invariant.
  - by apply _perform_deduplication_invariant.
  - destruct IH as (Hwi & _). split_and!; [done|apply NoDup_nil_2|simpl; lia|done].
  - split_and!; [apply NoDup_nil_2|apply NoDup_nil_2|simpl; lia|done].
Qed.

(** X12: the cache of the incident store is never stale and never
    over its capacity.  In every state the store can reach through
    storing, retrieving, retention passes, deduplication passes and
    clearing, [get_incident] answers exactly what the store holds under
    the id, [None] for an id that is not stored, and leaves the stored
    incidents as they are; the cache holds at most 100 of them. *)
Theorem get_incident_agrees_with_store st id :
  memory_reachable md5_hexdigest strftime isoformat str_of_patterns st ->
  (get_incident st id).1 = PyDict.get id (_incidents st)
  /\ _incidents (get_incident st id).2 = _incidents st
  /\ (length (_incident_cache (get_incident st id).2) <= 100)%nat.
Proof.
  intros Hreach.
  pose proof (memory_reachable_invariant _ Hreach) as Hinv.
  pose proof (get_incident_invariant st id Hinv) as (_ & _ & Hlen & _).
  destruct Hinv as (_ & _ & _ & Hco). split_and!; [| |done].
  - unfold get_incident.
    destruct (PyDict.get id (_incident_cache st)) as [i|] eqn:Hc.
    + by rewrite (Hco _ _ Hc).
    + by destruct (PyDict.get id (_incidents st)).
  - unfold get_incident.
    destruct (PyDict.get id (_incident_cache st)); [done|].
    by destruct (PyDict.get id (_incidents st)).
Qed.

(** X13: a deduplication pass deletes nothing.  The store has the
    same ids in the same order afterwards, and every incident is the
    record it was, either untouched or with its status set to
    ["duplicate"] and its metadata changed. *)
Theorem deduplication_only_flags st id i :
  PyDict.get id (_incidents st) = Some i ->
  PyDict.keys (_incidents (_perform_deduplication st)) = PyDict.keys (_incidents st)
  /\ exists i',
       PyDict.get id (_incidents (_perform_deduplication st)) = Some i'
       /\ same_record i i'
       /\ (i' = i \/ resolution_status i' = "duplicate").
Proof.
  intros Hget. unfold _perform_deduplication.
  destruct (negb _).
  - split; [done|]. exists i. split_and!; [done|apply same_record_refl|by left].
  - cbn [_save_incidents _incidents]. split; [apply keys_apply_marks|].
    eapply get_apply_marks; [apply same_record_refl|by left|done].
Qed.



Lemma total_count_count_up k counts :
  total_count (count_up k counts) = S (total_count counts).
Proof.
  unfold count_up, total_count, PyDict.values.
  induction counts as [|[k0 n0] counts IH]; [done|].
  simpl. destruct (decide (k0 = k)) as [->|Hne]; simpl; [done|].
  change (list_fmap (string * nat)%type nat snd) with (fmap (M := list) (@snd string nat)).
  rewrite IH. lia.
Qed.

Lemma total_count_count_by (key : Incident -> string) l acc :
  total_count (fold_left (fun counts incident => count_up (key incident) counts) l acc)
  = (length l + total_count acc)%nat.
Proof.
  revert acc. induction l as [|i l IH]; intros acc; [done|].
  cbn [fold_left length]. rewrite IH, total_count_count_up. lia.
Qed.

Lemma fold_min_max (l : list Z) (lo hi : Z) :
  (lo <= hi)%Z -> (fold_left Z.min l lo <= fold_left Z.max l hi)%Z.
Proof.
  revert lo hi. induction l as [|x l IH]; intros lo hi Hle; [done|].
  cbn [fold_left]. apply IH. lia.
Qed.

(** X16: the statistics are consistent with the store.  The counts
    per error type and the counts per severity each add up to the
    reported total, which is the number of stored incidents; at most
    ten recent incidents are listed; and the reported span in days is
    never negative. *)
Theorem statistics_add_up st :
  let s := get_incident_statistics isoformat st in
  total_incidents s = length (_incidents st)
  /\ total_count (error_types s) = total_incidents s
  /\ total_count (severity_distribution s) = total_incidents s
  /\ (length (recent_incidents s) <= 10)%nat
  /\ (forall range, time_range s = Some range -> (0 <= range.2)%Z).
Proof.
  cbv zeta. unfold get_incident_statistics.
  assert (Hlen : length (PyDict.values (_incidents st)) = length (_incidents st))
    by (unfold PyDict.values; by rewrite length_fmap).
  destruct (PyDict.values (_incidents st)) as [|first rest] eqn:Hvalues.
  - cbn [total_incidents error_types severity_distribution recent_incidents time_range].
    split_and!; [exact Hlen|done|done|simpl; lia|done].
  - cbn [total_incidents error_types severity_distribution recent_incidents time_range].
    unfold count_by. rewrite !total_count_count_by. cbn [length] in *.
    split_and!; [done|unfold total_count; simpl; lia|unfold total_count; simpl; lia| |].
    + rewrite length_map, length_take. lia.
    + intros range [= <-]. cbn [snd]. apply Z.div_pos; [|done].
      pose proof (fold_min_max (map timestamp rest) (timestamp first) (timestamp first)).
      lia.
Qed.
(** X17: an incident that is stored (not refused as a duplicate)
    can be fetched by the id [store_incident] returned, and comes back
    with a ['stored_at'] stamp.  The record written to the storage file
    by the same call has the same id but no stamp: the stamp is set
    after the save. *)
Theorem stored_incident_round_trip st d clk :
  enable_deduplication (config st)
  && _is_duplicate_incident st (at_check clk) (new_incident st d clk) = false ->
  let id := (store_incident st d clk).1 in
  let st' := (store_incident st d clk).2 in
  (exists fetched,
     (get_incident st' id).1 = Some fetched
     /\ incident_id fetched = id
     /\ PyDict.get "stored_at" (metadata fetched) = Some (isoformat (at_stored clk)))
  /\ (exists persisted,
        persisted ∈ storage st'
        /\ incident_id persisted = id
        /\ PyDict.get "stored_at" (metadata persisted) = None).
Proof.
  intros Hkept. cbv zeta. unfold Memory.store_incident. rewrite Hkept.
  cbn [fst snd _save_incidents config _incidents _incident_cache storage].
  split.
  - eexists. split_and!.
    + unfold get_incident. cbn [_incident_cache]. by rewrite get_set_eq.
    + done.
    + cbn [with_metadata metadata]. by rewrite get_set_eq.
  - exists (new_incident st d clk). split_and!; [|done|done].
    unfold PyDict.values. apply list_elem_of_fmap.
    exists (incident_id (new_incident st d clk), new_incident st d clk).
    split; [done|]. apply get_Some_elem_of, get_set_eq.
Qed.
End StoreFacts.

(** ** Applying and rolling back patches *)

Section PatchRunFacts.
Import Patch PatchOps.

Lemma set_fresh_app {V} (d : PyDict.t string V) k v :
  PyDict.get k d = None -> PyDict.set k v d = d ++ [(k, v)].
Proof.
  induction d as [|[k0 v0] d IH]; simpl; [done|].
  destruct (decide (k0 = k)); [done|]. intros Hget. by rewrite IH.
Qed.

Lemma _create_backup_fresh target name fs es :
  lookup target fs = Some (Dir es) ->
  PyDict.get name es = None ->
  exists fs1,
    _create_backup target (target ++ [name]) fs = (inr tt, fs1)
    /\ lookup target fs1 = Some (Dir (es ++ [(name, Dir es)])).
Proof.
  intros Htarget Hfresh.
  destruct (place_child target name (Dir es) fs es Htarget Hfresh)
    as (fs1 & Hplace & Hlookup).
  exists fs1. split; [|by rewrite Hlookup, set_fresh_app].
  assert (Hnone : lookup (target ++ [name]) fs = None).
  { rewrite lookup_app, Htarget. cbn [mbind option_bind lookup]. by rewrite Hfresh. }
  unfold _create_backup, copytree, bind, get_fs, exists_, ret, put_fs.
  rewrite Hnone, bool_decide_eq_false_2 by (by intros [? ?]).
  rewrite Htarget, Hplace.
  by rewrite Hnone, bool_decide_eq_false_2 by (by intros [? ?]).
Qed.

Lemma _create_backup_no_directory target name fs :
  lookup target fs = None \/ (exists c, lookup target fs = Some (File c)) ->
  exists e, _create_backup target (target ++ [name]) fs = (inl e, fs).
Proof.
  intros Htarget.
  assert (Hnone : lookup (target ++ [name]) fs = None).
  { rewrite lookup_app. destruct Htarget as [->|[c ->]]; done. }
  unfold _create_backup, copytree, bind, get_fs, exists_, ret, raise.
  rewrite Hnone, bool_decide_eq_false_2 by (by intros [? ?]).
  destruct Htarget as [->|[c ->]]; by eexists.
Qed.

(** X18: [apply_patch] does not touch the tree when it cannot take
    its backup.  If the content is over the size limit, or the target
    does not exist or is a file, the call reports a failure that names
    no patch and no backup, whatever the two collaborators would have
    done, and the tree is as it was. *)
Theorem apply_patch_needs_a_directory max_patch_size apply_content validate
    patch target fs :
  (max_patch_size * 1024 < Z.of_nat (String.length (content patch)))%Z
  \/ lookup target fs = None
  \/ (exists c, lookup target fs = Some (File c)) ->
  exists result,
    apply_patch max_patch_size apply_content validate patch target fs = (result, fs)
    /\ success result = false
    /\ patches result = []
    /\ stats result = [].
Proof.
  intros Hcase. unfold apply_patch, apply_patch_body.
  destruct (max_patch_size * 1024 <? Z.of_nat (String.length (content patch)))%Z
    eqn:Hsize.
  - eexists. by split_and!.
  - assert (Htarget : lookup target fs = None
                      \/ (exists c, lookup target fs = Some (File c))).
    { destruct Hcase as [Hbig|[?|?]]; [|by left|by right].
      apply Z.ltb_ge in Hsize. lia. }
    destruct (_create_backup_no_directory target (backup_name patch) fs Htarget)
      as [e He].
    unfold bind at 1. rewrite He. eexists. by split_and!.
Qed.

(** X19: with the two simulations the source ships, applying a
    patch of admissible size to a directory that has no entry of the
    backup's name succeeds, changes no entry of the directory, and adds
    one: the backup, a copy of the directory as it was.  Nothing in the
    call removes it. *)
Theorem apply_patch_success_leaves_backup max_patch_size patch target fs es :
  (Z.of_nat (String.length (content patch)) <= max_patch_size * 1024)%Z ->
  lookup target fs = Some (Dir es) ->
  PyDict.get (backup_name patch) es = None ->
  exists fs',
    apply_patch max_patch_size _apply_patch_content _validate_patch_application
      patch target fs
    = ({| success := true; patches := [patch]; errors := []; warnings := [];
          stats := [("backup_created", target ++ [backup_name patch])] |}, fs')
    /\ lookup target fs' = Some (Dir (es ++ [(backup_name patch, Dir es)])).
Proof.
  intros Hsize Htarget Hfresh.
  destruct (_create_backup_fresh target (backup_name patch) fs es Htarget Hfresh)
    as (fs1 & Hbackup & Hlookup).
  exists fs1. split; [|done].
  unfold apply_patch, apply_patch_body.
  rewrite (proj2 (Z.ltb_ge _ _) Hsize).
  unfold bind at 1. rewrite Hbackup.
  by unfold bind, _apply_patch_content, _validate_patch_application, ret.
Qed.

Lemma append_length s1 s2 :
  String.length (s1 +:+ s2) = (String.length s1 + String.length s2)%nat.
Proof.
  induction s1 as [|c s1 IH]; [done|].
  rewrite append_cons. cbn [String.length]. by rewrite IH.
Qed.

Lemma backup_names_differ patch : rollback_backup_name patch <> backup_name patch.
Proof.
  unfold rollback_backup_name, backup_name. intros Heq.
  apply (f_equal String.length) in Heq. rewrite !append_length in Heq.
  cbn [String.length] in Heq. lia.
Qed.

(** X20: rolling back does not bring the directory back.  With the
    simulations the source ships, applying a patch and then rolling it
    back both succeed, and the directory ends up with every former
    entry unchanged and two more: the backup of the first call, and the
    backup of the second, which holds a copy of the first inside it. *)
Theorem apply_then_rollback_nests_backups max_patch_size patch target fs es :
  (Z.of_nat (String.length (content patch)) <= max_patch_size * 1024)%Z ->
  has_rollback patch = true ->
  lookup target fs = Some (Dir es) ->
  PyDict.get (backup_name patch) es = None ->
  PyDict.get (rollback_backup_name patch) es = None ->
  let applied :=
    apply_patch max_patch_size _apply_patch_content _validate_patch_application
      patch target fs in
  let rolled_back :=
    PatchOps.rollback_patch _apply_rollback_content patch target applied.2 in
  success applied.1 = true
  /\ success rolled_back.1 = true
  /\ lookup target rolled_back.2
     = Some (Dir (es ++ [(backup_name patch, Dir es)]
                    ++ [(rollback_backup_name patch,
                         Dir (es ++ [(backup_name patch, Dir es)]))])).
Proof.
  intros Hsize Hinverse Htarget Hfresh Hfresh'. cbv zeta.
  destruct (_create_backup_fresh target (backup_name patch) fs es Htarget Hfresh)
    as (fs1 & Hbackup1 & Hlookup1).
  assert (Happlied :
    apply_patch max_patch_size _apply_patch_content _validate_patch_application
      patch target fs
    = ({| success := true; patches := [patch]; errors := []; warnings := [];
          stats := [("backup_created", target ++ [backup_name patch])] |}, fs1)).
  { unfold apply_patch, apply_patch_body.
    rewrite (proj2 (Z.ltb_ge _ _) Hsize).
    unfold bind at 1. rewrite Hbackup1.
    by unfold bind, _apply_patch_content, _validate_patch_application, ret. }
  rewrite Happlied. cbn [fst snd success].
  assert (Hfresh1 : PyDict.get (rollback_backup_name patch)
                      (es ++ [(backup_name patch, Dir es)]) = None).
  { apply get_None_not_key. unfold PyDict.keys. rewrite fmap_app.
    apply not_elem_of_app. split; [by apply get_None_not_key|].
    simpl. intros Hin%list_elem_of_singleton. by apply backup_names_differ in Hin. }
  destruct (_create_backup_fresh target (rollback_backup_name patch) fs1 _
              Hlookup1 Hfresh1) as (fs2 & Hbackup & Hlookup2).
  unfold PatchOps.rollback_patch, rollback_patch_body. rewrite Hinverse.
  cbn [negb]. unfold bind, _apply_rollback_content, ret. rewrite Hbackup.
  cbn [fst snd success].
  split_and!; [done|done|]. by rewrite Hlookup2, <- app_assoc.
Qed.
End PatchRunFacts.

(** ** Generating patches *)

Section PatchContentFacts.
Import Patch PatchOps.

Lemma first_file_inverse affected_files :
  first_file (inverse_changes affected_files) = first_file affected_files.
Proof. by destruct affected_files as [|[file ci] rest]. Qed.

Lemma diff_lines_inverse affected_files :
  diff_lines modified_line original_line affected_files
  = diff_lines original_line modified_line (inverse_changes affected_files).
Proof.
  unfold diff_lines. induction affected_files as [|[file ci] rest IH]; [done|].
  cbn [inverse_changes map concat]. by rewrite IH.
Qed.

Lemma context_lines_inverse affected_files :
  context_lines modified_line original_line affected_files
  = context_lines original_line modified_line (inverse_changes affected_files).
Proof.
  unfold context_lines. induction affected_files as [|[file ci] rest IH]; [done|].
  cbn [inverse_changes map concat]. by rewrite IH.
Qed.

(** X21: the rollback content of a patch is the forward content of
    the inverse changes, in each of the three formats (the git format
    with ["Rollback: "] before the subject); and inverting the changes
    twice gives them back, so the rollback of a rollback is the patch. *)
Theorem rollback_is_forward_of_inverse date description affected_files :
  _generate_unified_rollback_patch affected_files
  = _generate_unified_patch (inverse_changes affected_files)
  /\ _generate_context_rollback_patch affected_files
     = _generate_context_patch (inverse_changes affected_files)
  /\ _generate_git_rollback_patch date description affected_files
     = _generate_git_patch date ("Rollback: " +:+ description)
         (inverse_changes affected_files)
  /\ inverse_changes (inverse_changes affected_files) = affected_files.
Proof.
  split_and!.
  - unfold _generate_unified_rollback_patch, _generate_unified_patch.
    by rewrite first_file_inverse, diff_lines_inverse.
  - unfold _generate_context_rollback_patch, _generate_context_patch.
    by rewrite first_file_inverse, context_lines_inverse.
  - unfold _generate_git_rollback_patch, _generate_git_patch.
    by rewrite first_file_inverse, diff_lines_inverse.
  - unfold inverse_changes.
    induction affected_files as [|[file [s r d]] rest IH]; [done|].
    cbn [map]. by rewrite IH.
Qed.
End PatchContentFacts.

Section PatchGenerationFacts.
Variable hash : string -> Z.
Variable now : nat -> Z.
Variable strftime_id : Z -> string.
Variable strftime_date : Z -> string.
Variable json_dump : Patch.Patch -> PatchOps.patch_metadata -> string.
Variable patch_format : string.

Import Patch PatchOps.

Local Abbreviation _get_affected_files_from_fix :=
  (PatchOps._get_affected_files_from_fix hash).
Local Abbreviation _generate_patch_for_fix :=
  (PatchOps._generate_patch_for_fix hash now strftime_id strftime_date json_dump
     patch_format).
Local Abbreviation _generate_patches_for_fixes :=
  (PatchOps._generate_patches_for_fixes hash now strftime_id strftime_date json_dump
     patch_format).
Local Abbreviation generate_patches :=
  (PatchOps.generate_patches hash now strftime_id strftime_date json_dump
     patch_format).
Local Abbreviation contents :=
  (PatchOps.contents now strftime_date patch_format).
Lemma fold_same_file (changes : list FixEngine.code_change) file acc :
  Forall (fun c => mock_file hash (FixEngine.file_pattern c) = file) changes ->
  acc = [] \/ (exists ci, acc = [(file, ci)]) ->
  let result :=
    fold_left
      (fun affected_files change =>
         PyDict.set (mock_file hash (FixEngine.file_pattern change))
           {| ci_search_pattern := FixEngine.search_pattern change;
              ci_replace_pattern := FixEngine.replace_pattern change;
              ci_description := FixEngine.change_description change |}
           affected_files)
      changes acc in
  result = [] \/ (exists ci, result = [(file, ci)]).
Proof.
  cbv zeta. revert acc. induction changes as [|c changes IH]; intros acc Hall Hacc;
    [done|].
  apply Forall_cons in Hall as [Hc Hall]. cbn [fold_left]. apply IH; [done|].
  right. rewrite Hc. destruct Hacc as [->|[ci ->]]; simpl.
  - by eexists.
  - rewrite decide_True by done. by eexists.
Qed.

(** X22: changes of a fix that name the same file pattern fall on
    one mock file, and only the last of them survives: the patch of such
    a fix has one affected file and carries the last change alone. *)
Theorem changes_to_one_file_pattern_collapse a_fix changes last :
  FixEngine.code_changes a_fix = changes ++ [last] ->
  Forall (fun c => FixEngine.file_pattern c = FixEngine.file_pattern last) changes ->
  _get_affected_files_from_fix a_fix
  = [(mock_file hash (FixEngine.file_pattern last), change_info_of last)].
Proof.
  intros Hchanges Hsame. unfold PatchOps._get_affected_files_from_fix.
  rewrite Hchanges, fold_left_app. cbn [fold_left].
  assert (Hall : Forall (fun c => mock_file hash (FixEngine.file_pattern c)
                                  = mock_file hash (FixEngine.file_pattern last))
                   changes).
  { eapply Forall_impl; [exact Hsame|]. intros c Hc. simpl in Hc. by rewrite Hc. }
  destruct (fold_same_file changes _ [] Hall (or_introl eq_refl)) as [->|[ci ->]];
    simpl; [done|].
  by rewrite decide_True.
Qed.

Lemma contents_inverse_nonempty description affected_files st forward inverse st1 :
  contents description affected_files st = (Some (forward, inverse), st1) ->
  String.eqb inverse "" = false.
Proof.
  unfold PatchOps.contents, _generate_git_patch, _generate_git_rollback_patch,
    _generate_unified_patch, _generate_unified_rollback_patch,
    _generate_context_patch, _generate_context_rollback_patch.
  destruct (first_file affected_files) as [file|]; cbn [mbind option_bind];
    repeat case_decide; intros [= _ <- _]; reflexivity.
Qed.
Lemma append_inj_l s a b : s +:+ a = s +:+ b -> a = b.
Proof.
  induction s as [|c s IH]; [done|]. rewrite !append_cons. intros [= H]. by apply IH.
Qed.

Lemma rollback_patch_refused apply_rollback patch target fs :
  has_rollback patch = false ->
  PatchOps.rollback_patch apply_rollback patch target fs
  = (no_rollback_available patch, fs).
Proof.
  intros Hno. unfold PatchOps.rollback_patch, rollback_patch_body. by rewrite Hno.
Qed.

(** X23: what [_generate_patch_for_fix] hands out is on disk and is
    reversible exactly when the fix says so.  The patch has inverse
    content if and only if the fix has [rollback_possible]; its forward
    content is in [<id>.patch] of the output directory; with inverse
    content, that is in [<id>_rollback.patch]; without, [rollback_patch]
    refuses the patch and leaves the tree alone. *)
Theorem generated_patch_is_saved_and_reversible a_fix st patch meta st' :
  _generate_patch_for_fix a_fix st = (Generated patch meta, st') ->
  has_rollback patch = FixEngine.rollback_possible a_fix
  /\ PyDict.get (patch_id patch +:+ ".patch") (output_dir st') = Some (content patch)
  /\ (FixEngine.rollback_possible a_fix = true ->
      exists inverse,
        Patch.rollback_patch patch = Some inverse
        /\ PyDict.get (patch_id patch +:+ "_rollback.patch") (output_dir st')
           = Some inverse)
  /\ (FixEngine.rollback_possible a_fix = false ->
      forall apply_rollback target fs,
        PatchOps.rollback_patch apply_rollback patch target fs
        = (no_rollback_available patch, fs)).
Proof.
  unfold PatchOps._generate_patch_for_fix.
  destruct (_get_affected_files_from_fix a_fix) as [|entry rest] eqn:Hfiles; [done|].
  destruct (contents _ _ _) as [[[forward inverse]|] st1] eqn:Hcontents; [|done].
  pose proof (contents_inverse_nonempty _ _ _ _ _ _ Hcontents) as Hnonempty.
  intros [= <- <- <-]. rewrite Hnonempty. cbn [negb]. rewrite andb_true_r.
  set (id := "patch_" +:+ _).
  assert (Hmeta : id +:+ "_metadata.json" <> id +:+ ".patch")
    by (by intros ?%append_inj_l).
  assert (Hrb : id +:+ "_rollback.patch" <> id +:+ ".patch")
    by (by intros ?%append_inj_l).
  unfold _save_patch_to_file, has_rollback.
  cbn [Patch.rollback_patch patch_id content].
  destruct (FixEngine.rollback_possible a_fix) eqn:Hpossible.
  - rewrite Hnonempty. cbn [negb write_file output_dir].
    split_and!; [done| |by exists inverse; rewrite get_set_eq|done].
    by rewrite !get_set_ne, get_set_eq by done.
  - cbn [write_file output_dir]. split_and!; [done| |done|].
    + by rewrite get_set_ne, get_set_eq by done.
    + intros _ apply_rollback target fs. by apply rollback_patch_refused.
Qed.

Lemma unsupported_format_fix a_fix st :
  ~ supported_format patch_format ->
  exists outcome st',
    _generate_patch_for_fix a_fix st = (outcome, st')
    /\ (outcome = NoPatch \/ outcome = Failed)
    /\ output_dir st' = output_dir st
    /\ _patch_cache st' = _patch_cache st.
Proof.
  intros Hformat. unfold PatchOps._generate_patch_for_fix.
  destruct (_get_affected_files_from_fix a_fix) as [|entry rest].
  - eexists _, _. split_and!; [done|by left|done|done].
  - unfold PatchOps.contents.
    rewrite !decide_False by (intros ?; apply Hformat; unfold supported_format; tauto).
    eexists _, _. split_and!; [done|by right|done|done].
Qed.

Lemma unsupported_format_fixes fixes st :
  ~ supported_format patch_format ->
  exists st',
    _generate_patches_for_fixes fixes st = ([], st')
    /\ output_dir st' = output_dir st
    /\ _patch_cache st' = _patch_cache st.
Proof.
  intros Hformat. revert st. induction fixes as [|a_fix fixes IH]; intros st.
  - by exists st.
  - cbn [PatchOps._generate_patches_for_fixes].
    destruct (unsupported_format_fix a_fix st Hformat)
      as (outcome & st1 & -> & Houtcome & Hout1 & Hcache1).
    destruct (IH st1) as (st2 & -> & Hout2 & Hcache2).
    exists st2. split_and!; [|congruence|congruence].
    by destruct Houtcome as [-> | ->].
Qed.

(** X24: a patch format the generator does not know is not reported.
    With [patch_format] other than ["git"], ["unified"] and ["context"],
    [generate_patches] returns no patch for any list of fixes, writes
    nothing to the output directory, and memoises the empty answer. *)
Theorem unsupported_format_yields_nothing fixes st :
  ~ supported_format patch_format ->
  PyDict.get (_generate_cache_key hash fixes) (_patch_cache st) = None ->
  (generate_patches fixes st).1 = []
  /\ output_dir (generate_patches fixes st).2 = output_dir st
  /\ PyDict.get (_generate_cache_key hash fixes)
       (_patch_cache (generate_patches fixes st).2) = Some [].
Proof.
  intros Hformat Hmiss. unfold PatchOps.generate_patches. rewrite Hmiss.
  destruct (unsupported_format_fixes fixes st Hformat) as (st' & -> & Hout & Hcache).
  cbn [fst snd output_dir _patch_cache]. split_and!; [done|done|].
  unfold PyDict.add_to_cache. by rewrite get_set_eq.
Qed.
End PatchGenerationFacts.

(** ** Similarity of messages *)

Section SimilarityFacts.
Import Memory.

(** X25: the word similarity of two messages is a number between 0
    and 1, does not depend on the order of the two, and is 0 when they
    share no word (two empty messages included). *)
Theorem _calculate_similarity_bounds text1 text2 :
  in_unit_interval (_calculate_similarity text1 text2)
  /\ _calculate_similarity text1 text2 = _calculate_similarity text2 text1
  /\ (tokens text1 ∩ tokens text2 = ∅ -> (_calculate_similarity text1 text2 == 0)%Q).
Proof.
  split_and!.
  - unfold _calculate_similarity, in_unit_interval.
    case_decide as Hunion; [split; [apply Qle_refl|discriminate]|].
    assert (Hpos : (0 < size (tokens text1 ∪ tokens text2))%nat).
    { assert (size (tokens text1 ∪ tokens text2) <> 0%nat); [|lia].
      apply size_non_empty_iff. by intros ?%leibniz_equiv. }
    assert (Hle : (size (tokens text1 ∩ tokens text2)
                   <= size (tokens text1 ∪ tokens text2))%nat).
    { apply subseteq_size. intros x [Hx _]%elem_of_intersection.
      apply elem_of_union. by left. }
    assert (HposQ : (0 < inject_Z (Z.of_nat (size (tokens text1 ∪ tokens text2))))%Q).
    { change 0%Q with (inject_Z 0). rewrite <- Zlt_Qlt. lia. }
    split.
    + apply Qle_shift_div_l; [done|]. rewrite Qmult_0_l.
      change 0%Q with (inject_Z 0). rewrite <- Zle_Qle. lia.
    + apply Qle_shift_div_r; [done|]. rewrite Qmult_1_l.
      rewrite <- Zle_Qle. lia.
  - unfold _calculate_similarity.
    by rewrite (comm_L (∪) (tokens text1)), (comm_L (∩) (tokens text1)).
  - intros Hdisjoint. unfold _calculate_similarity.
    case_decide; [done|]. rewrite Hdisjoint, size_empty. simpl. apply Qmult_0_l.
Qed.
End SimilarityFacts.

(** * The further properties at concrete inputs *)

Lemma caches_stay_within_capacity_witness :
  let cst :=
    (Classifier.classify Demo.hash Demo.list_of_set
       (Classifier.init Example.rules_only) timeout_entry).2 in
  let est :=
    (FixEngine.generate_fixes Demo.hash Demo.engine Demo.warning
       Demo.pool_analysis).2 in
  ((length (Classifier._classification_cache cst) <= 500)%nat
   /\ PyDict.wf (Classifier._classification_cache cst))
  /\ ((length (FixEngine._fix_cache est) <= 200)%nat
      /\ PyDict.wf (FixEngine._fix_cache est)).
Proof.
  cbv zeta.
  apply (caches_stay_within_capacity Demo.hash Demo.list_of_set (fun _ => True)).
  - apply creach_classify, creach_init.
  - apply ereach_generate, demo_engine_reachable; exact I.
Defined.

Lemma classify_evicts_first_inserted_witness :
  length (Classifier._classification_cache Example.full_classifier) = 500%nat
  /\ PyDict.keys (Classifier._classification_cache
       (Classifier.classify Demo.hash Demo.list_of_set Example.full_classifier
          timeout_entry).2)
     = tail (PyDict.keys Example.full_cache) ++ [Demo.hash timeout_message].
Proof.
  split; [vm_compute; reflexivity|].
  apply (classify_evicts_first_inserted Demo.hash Demo.list_of_set
           Example.full_classifier timeout_message (Some [])).
  - apply (bool_decide_unpack _). vm_compute. exact I.
  - vm_compute. reflexivity.
  - apply (bool_decide_unpack _). vm_compute. exact I.
Defined.

Lemma classify_non_string_message_witness :
  Classifier.classify Demo.hash Demo.list_of_set (Classifier.init Example.rules_only)
    {| Classifier.pe_message := Some (Classifier.VOther 7);
       Classifier.pe_structured_data := None |}
  = (Classifier.fallback_classification, Classifier.init Example.rules_only).
Proof.
  apply (classify_non_string_message Demo.hash Demo.list_of_set
           (Classifier.init Example.rules_only) 7 None); reflexivity.
Defined.

Lemma classification_ignores_letter_case_witness :
  PyStr.lower "Connection TIMEOUT on DB-1" = PyStr.lower "connection timeout on db-1"
  /\ Classifier._classify_with_rules Demo.list_of_set
       Patterns._initialize_error_patterns "Connection TIMEOUT on DB-1" []
     = Classifier._classify_with_rules Demo.list_of_set
         Patterns._initialize_error_patterns "connection timeout on db-1"
         [("host", "db-1")].
Proof.
  split; [vm_compute; reflexivity|].
  apply (classification_ignores_letter_case Demo.list_of_set). vm_compute. reflexivity.
Defined.

Lemma undetected_by_search tbl message :
  forallb (fun '(_, patterns) =>
             forallb (fun p => negb (Re.search true p message)) patterns) tbl = true ->
  undetected tbl message.
Proof.
  intros Hall ty patterns p Hin Hp.
  rewrite forallb_forall in Hall. apply list_elem_of_In in Hin.
  specialize (Hall _ Hin). cbn beta iota in Hall.
  rewrite forallb_forall in Hall. apply list_elem_of_In in Hp.
  by apply negb_true_iff, Hall.
Qed.

Lemma unmatched_message_is_unknown_witness :
  let c :=
    Classifier._classify_with_rules Demo.list_of_set
      Patterns._initialize_error_patterns "the cat sat on the mat" [] in
  undetected Patterns._initialize_error_patterns "the cat sat on the mat"
  /\ Classifier.error_type c = "unknown"
  /\ Classifier.root_cause c = None
  /\ (0.2 <= Classifier.confidence c)%Q
  /\ (Classifier.confidence c <= 0.7)%Q.
Proof.
  cbv zeta.
  assert (Hno : undetected Patterns._initialize_error_patterns "the cat sat on the mat").
  { apply undetected_by_search. vm_compute. reflexivity. }
  split; [exact Hno|].
  apply (unmatched_message_is_unknown Demo.list_of_set
           Patterns._initialize_error_patterns "the cat sat on the mat" [] Hno).
Defined.

Lemma update_rules_extends_detection_witness :
  detects Example.cache_rules "cache_errors" "key evicted from cache"
  /\ "cache_errors"
     ∈ Patterns.classify_error
         (Classifier.error_patterns
            (Classifier.update_classification_rules
               (Classifier.init Example.rules_only) Example.cache_rules))
         "key evicted from cache".
Proof.
  assert (Hd : detects Example.cache_rules "cache_errors" "key evicted from cache").
  { exists [Re.lit "evicted"; Re.gap ["cache"; "miss"]], (Re.lit "evicted").
    split; [apply list_elem_of_here|]. split; [apply list_elem_of_here|].
    vm_compute. reflexivity. }
  split; [exact Hd|].
  apply (update_rules_extends_detection (Classifier.init Example.rules_only)
           Example.cache_rules "cache_errors" "key evicted from cache").
  right. exact Hd.
Defined.

Lemma critical_gate_fails_without_risk_level_witness :
  FixEngine.severity Demo.critical = "CRITICAL"
  /\ FixEngine.rule_risk_level Example.riskless_rule = None
  /\ FixEngine.generate_fixes Demo.hash Example.riskless_engine Demo.critical
       Demo.pool_analysis
     = ([], Example.riskless_engine).
Proof.
  split; [reflexivity|]. split; [reflexivity|].
  apply (critical_gate_fails_without_risk_level Demo.hash Example.riskless_engine
           Demo.critical Demo.pool_analysis Example.riskless_rule).
  - reflexivity.
  - exists "database_errors", [Demo.low_rule; Example.riskless_rule].
    split; [left; reflexivity|]. split; [vm_compute; reflexivity|].
    apply list_elem_of_further, list_elem_of_here.
  - reflexivity.
  - reflexivity.
Defined.

Lemma fix_cache_ignores_content_and_new_rules_witness :
  let first :=
    FixEngine.generate_fixes Demo.hash Demo.engine Demo.warning Demo.pool_analysis in
  (FixEngine.generate_fixes Demo.hash
     (FixEngine.add_custom_fix_rule first.2 "database_errors" Example.riskless_rule)
     Example.other_warning Demo.timeout_analysis).1
  = first.1.
Proof.
  cbv zeta.
  apply (fix_cache_ignores_content_and_new_rules Demo.hash Demo.engine Demo.warning
           Demo.pool_analysis Example.other_warning Demo.timeout_analysis
           [("database_errors", Example.riskless_rule)]).
  - vm_compute. eexists. reflexivity.
  - reflexivity.
  - reflexivity.
  - reflexivity.
  - reflexivity.
Defined.

Lemma custom_rule_contributes_witness :
  exists f fixes,
    candidate_fix Demo.pool_analysis Demo.low_rule = Some f
    /\ FixEngine._generate_fixes_for_error
         (FixEngine.fix_rules
            (FixEngine.add_custom_fix_rule FixEngine.init "database_errors"
               Demo.low_rule))
         Demo.warning Demo.pool_analysis = Some fixes
    /\ f ∈ fixes.
Proof.
  destruct (candidate_fix Demo.pool_analysis Demo.low_rule) as [f|] eqn:Hf;
    [|vm_compute in Hf; discriminate Hf].
  destruct (FixEngine._generate_fixes_for_error
              (FixEngine.fix_rules
                 (FixEngine.add_custom_fix_rule FixEngine.init "database_errors"
                    Demo.low_rule))
              Demo.warning Demo.pool_analysis) as [fixes|] eqn:Hfixes;
    [|vm_compute in Hfixes; discriminate Hfixes].
  exists f, fixes. split; [reflexivity|]. split; [reflexivity|].
  apply (custom_rule_contributes FixEngine.init "database_errors" Demo.low_rule
           Demo.warning Demo.pool_analysis f fixes).
  - reflexivity.
  - intros Hsev. vm_compute in Hsev. discriminate Hsev.
  - exact Hf.
  - exact Hfixes.
Defined.

Lemma get_incident_agrees_with_store_witness :
  let st := Demo.stored_once true in
  (MemoryOps.get_incident st "incident_0_9e107d9d").1
  = PyDict.get "incident_0_9e107d9d" (Memory._incidents st)
  /\ is_Some (PyDict.get "incident_0_9e107d9d" (Memory._incidents st)).
Proof.
  cbv zeta. split.
  - apply (get_incident_agrees_with_store Demo.md5_hexdigest Demo.strftime
             Demo.isoformat Demo.str_of_patterns (Demo.stored_once true)
             "incident_0_9e107d9d").
    exact (mreach_store Demo.md5_hexdigest Demo.strftime Demo.isoformat
             Demo.str_of_patterns _ Demo.timeout_incident (Demo.clock_at 0)
             (mreach_init Demo.md5_hexdigest Demo.strftime Demo.isoformat
                Demo.str_of_patterns (Memory.config (Demo.empty_store true)))).
  - vm_compute. eexists. reflexivity.
Defined.

Lemma deduplication_only_flags_witness :
  PyDict.get "incident_older" (Memory._incidents Example.twin_store)
  = Some Example.older
  /\ PyDict.keys (Memory._incidents (MemoryOps._perform_deduplication Example.twin_store))
     = ["incident_older"; "incident_newer"].
Proof.
  split; [reflexivity|].
  apply (deduplication_only_flags Example.twin_store "incident_older" Example.older).
  reflexivity.
Defined.


Lemma stored_incident_round_trip_witness :
  let called :=
    Memory.store_incident Demo.md5_hexdigest Demo.strftime Demo.isoformat
      Demo.str_of_patterns (Demo.empty_store true) Demo.timeout_incident
      (Demo.clock_at 0) in
  called.1 = "incident_0_9e107d9d"
  /\ (exists fetched,
        (MemoryOps.get_incident called.2 called.1).1 = Some fetched
        /\ Memory.incident_id fetched = called.1
        /\ PyDict.get "stored_at" (Memory.metadata fetched) = Some (Demo.isoformat 0)).
Proof.
  cbv zeta. split; [vm_compute; reflexivity|].
  apply (stored_incident_round_trip Demo.md5_hexdigest Demo.strftime Demo.isoformat
           Demo.str_of_patterns (Demo.empty_store true) Demo.timeout_incident
           (Demo.clock_at 0)).
  vm_compute. reflexivity.
Defined.

Lemma apply_patch_needs_a_directory_witness :
  Patch.lookup ["missing"] Demo.tree = None
  /\ exists result,
       Patch.apply_patch 1024 Patch._apply_patch_content
         Patch._validate_patch_application Demo.patch ["missing"] Demo.tree
       = (result, Demo.tree)
       /\ Patch.success result = false
       /\ Patch.patches result = []
       /\ Patch.stats result = [].
Proof.
  split; [reflexivity|].
  apply (apply_patch_needs_a_directory 1024 Patch._apply_patch_content
           Patch._validate_patch_application Demo.patch ["missing"] Demo.tree).
  right. left. reflexivity.
Defined.

Lemma apply_patch_success_leaves_backup_witness :
  Patch.lookup ["srv"] Demo.tree = Some Demo.srv
  /\ exists fs',
       Patch.apply_patch 1024 Patch._apply_patch_content
         Patch._validate_patch_application Demo.patch ["srv"] Demo.tree
       = ({| Patch.success := true; Patch.patches := [Demo.patch];
             Patch.errors := []; Patch.warnings := [];
             Patch.stats :=
               [("backup_created", ["srv"; Patch.backup_name Demo.patch])] |}, fs')
       /\ Patch.lookup ["srv"] fs'
          = Some (Patch.Dir [("app.py", Patch.File "connect_timeout = 30");
                             (Patch.backup_name Demo.patch, Demo.srv)]).
Proof.
  split; [reflexivity|].
  apply (apply_patch_success_leaves_backup 1024 Demo.patch ["srv"] Demo.tree
           [("app.py", Patch.File "connect_timeout = 30")]).
  - vm_compute. intros Hgt. discriminate Hgt.
  - reflexivity.
  - reflexivity.
Defined.

Lemma apply_then_rollback_nests_backups_witness :
  let applied :=
    Patch.apply_patch 1024 Patch._apply_patch_content
      Patch._validate_patch_application Example.reversible_patch ["srv"] Demo.tree in
  let rolled_back :=
    PatchOps.rollback_patch PatchOps._apply_rollback_content Example.reversible_patch
      ["srv"] applied.2 in
  PatchOps.has_rollback Example.reversible_patch = true
  /\ Patch.success applied.1 = true
  /\ Patch.success rolled_back.1 = true
  /\ Patch.lookup ["srv"] rolled_back.2
     = Some (Patch.Dir
               [("app.py", Patch.File "connect_timeout = 30");
                (Patch.backup_name Example.reversible_patch, Demo.srv);
                (PatchOps.rollback_backup_name Example.reversible_patch,
                 Patch.Dir [("app.py", Patch.File "connect_timeout = 30");
                            (Patch.backup_name Example.reversible_patch, Demo.srv)])]).
Proof.
  cbv zeta. split; [reflexivity|].
  apply (apply_then_rollback_nests_backups 1024 Example.reversible_patch ["srv"]
           Demo.tree [("app.py", Patch.File "connect_timeout = 30")]).
  - vm_compute. intros Hgt. discriminate Hgt.
  - reflexivity.
  - reflexivity.
  - reflexivity.
  - reflexivity.
Defined.

Lemma changes_to_one_file_pattern_collapse_witness :
  length (FixEngine.code_changes (Example.two_change_fix true)) = 2%nat
  /\ PatchOps._get_affected_files_from_fix Demo.hash (Example.two_change_fix true)
     = [(PatchOps.mock_file Demo.hash FixEngine.py_files,
         change_info_of Example.pool_change)].
Proof.
  split; [reflexivity|].
  apply (changes_to_one_file_pattern_collapse Demo.hash (Example.two_change_fix true)
           [Example.timeout_change] Example.pool_change).
  - reflexivity.
  - apply Forall_cons. split; [reflexivity|]. apply Forall_nil. exact I.
Defined.

Lemma generated_patch_is_saved_and_reversible_witness :
  exists patch meta st',
    Example._generate_patch_for_fix "unified" (Example.two_change_fix false)
      Example.generator
    = (PatchOps.Generated patch meta, st')
    /\ PatchOps.has_rollback patch = false
    /\ PyDict.get (Patch.patch_id patch +:+ ".patch") (PatchOps.output_dir st')
       = Some (Patch.content patch).
Proof.
  destruct (Example._generate_patch_for_fix "unified" (Example.two_change_fix false)
              Example.generator) as [[patch meta| |] st'] eqn:Hgen;
    [|vm_compute in Hgen; discriminate Hgen..].
  exists patch, meta, st'. split; [reflexivity|].
  destruct (generated_patch_is_saved_and_reversible Demo.hash Example.now
              Example.strftime_id Example.strftime_date Example.json_dump "unified"
              (Example.two_change_fix false) Example.generator patch meta st' Hgen)
    as (Hrollback & Hsaved & _).
  split; [exact Hrollback | exact Hsaved].
Defined.

Lemma unsupported_format_yields_nothing_witness :
  ~ supported_format "svn"
  /\ (Example.generate_patches "svn"
        [Example.two_change_fix true; Example.two_change_fix false]
        Example.generator).1 = [].
Proof.
  assert (Hformat : ~ supported_format "svn").
  { intros [H|[H|H]]; discriminate H. }
  split; [exact Hformat|].
  apply (unsupported_format_yields_nothing Demo.hash Example.now Example.strftime_id
           Example.strftime_date Example.json_dump "svn"
           [Example.two_change_fix true; Example.two_change_fix false]
           Example.generator Hformat).
  reflexivity.
Defined.
